(* ===== verification/_CoqProject ===== *)
-Q . S2P
Prelude.v
JsValue.v
RouteCache.v
Revalidate.v
PortableText.v
Groq.v
FetchCache.v
UriCodec.v
SiteConfig.v
BlogList.v
PostPage.v
Site.v
SiteRun.v
