(* ===== verification/Prelude.v ===== *)
(** * A verification development of the blog front end heriman22/blog_main

    The program is a Next.js site that renders blog posts fetched from a
    Sanity content store and keeps its page cache fresh through a webhook.
    Its parts, and how they interact:

    - the revalidation webhook ([src/app/api/revalidate/route.ts], [POST]):
      parses the request body, checks the [x-webhook-secret] header
      against [SANITY_WEBHOOK_SECRET], selects the paths to invalidate
      from the body's [_type] and [slug.current], and calls Next.js'
      [revalidatePath] on each of them; every exception becomes a 500;
    - the Next.js route cache that [revalidatePath] acts on, and the data
      cache behind [client.fetch(..., { next: { revalidate: 60 } })]
      (framework code);
    - the GROQ queries of the pages, evaluated by the content store;
    - the Portable Text component table
      ([src/app/components/PortableTextComponents.tsx]) that the
      [@portabletext/react] renderer dispatches to;
    - the listing page ([src/app/blog/page.tsx], [BlogPage]) and the
      detail page ([src/app/blog/[slug]/page.tsx], [generateMetadata],
      [PostPage]), which fetch documents, derive dates, image URLs and
      links, and hand the body to the renderer; the listing links to
      [/blog/<encodeURIComponent(slug)>] and the detail page decodes it;
      at build time [generateStaticParams] lists the raw slugs;
    - the configuration around them: the root layout and its title
      template ([src/app/layout.tsx]), the home page ([src/app/page.tsx]),
      the image hosts Next.js allows ([src/next.config.js]) and the
      content store client ([src/app/sanity/client.ts]).

    ** Files, in dependency order, and what their theorems show

    - [Prelude] (this file): the [blog_scope] notations, the [result]
      type of JavaScript exceptions, the state-and-exception monad [M]
      (with [m_catch] for [try]/[catch] and [m_map_err] where one
      component's exceptions cross another's code), the hint databases
      [blog] and [blog_simpl], and the generic lemmas on strings and
      [mapR] ([xs.map] with a callback that can throw).
    - [JsValue]: JSON values as [JSON.parse] builds them and the
      JavaScript operations the source applies to them: property access
      (last duplicate key wins, string indices and [length]), member
      access that throws on [null]/[undefined], optional chaining,
      strict equality, truthiness and the [ToString] of template literals
      and [encodeURIComponent], which throws a [TypeError] on a parsed
      object with its own [toString] member (ToPrimitive finds no
      callable method); [json_to_string_error] shows it throws nothing
      else.
    - [RouteCache]: the class [PathRevalidator] with its laws
      ([PathRevalidatorLaws]: the path becomes stale, other paths are
      untouched, idempotence, commutation), the loop [revalidate_all]
      over a list of paths, and an instance on a [gmap] of rendered pages.
    - [Revalidate]: [Module PathSelector] (lines 17-29 of [route.ts]; a
      refinement of the specification's [PathSet] for the event a body
      describes, the event itself being partial since printing the slug
      can throw, and each case of section 8, properties 1 and 2) and
      [Module Webhook] (the whole [POST] handler in [M] over the route
      cache: malformed bodies, wrong or missing secrets, [null] bodies,
      success, a slug whose printing throws, totality), proved against
      the [PathRevalidator] interface.
    - [PortableText]: the React element tree, every entry of the
      component table, and the renderer's dispatch ([Module Renderer],
      modelled from section 4.5 of the specification with the library's
      fallbacks behind the class [PortableTextFallbacks]); theorems on
      heading levels, the link target rule, the callout tone, images
      without an asset, the code language default, list grouping, and
      that one link without a string [href], in any text block or list
      item of a document, makes the whole document throw (every
      component of the table fails only with a [TypeError]).
    - [Groq]: the three queries of the pages as functions over a dataset
      in store order; the listing is a permutation of the documents of
      type ["post"] whose [publishedAt] is a string before [now()], and is
      strongly sorted by [publishedAt] descending; the single-post query
      is the first post with the slug; every slug of [ALL_POSTS_QUERY] is
      found again by the single-post query. The theorems spell the
      filters out rather than name the definitions they are about.
    - [FetchCache]: the data cache as timestamped entries with expiry on
      read and a round-trip counter; runs as a reachability relation over
      a clock that never goes back; property 7 of the specification
      (a repeated fetch within 60 seconds makes no round trip, and from
      the 60th second on it makes one again) and bounded staleness
      (every answer is the store's answer of the last 60 seconds), both
      stated with the literal window of the source; [groq_store]
      connects the store to [Groq].
    - [UriCodec]: [encodeURIComponent] and [decodeURIComponent]
      (ECMA-262 Encode and Decode, UTF-8 sequences checked against
      RFC 3629); decoding inverts encoding on every well-formed UTF-8
      string, and a trailing [%] always throws a [URIError]; the decoding
      loop terminates within its fuel. Both are ECMAScript built-ins,
      modelled from ECMA-262.
    - [BlogList]: the listing page over the posts as heap objects (so that
      [posts.indexOf(post)] compares references): priority of the first
      six thumbnails, the card per post (its link needs [slug.current]
      to print), the image fallback, and the whole page throwing on a
      post without a slug; the listing route
      with [getPosts] through the data cache; and the declared interface
      [Post] as a check ([Post_members]) under which the unchecked cast
      [as Post[]] is sound: an answer of that type never makes the route
      throw.
    - [PostPage]: one request as a state (React [cache] memo of [getPost]
      and the data cache): [generateMetadata] and [PostPage] read the
      same post, a missing post gives the not-found signal, a store
      failure, an image URL failure or a malformed slug makes the page
      throw, and a post without a date shows ["Invalid Date"];
      [generateStaticParams] composed with the page: a param without [%]
      renders its post, one ending in [%] makes the build throw; and the
      type [string[]] the build asserts of the query's answer holds
      exactly when every post's [slug.current] is a string or missing.
    - [SiteConfig]: [src/next.config.js] as a record with Next.js'
      [matchRemotePattern] (WHATWG URL parsing restricted to the URLs it
      leaves unchanged, picomatch globs for the path), and the options of
      [createClient] in [src/app/sanity/client.ts] from the environment.
    - [Site]: the root layout's metadata and Next.js' title template
      ([String.prototype.replace] with ECMA's GetSubstitution), the home
      page, the routes of the App Router, and the composition of the
      pages: the document titles, every image of the listing page is
      allowed by [next.config.js] (given the class [ImageUrlBuilderLaws]),
      and a card's link routes to a detail page that finds its post.
    - [SiteRun]: the deployed site as a state machine. Its state is the
      route cache and the data cache; its events are page requests and
      webhook calls; [step] serves a kept page or renders the route
      ([Home], [BlogPage_request], or [generateMetadata] then [PostPage]
      in one React [cache]) and runs [POST] on the route cache; [run]
      orders the events by a clock that never goes back. The invariant
      [site_inv] (the data cache holds the store's answers, every kept
      detail page shows the store's post for its segment, and the kept
      listing is [BlogPage] over a listing the store answered) holds in
      every run: a served page always shows its own path's content, and
      after the webhook the next request renders it again from data at
      most 60 seconds old, which can predate the webhook
      ([stale_after_webhook]).

    ** Bounds and fuel

    [decodeURIComponent s] runs [decode_fuel] with fuel
    [String.length s + 1]: every step consumes at least one character, and
    [decode_fuel_enough] shows that any larger fuel gives the same
    result, so the fuel never cuts a decoding short; [utf8_valid] uses
    the same bound. The other recursions are structural. Times are
    integers (seconds), and the cache window is the source's [60].

    ** Not modelled

    - The route cache is keyed by the path as requested: how Next.js
      normalises percent-encoded paths before [revalidatePath] matches
      them is not modelled, and the site-level theorems take slugs that
      are path segments decoding to themselves.
    - Whether [revalidatePath] also drops the fetched documents of the
      path: the specification leaves the data cache to the external
      layer, and the model keeps it.
    - The fonts of [next/font/google] are reached through their CSS
      variable class names, Section variables of [Site.Layout]; the font
      files themselves are not modelled.
    - Logging ([console.error]): output only.
    - Library code is reached through classes whose laws state what the
      code relies on: [PathRevalidator], [PortableTextFallbacks],
      [ImageUrlBuilder], [DateFormatter]; the route cache, the data cache
      and the content store are modelled from the specification.
    - Nested list levels of Portable Text are not modelled.
    - The data cache follows the specification's design (section 4.4
      and the design notes of section 9): an entry older than the window
      is refetched on read. Next.js itself answers such an entry once
      more while it refetches in the background (stale-while-revalidate);
      that extra stale answer is not modelled.

    ** Modelling choices

    - JSON numbers are modelled as integers ([Z]); the code never does
      arithmetic on them, it only prints them in a template literal.
    - Object prototype members (such as [constructor]) are not modelled
      as values: the keys the code reads are not among them. The one
      place where an own member shadows the prototype, [toString] under
      [ToString], is modelled.
    - Strings are Stdlib [string]s, i.e. byte strings: a JavaScript
      string is represented by its UTF-8 encoding, which is what
      [encodeURIComponent] escapes and JavaScript's [===] compares on the
      strings of this site.
    - The route parameter of the detail page is its declared type,
      [{ slug: string }]: the App Router passes the matched segment as a
      string, a contract of the framework.
    - TypeScript interfaces are records when they type a component's
      props ([MemoizedImageProps], [CodeBlockProps], [PostPageProps],
      the last one unused by the code) and boolean checks on JSON values
      when they type fetched data ([Post_members]). The [displayName]
      assignments of the memoised components only name them for the
      React developer tools and are not modelled. *)

From stdpp Require Export base list strings gmap.
From Stdlib Require Export String ZArith.

Declare Scope blog_scope.
Delimit Scope blog_scope with blog.
Open Scope blog_scope.

(** String concatenation, as the template literals of the source use it. *)
Notation "a +ₛ b" := (String.append a b) (at level 60, right associativity) : blog_scope.

(** ** Results of code that can throw *)

(** [Ok a] is a normal completion with value [a]; [Throw e] is an
    exception [e] propagating to the nearest [catch]. *)
Inductive result (E A : Type) : Type :=
| Ok (a : A)
| Throw (e : E).
Arguments Ok {E A} a.
Arguments Throw {E A} e.

#[export] Instance result_ret {E} : MRet (result E) := fun _ a => Ok a.
#[export] Instance result_bind {E} : MBind (result E) :=
  fun _ _ k r => match r with Ok a => k a | Throw e => Throw e end.

Definition is_ok {E A} (r : result E A) : bool :=
  match r with Ok _ => true | Throw _ => false end.

(** [xs.map(f)] with an [f] that can throw: the first exception wins. *)
Fixpoint mapR {E A B} (f : A -> result E B) (l : list A) : result E (list B) :=
  match l with
  | [] => Ok []
  | x :: l' => y ← f x; ys ← mapR f l'; mret (y :: ys)
  end.

(** ** A state and exception monad

    [M S E A] is a computation over a state [S] that returns an [A] or
    throws an [E]; as in JavaScript, the effects performed before a throw
    are kept. *)
Definition M (S E A : Type) : Type := S -> result E A * S.

Definition m_ret {S E A} (a : A) : M S E A := fun s => (Ok a, s).
Definition m_bind {S E A B} (m : M S E A) (k : A -> M S E B) : M S E B :=
  fun s => match m s with
           | (Ok a, s') => k a s'
           | (Throw e, s') => (Throw e, s')
           end.
Definition m_throw {S E A} (e : E) : M S E A := fun s => (Throw e, s).
Definition m_lift {S E A} (r : result E A) : M S E A := fun s => (r, s).
Definition m_modify {S E} (f : S -> S) : M S E unit := fun s => (Ok tt, f s).
(** [try { m } catch (e) { h e }] *)
Definition m_catch {S E A} (m : M S E A) (h : E -> M S E A) : M S E A :=
  fun s => match m s with
           | (Throw e, s') => h e s'
           | r => r
           end.
(** The exceptions of [m] seen through [f], where one component's
    exceptions propagate through another's code. *)
Definition m_map_err {S E1 E2 A} (f : E1 -> E2) (m : M S E1 A) : M S E2 A :=
  fun s => match m s with
           | (Ok a, s') => (Ok a, s')
           | (Throw e, s') => (Throw (f e), s')
           end.
(** [for (const x of xs) { body x }] *)
Fixpoint m_for_each {S E A} (xs : list A) (body : A -> M S E unit) : M S E unit :=
  match xs with
  | [] => m_ret tt
  | x :: xs' => m_bind (body x) (fun _ => m_for_each xs' body)
  end.

Notation "x <- m ;; k" := (m_bind m (fun x => k))
  (at level 100, m at next level, right associativity) : blog_scope.
Notation "m ;;; k" := (m_bind m (fun _ => k))
  (at level 100, right associativity) : blog_scope.

(** ** Hint database and tactics *)

Create HintDb blog discriminated.
Create Rewrite HintDb blog_simpl.

Ltac invc H := inversion H; subst; clear H.

(** Closes [r = Throw e -> e = e0] when [r] computes to a constructor. *)
Ltac throw_inv := simpl; intros; by simplify_eq.

(** ** Generic lemmas on strings *)

(** stdpp makes [String.append] opaque to [simpl]; these two equations
    are its defining clauses. *)
Lemma string_app_nil_l (b : string) : "" +ₛ b = b.
Proof. done. Qed.

Lemma string_app_cons x (a b : string) : String x a +ₛ b = String x (a +ₛ b).
Proof. done. Qed.

Lemma string_app_length (a b : string) :
  String.length (a +ₛ b) = String.length a + String.length b.
Proof. induction a as [|x a IH]; [done|]. rewrite string_app_cons; simpl; lia. Qed.

Lemma string_app_assoc (a b c : string) : (a +ₛ b) +ₛ c = a +ₛ (b +ₛ c).
Proof. induction a as [|x a IH]; [done|]. by rewrite !string_app_cons, IH. Qed.

Lemma string_app_nil_r (a : string) : a +ₛ "" = a.
Proof. induction a as [|x a IH]; [done|]. by rewrite string_app_cons, IH. Qed.

Lemma string_app_inv_l (a b c : string) : a +ₛ b = a +ₛ c -> b = c.
Proof.
  induction a as [|x a IH]; [done|].
  rewrite !string_app_cons. intros H. invc H. auto.
Qed.

(** Two strings of different lengths differ: the way most inequalities
    between the paths of the site are proved. *)
Lemma string_neq_length (a b : string) :
  String.length a <> String.length b -> a <> b.
Proof. intros Hl ->. done. Qed.

Lemma string_eqb_true (a b : string) : String.eqb a b = true <-> a = b.
Proof. apply String.eqb_eq. Qed.

Lemma string_eqb_false (a b : string) : String.eqb a b = false <-> a <> b.
Proof. apply String.eqb_neq. Qed.

Lemma string_compare_refl (s : string) : String.compare s s = Eq.
Proof.
  induction s as [|c s IH]; [done|]. simpl.
  unfold Ascii.compare. by rewrite N.compare_refl.
Qed.

Lemma string_ltb_irrefl (s : string) : String.ltb s s = false.
Proof. unfold String.ltb. by rewrite string_compare_refl. Qed.

#[export] Hint Rewrite string_app_nil_l string_app_cons string_app_length
  string_app_assoc string_app_nil_r : blog_simpl.

(** Proves [a <> b] between strings built by concatenation whose lengths
    differ. *)
Ltac solve_string_neq :=
  apply string_neq_length; autorewrite with blog_simpl; simpl; lia.

(** ** Generic lemmas on [result] and the monad *)

Lemma result_bind_throw {E A B} (m : result E A) (k : A -> result E B) e :
  (x ← m; k x) = Throw e -> m = Throw e \/ exists a, m = Ok a /\ k a = Throw e.
Proof. destruct m; simpl; [right; eauto | intros [= ->]; by left]. Qed.

(** The first element of a list that satisfies [p]. *)
Lemma head_filter_first {A} (p : A -> bool) (l : list A) x :
  head (filter (fun y => p y = true) l) = Some x <->
  exists pre suf, l = pre ++ x :: suf /\ p x = true /\ Forall (fun y => p y = false) pre.
Proof.
  induction l as [|y l IH]; simpl.
  - split; [done|]. intros ([|] & ? & ? & _); simplify_list_eq.
  - rewrite filter_cons. destruct (decide (p y = true)) as [Hy|Hy]; simpl.
    + split.
      * intros [= <-]. by exists [], l.
      * intros ([|z pre] & suf & Heq & Hx & Hpre); simplify_list_eq; try done.
        inversion Hpre; congruence.
    + rewrite IH. split.
      * intros (pre & suf & -> & Hx & Hpre). exists (y :: pre), suf.
        split_and!; [done | done | constructor; [by apply not_true_is_false | done]].
      * intros ([|z pre] & suf & Heq & Hx & Hpre); simplify_list_eq; try done.
        exists pre, suf. by inversion Hpre.
Qed.

Lemma mapR_ok {E A B} (f : A -> result E B) (l : list A) :
  (forall x, x ∈ l -> exists y, f x = Ok y) -> exists ys, mapR f l = Ok ys.
Proof.
  induction l as [|x l IH]; intros Hf; [by exists []|].
  destruct (Hf x) as [y Hy]; [by apply elem_of_cons; left|].
  destruct IH as [ys Hys]; [intros z Hz; apply Hf; by apply elem_of_cons; right|].
  exists (y :: ys). simpl. by rewrite Hy, Hys.
Qed.

(** When [f] throws only [e], [mapR f] throws [e] as soon as one element
    makes it throw. *)
Lemma mapR_throw {E A B} (f : A -> result E B) (l : list A) (e : E) :
  (forall x, x ∈ l -> f x = Throw e \/ exists y, f x = Ok y) ->
  (exists x, x ∈ l /\ f x = Throw e) -> mapR f l = Throw e.
Proof.
  induction l as [|x l IH]; intros Hf (z & Hz & Hze); [by apply not_elem_of_nil in Hz|].
  simpl. destruct (Hf x) as [Hx|[y Hy]]; [by left| |]; [by rewrite Hx|].
  rewrite Hy. simpl. rewrite IH; [done | intros w Hw; apply Hf; by right|].
  apply elem_of_cons in Hz as [->|Hz]; [congruence | eauto].
Qed.

(** When every failure of [f] on [l] is [e], one failure makes the
    whole map fail with [e]. *)
Lemma mapR_throw_only {E A B} (f : A -> result E B) (l : list A) (e : E) :
  (forall x e', x ∈ l -> f x = Throw e' -> e' = e) ->
  (exists x, x ∈ l /\ f x = Throw e) -> mapR f l = Throw e.
Proof.
  intros Hall. apply mapR_throw. intros x Hx.
  destruct (f x) as [y|e'] eqn:Ex; [right; eauto | left; f_equal; eauto].
Qed.

Lemma mapR_throw_inv {E A B} (f : A -> result E B) (l : list A) (e : E) :
  mapR f l = Throw e -> exists x, x ∈ l /\ f x = Throw e.
Proof.
  induction l as [|x l IH]; simpl; [discriminate|].
  intros [Hx|(y & _ & Hr)]%result_bind_throw; [exists x; split; [by left | done]|].
  apply result_bind_throw in Hr as [Hr|(? & _ & ?)]; [|discriminate].
  destruct (IH Hr) as (z & Hz & Hze). exists z. split; [by right | done].
Qed.

Lemma mapR_lookup {E A B} (f : A -> result E B) (l : list A) ys i x :
  mapR f l = Ok ys -> l !! i = Some x -> exists y, ys !! i = Some y /\ f x = Ok y.
Proof.
  revert ys i. induction l as [|z l IH]; intros ys i Hm Hi; [done|]. simpl in Hm.
  destruct (f z) as [y|] eqn:Ez; [|done]. simpl in Hm.
  destruct (mapR f l) as [ys'|] eqn:El; [|done]. simpl in Hm. injection Hm as <-.
  destruct i as [|i]; simpl in Hi; [injection Hi as ->; by exists y|]. simpl. by apply IH.
Qed.

Lemma mapR_length {E A B} (f : A -> result E B) (l : list A) ys :
  mapR f l = Ok ys -> List.length ys = List.length l.
Proof.
  revert ys. induction l as [|z l IH]; intros ys Hm; simpl in Hm; [by injection Hm as <-|].
  destruct (f z); [|done]. simpl in Hm. destruct (mapR f l) as [ys'|] eqn:El; [|done].
  simpl in Hm. injection Hm as <-. simpl. f_equal. by apply IH.
Qed.

Lemma mapR_elem {E A B} (f : A -> result E B) (l : list A) ys y :
  mapR f l = Ok ys -> y ∈ ys -> exists x, x ∈ l /\ f x = Ok y.
Proof.
  revert ys. induction l as [|z l IH]; intros ys Hm Hy; simpl in Hm.
  - injection Hm as <-. by apply not_elem_of_nil in Hy.
  - destruct (f z) as [y'|] eqn:Ez; [|done]. simpl in Hm.
    destruct (mapR f l) as [ys'|] eqn:El; [|done]. simpl in Hm. injection Hm as <-.
    apply elem_of_cons in Hy as [->|Hy]; [exists z; split; [left | done]|].
    destruct (IH ys' eq_refl Hy) as (x & Hx & Hf). exists x. split; [by right | done].
Qed.

(** ** Generic lemmas on the monad *)

Section MonadLemmas.
Context {S E : Type}.

Lemma m_bind_ret {A B} (a : A) (k : A -> M S E B) s :
  m_bind (m_ret a) k s = k a s.
Proof. done. Qed.

Lemma m_bind_lift {A B} (r : result E A) (k : A -> M S E B) s :
  m_bind (m_lift r) k s = match r with Ok a => k a s | Throw e => (Throw e, s) end.
Proof. by destruct r. Qed.

Lemma m_catch_ok {A} (m : M S E A) h s a s' :
  m s = (Ok a, s') -> m_catch m h s = (Ok a, s').
Proof. unfold m_catch. by intros ->. Qed.

Lemma m_catch_throw {A} (m : M S E A) h s e s' :
  m s = (Throw e, s') -> m_catch m h s = h e s'.
Proof. unfold m_catch. by intros ->. Qed.

Lemma m_for_each_modify (xs : list string) (f : string -> S -> S) (s : S) :
  m_for_each xs (fun x => m_modify (E := E) (f x)) s
  = (Ok tt, foldl (fun s x => f x s) s xs).
Proof.
  revert s. induction xs as [|x xs IH]; intros s; simpl; [done|].
  unfold m_bind, m_modify at 1. apply IH.
Qed.
End MonadLemmas.

#[export] Hint Rewrite @m_bind_ret @m_bind_lift @m_for_each_modify : blog_simpl.
