(* ===== verification/JsValue.v ===== *)
(** * JSON values and the JavaScript operations the source applies to them

    [JSON.parse] (behind [req.json()]) builds a [json] value; the handler
    reads properties of it ([body._type], [body.slug?.current]), compares
    with [===], tests truthiness and prints values in template literals.
    This file gives each of these operations the semantics ECMAScript
    gives it on values built by [JSON.parse]. *)

From S2P Require Import Prelude.
From Stdlib Require Import DecimalString.
#[local] Set Warnings "-register-all".

(** ** Values *)

(** What [JSON.parse] returns. Numbers are integers here (see the header
    of [Prelude]); object members are kept in text order, duplicates
    included. *)
Inductive json : Type :=
| JNull
| JBool (b : bool)
| JNum (n : Z)
| JStr (s : string)
| JArr (xs : list json)
| JObj (fields : list (string * json)).

(** A value as the code observes it: a JSON value or [undefined], the
    result of reading a property that is absent (and of an unset
    environment variable). *)
Inductive jsval : Type :=
| JUndefined
| JVal (j : json).

Definition jstr (s : string) : jsval := JVal (JStr s).
Definition jnum (n : Z) : jsval := JVal (JNum n).

(** The exceptions the modelled code can raise. *)
Inductive js_error : Type :=
| TypeError
| SyntaxError
| URIError.

#[export] Instance js_error_eq_dec : EqDecision js_error.
Proof. solve_decision. Qed.

(** ** Property access *)

(** [JSON.parse] assigns members in text order, so a later duplicate key
    overwrites an earlier one: the lookup returns the last binding. *)
Fixpoint obj_lookup (k : string) (fs : list (string * json)) : option json :=
  match fs with
  | [] => None
  | (k', v) :: fs' =>
      match obj_lookup k fs' with
      | Some v' => Some v'
      | None => if String.eqb k k' then Some v else None
      end
  end.

(** The canonical array index a property key denotes, if any: a decimal
    numeral without leading zeros. *)
Definition canonical_index (k : string) : option N :=
  match NilEmpty.uint_of_string k with
  | Some u =>
      let n := N.of_uint u in
      if String.eqb (NilEmpty.string_of_uint (N.to_uint n)) k then Some n else None
  | None => None
  end.

(** [v[k]] on a value that is neither [null] nor [undefined]: own members
    of objects, [length] and indexes of strings and arrays; anything else
    is [undefined]. *)
Definition get_prop (j : json) (k : string) : jsval :=
  match j with
  | JObj fs => match obj_lookup k fs with Some v => JVal v | None => JUndefined end
  | JStr s =>
      if String.eqb k "length" then JVal (JNum (Z.of_nat (String.length s))) else
      match canonical_index k with
      | Some i =>
          match String.get (N.to_nat i) s with
          | Some c => JVal (JStr (String c EmptyString))
          | None => JUndefined
          end
      | None => JUndefined
      end
  | JArr xs =>
      if String.eqb k "length" then JVal (JNum (Z.of_nat (List.length xs))) else
      match canonical_index k with
      | Some i => if (i <? N.of_nat (List.length xs))%N
                  then match xs !! N.to_nat i with Some v => JVal v | None => JUndefined end
                  else JUndefined
      | None => JUndefined
      end
  | _ => JUndefined
  end.

Definition nullish (v : jsval) : bool :=
  match v with JUndefined | JVal JNull => true | _ => false end.

(** [v.k], and the destructuring [const { k } = v]: a [TypeError] when
    [v] is [null] or [undefined]. *)
Definition member (v : jsval) (k : string) : result js_error jsval :=
  match v with
  | JUndefined | JVal JNull => Throw TypeError
  | JVal j => Ok (get_prop j k)
  end.

(** [v?.k]: [undefined] when [v] is [null] or [undefined]. *)
Definition opt_member (v : jsval) (k : string) : jsval :=
  match v with
  | JUndefined | JVal JNull => JUndefined
  | JVal j => get_prop j k
  end.

(** ** Truthiness, equality, printing *)

Definition truthy (v : jsval) : bool :=
  match v with
  | JUndefined => false
  | JVal JNull => false
  | JVal (JBool b) => b
  | JVal (JNum n) => negb (Z.eqb n 0)
  | JVal (JStr s) => negb (String.eqb s "")
  | JVal (JArr _) | JVal (JObj _) => true
  end.

(** [a === b]. Two objects or arrays are equal only when they are the
    same reference; the values compared by the code are never objects,
    and two distinct parsed objects are distinct references. *)
Definition strict_eq (a b : jsval) : bool :=
  match a, b with
  | JUndefined, JUndefined => true
  | JVal JNull, JVal JNull => true
  | JVal (JBool x), JVal (JBool y) => Bool.eqb x y
  | JVal (JNum x), JVal (JNum y) => Z.eqb x y
  | JVal (JStr x), JVal (JStr y) => String.eqb x y
  | _, _ => false
  end.

Definition string_of_Z (n : Z) : string :=
  NilZero.string_of_int (Z.to_int n).

(** [ToString], as a template literal [`${v}`] and [encodeURIComponent]
    apply it. An array is printed by [Array.prototype.join] with [","],
    [null] elements as the empty string. An object goes through
    [ToPrimitive] with hint string: its [toString], then its [valueOf],
    is called when it is a function. A parsed object inherits both from
    [Object.prototype] unless it has an own member of that name, which
    is never a function: with an own [toString] it falls to the
    inherited [valueOf], which returns the object itself, and
    [ToPrimitive] throws a [TypeError]; otherwise the inherited
    [toString] gives ["[object Object]"]. *)
Fixpoint json_to_string (j : json) : result js_error string :=
  match j with
  | JNull => Ok "null"
  | JBool true => Ok "true"
  | JBool false => Ok "false"
  | JNum n => Ok (string_of_Z n)
  | JStr s => Ok s
  | JArr xs =>
      ss ← (fix elems (xs : list json) : result js_error (list string) :=
              match xs with
              | [] => Ok []
              | JNull :: xs' => rest ← elems xs'; mret ("" :: rest)
              | x :: xs' => s ← json_to_string x; rest ← elems xs'; mret (s :: rest)
              end) xs;
      mret (String.concat "," ss)
  | JObj fs =>
      match obj_lookup "toString" fs with
      | Some _ => Throw TypeError
      | None => Ok "[object Object]"
      end
  end.

Definition to_string (v : jsval) : result js_error string :=
  match v with
  | JUndefined => Ok "undefined"
  | JVal j => json_to_string j
  end.

(** ** Lemmas *)

Definition json_null_dec (j : json) : {j = JNull} + {j <> JNull}.
Proof. destruct j; [left; done | right; discriminate ..]. Defined.

Lemma strict_eq_str_true (v : jsval) (s : string) :
  strict_eq v (JVal (JStr s)) = true <-> v = JVal (JStr s).
Proof.
  split.
  - destruct v as [|[]]; simpl; try discriminate.
    intros H. apply string_eqb_true in H. by subst.
  - intros ->. simpl. by apply string_eqb_true.
Qed.

(** An optional chain that yields a truthy value could be read with a
    plain member access without throwing. *)
Lemma member_of_truthy_opt_member (v : jsval) (k : string) :
  truthy (opt_member v k) = true -> member v k = Ok (opt_member v k).
Proof. destruct v as [|[]]; simpl; done. Qed.

Lemma member_nonnullish (j : json) (k : string) :
  j <> JNull -> member (JVal j) k = Ok (get_prop j k).
Proof. destruct j; simpl; done. Qed.

Lemma opt_member_nonnullish (j : json) (k : string) :
  j <> JNull -> opt_member (JVal j) k = get_prop j k.
Proof. destruct j; simpl; done. Qed.

Lemma obj_lookup_last k (v : json) fs :
  obj_lookup k (fs ++ [(k, v)]) = Some v.
Proof.
  induction fs as [|[k' v'] fs IH]; simpl.
  - by rewrite (proj2 (string_eqb_true k k) eq_refl).
  - by rewrite IH.
Qed.

Lemma to_string_str (s : string) : to_string (JVal (JStr s)) = Ok s.
Proof. done. Qed.

(** [ToString] of a parsed value fails only with a [TypeError]. *)
Lemma json_to_string_error (j : json) e : json_to_string j = Throw e -> e = TypeError.
Proof.
  revert j e. fix IH 1. intros [| [] | n | s | xs | fs] e; simpl; try discriminate.
  - intros Hr. apply result_bind_throw in Hr as [Hr|(? & _ & ?)]; [|discriminate].
    revert e Hr. revert xs. fix IHl 1. intros [|x xs'] e; simpl; [discriminate|].
    pose proof (IH x) as IHx. clear IH. destruct x; intros Hr;
      repeat (apply result_bind_throw in Hr as [Hr|(? & _ & Hr)]; [by eauto|]);
      discriminate.
  - destruct (obj_lookup "toString" fs); congruence.
Qed.

Lemma to_string_error (v : jsval) e : to_string v = Throw e -> e = TypeError.
Proof. destruct v; [discriminate | apply json_to_string_error]. Qed.

Lemma truthy_str (s : string) : truthy (JVal (JStr s)) = true <-> s <> "".
Proof.
  simpl. rewrite negb_true_iff. apply string_eqb_false.
Qed.

#[export] Hint Rewrite to_string_str : blog_simpl.
#[export] Hint Resolve member_nonnullish member_of_truthy_opt_member : blog.
