(* ===== verification/RouteCache.v ===== *)
(** * The route cache that [revalidatePath] invalidates

    [revalidatePath] is Next.js code (imported from [next/cache] by
    [src/app/api/revalidate/route.ts]); the handler only relies on what it
    promises. [PathRevalidator] names the operation and the observation
    "is the page of this path cached and fresh"; [PathRevalidatorLaws]
    states the contract of the specification (section 4.3): the path
    becomes stale, other paths are untouched, invalidation is idempotent
    and order-independent. The handler's theorems are proved against the
    class; [route_cache_laws] discharges it for a cache of rendered pages
    kept in a [gmap], which also models serving a page through the
    cache. *)

From S2P Require Import Prelude.

Class PathRevalidator (C : Type) := {
  revalidatePath : string -> C -> C;
  is_fresh : C -> string -> bool
}.

Class PathRevalidatorLaws (C : Type) `{!PathRevalidator C} := {
  revalidate_stale p c : is_fresh (revalidatePath p c) p = false;
  revalidate_other p q c : p <> q -> is_fresh (revalidatePath p c) q = is_fresh c q;
  revalidate_idem p c : revalidatePath p (revalidatePath p c) = revalidatePath p c;
  revalidate_comm p q c :
    revalidatePath p (revalidatePath q c) = revalidatePath q (revalidatePath p c)
}.

(** [for (const path of ps) revalidatePath(path)], as a fold. *)
Definition revalidate_all `{PathRevalidator C} (ps : list string) (c : C) : C :=
  foldl (fun c p => revalidatePath p c) c ps.

Section Laws.
Context `{PathRevalidatorLaws C}.

Lemma revalidate_all_cons p ps c :
  revalidate_all (p :: ps) c = revalidate_all ps (revalidatePath p c).
Proof. done. Qed.

Lemma revalidate_all_app ps1 ps2 c :
  revalidate_all (ps1 ++ ps2) c = revalidate_all ps2 (revalidate_all ps1 c).
Proof. unfold revalidate_all. apply foldl_app. Qed.

Lemma revalidate_all_commute p ps c :
  revalidate_all ps (revalidatePath p c) = revalidatePath p (revalidate_all ps c).
Proof.
  revert c. induction ps as [|q ps IH]; intros c; [done|].
  rewrite !revalidate_all_cons, revalidate_comm. apply IH.
Qed.

(** The order of the invalidations does not matter. *)
Lemma revalidate_all_perm ps ps' c :
  ps ≡ₚ ps' -> revalidate_all ps c = revalidate_all ps' c.
Proof.
  intros Hp. revert c. induction Hp as [|p ps ps' _ IH|p q ps|ps ps' ps'' _ IH1 _ IH2];
    intros c; rewrite ?revalidate_all_cons.
  - done.
  - apply IH.
  - by rewrite revalidate_comm.
  - by rewrite IH1, IH2.
Qed.

Lemma revalidate_all_fresh ps c q :
  is_fresh (revalidate_all ps c) q = if decide (q ∈ ps) then false else is_fresh c q.
Proof.
  revert c. induction ps as [|p ps IH]; intros c.
  - rewrite decide_False; [done | apply not_elem_of_nil].
  - rewrite revalidate_all_cons, IH.
    repeat case_decide; try done;
      destruct (decide (p = q)) as [->|Hne]; try (exfalso; set_solver).
    + apply revalidate_stale.
    + by apply revalidate_other.
Qed.

(** Invalidating the same paths twice is invalidating them once. *)
Lemma revalidate_all_twice ps c :
  revalidate_all ps (revalidate_all ps c) = revalidate_all ps c.
Proof.
  rewrite <- revalidate_all_app. revert c.
  induction ps as [|p ps IH]; intros c; [done|].
  rewrite (revalidate_all_perm ((p :: ps) ++ p :: ps) (p :: p :: ps ++ ps));
    [| simpl; constructor; symmetry; apply Permutation_middle].
  rewrite !revalidate_all_cons, revalidate_idem. apply IH.
Qed.
End Laws.

(** ** Next.js' route cache as a map from paths to rendered pages *)

Section NextRouteCache.
Context {Page : Type}.

(** [revalidatePath(p)] drops the cached render of [p]. *)
#[export] Instance route_cache_revalidator : PathRevalidator (gmap string Page) := {|
  revalidatePath p m := delete p m;
  is_fresh m p := bool_decide (is_Some (m !! p))
|}.

#[export] Instance route_cache_laws : PathRevalidatorLaws (gmap string Page).
Proof.
  split; simpl.
  - intros p m. rewrite lookup_delete_eq. by apply bool_decide_eq_false.
  - intros p q m Hne. by rewrite lookup_delete_ne.
  - intros p m. apply delete_delete_eq.
  - intros p q m. apply delete_delete.
Qed.

(** Serving a request for [p]: the cached render when there is one,
    otherwise a fresh render [regen p], which is then cached. *)
Definition serve (regen : string -> Page) (p : string) (m : gmap string Page)
  : Page * gmap string Page :=
  match m !! p with
  | Some pg => (pg, m)
  | None => let pg := regen p in (pg, <[p:=pg]> m)
  end.

Lemma serve_stale (regen : string -> Page) p m :
  is_fresh m p = false -> serve regen p m = (regen p, <[p:=regen p]> m).
Proof.
  simpl. intros H. apply bool_decide_eq_false in H.
  unfold serve. destruct (m !! p); [exfalso; by apply H | done].
Qed.
(** Revalidation only drops pages. *)
Lemma revalidate_all_lookup_Some ps (m : gmap string Page) k pg :
  revalidate_all ps m !! k = Some pg -> m !! k = Some pg.
Proof.
  revert m. induction ps as [|p ps IH]; intros m; [done|].
  rewrite revalidate_all_cons. intros Hk%IH. simpl in Hk. by apply lookup_delete_Some in Hk as [_ ?].
Qed.
End NextRouteCache.
