(* ===== verification/Revalidate.v ===== *)
(** * The revalidation webhook ([src/app/api/revalidate/route.ts])

    [Module PathSelector] models the lines of [POST] that compute
    [pathsToRevalidate] from the parsed body, and the abstract [PathSet]
    of the specification (section 4.2) they refine. [Module Webhook]
    models the whole handler: [await req.json()], the secret check, the
    path selection, the [revalidatePath] loop and the [catch] that turns
    every exception into a 500. The handler runs in the monad [M] over
    any route cache that satisfies [PathRevalidatorLaws]. *)

From S2P Require Import Prelude JsValue RouteCache.

Module PathSelector.

(** [pathsToRevalidate.push(p)] *)
Definition push (ps : list string) (p : string) : list string := ps ++ [p].

(** Lines 17-29, [body] being the parsed request body:
    [const { _type } = body] (a [TypeError] when [body] is [null]),
    the initial ['/'], the push of ['/blog'] for a post, and the push
    of [`/blog/${body.slug.current}`] when [body.slug?.current] is
    truthy; the template literal applies [ToString], which can throw. *)
Definition pathsToRevalidate (body : jsval) : result js_error (list string) :=
  _type ← member body "_type";
  let ps := ["/"] in
  if strict_eq _type (JVal (JStr "post")) then
    let ps := push ps "/blog" in
    slug ← member body "slug";
    if truthy (opt_member slug "current") then
      slug' ← member body "slug";
      cur ← member slug' "current";
      s ← to_string cur;
      mret (push ps ("/blog/" +ₛ s))
    else mret ps
  else mret ps.

(** ** The specification's view: a content-change event and its path set *)

Record ContentChangeEvent := {
  documentType : option string;
  slug : option string
}.

(** The event a parsed body describes, as the handler reads it: the
    [_type] when it is a string, and for a post the printed
    [slug.current] when it is truthy. Printing can throw, and then the
    body describes no event. *)
Definition event_of_body (j : json) : result js_error ContentChangeEvent :=
  let t := get_prop j "_type" in
  sl ← (if strict_eq t (JVal (JStr "post")) then
          let cur := opt_member (get_prop j "slug") "current" in
          if truthy cur then s ← to_string cur; mret (Some s) else mret None
        else mret None);
  mret {| documentType := match t with JVal (JStr t) => Some t | _ => None end;
          slug := sl |}.

(** The rule table of section 4.2: ['/'] always, ['/blog'] for a post,
    [/blog/{slug}] for a post with a slug. *)
Definition selectPaths (ev : ContentChangeEvent) : gset string :=
  {["/"]} ∪
  (if decide (documentType ev = Some "post") then
     {["/blog"]} ∪ (match slug ev with Some s => {["/blog/" +ₛ s]} | None => ∅ end)
   else ∅).

(** ** Lemmas *)

Lemma documentType_post (t : jsval) :
  match t with JVal (JStr t) => Some t | _ => None end = Some "post" <->
  strict_eq t (JVal (JStr "post")) = true.
Proof. rewrite strict_eq_str_true. destruct t as [|[]]; split; congruence. Qed.

Lemma blog_slug_neq (s : string) : "/blog/" +ₛ s <> "/blog" /\ "/blog/" +ₛ s <> "/".
Proof. split; solve_string_neq. Qed.

Lemma NoDup_root_blog : NoDup ["/"; "/blog"].
Proof. repeat constructor; set_solver. Qed.

Lemma NoDup_root_blog_slug (s : string) : NoDup ["/"; "/blog"; "/blog/" +ₛ s].
Proof.
  destruct (blog_slug_neq s). repeat constructor; set_solver.
Qed.

(** The body read by [pathsToRevalidate] once [_type] is destructured. *)
Lemma pathsToRevalidate_nonnull (j : json) :
  j <> JNull ->
  pathsToRevalidate (JVal j) =
    if strict_eq (get_prop j "_type") (JVal (JStr "post")) then
      let cur := opt_member (get_prop j "slug") "current" in
      if truthy cur then s ← to_string cur; Ok ["/"; "/blog"; "/blog/" +ₛ s]
      else Ok ["/"; "/blog"]
    else Ok ["/"].
Proof.
  intros Hj. unfold pathsToRevalidate.
  rewrite !(member_nonnullish j) by done. simpl.
  destruct (strict_eq _ _); [|done].
  destruct (truthy _) eqn:Ht; [|done].
  by rewrite member_of_truthy_opt_member.
Qed.

(** The selection throws exactly when printing the event's slug throws,
    and otherwise selects the event's paths. *)
Lemma pathsToRevalidate_event (j : json) :
  j <> JNull ->
  match event_of_body j with
  | Ok ev => exists ps, pathsToRevalidate (JVal j) = Ok ps /\ list_to_set ps = selectPaths ev
  | Throw e => pathsToRevalidate (JVal j) = Throw e
  end.
Proof.
  intros Hj. rewrite pathsToRevalidate_nonnull by done. unfold event_of_body, selectPaths.
  destruct (strict_eq _ _) eqn:Hpost; simpl.
  - destruct (truthy _); [destruct (to_string _)|]; simpl; try done;
      rewrite decide_True by (by apply documentType_post);
      eexists; (split; [done | set_solver]).
  - rewrite decide_False by (rewrite documentType_post; congruence).
    eexists; (split; [done | set_solver]).
Qed.

Lemma pathsToRevalidate_NoDup (body : jsval) ps :
  pathsToRevalidate body = Ok ps -> NoDup ps.
Proof.
  destruct body as [|j]; [done|]. destruct (json_null_dec j) as [->|Hj]; [done|].
  rewrite pathsToRevalidate_nonnull by done.
  cbv zeta. destruct (strict_eq _ _); [destruct (truthy _); [destruct (to_string _)|]|];
    intros [= <-].
  - apply NoDup_root_blog_slug.
  - apply NoDup_root_blog.
  - apply NoDup_singleton.
Qed.

(** ** Properties *)

(** C1. Refinement of the specification's path selector: for every
    parsed body other than [null], when the body describes an event the
    code returns a list without duplicates whose elements are exactly
    the paths the rule table of section 4.2 selects for it; when
    printing the post's [slug.current] throws (an object with its own
    [toString] member), the selection throws the same error. *)
Theorem pathsToRevalidate_refines (j : json) :
  j <> JNull ->
  match event_of_body j with
  | Ok ev => exists ps, pathsToRevalidate (JVal j) = Ok ps /\ NoDup ps /\
                        list_to_set ps = selectPaths ev
  | Throw e => pathsToRevalidate (JVal j) = Throw e
  end.
Proof.
  intros Hj. pose proof (pathsToRevalidate_event j Hj) as He.
  destruct (event_of_body j); [|done]. destruct He as (ps & Hps & Hset).
  exists ps. split_and!; [done | by eapply pathsToRevalidate_NoDup | done].
Qed.

Lemma strict_eq_post_obj (fs : list (string * json)) :
  obj_lookup "_type" fs = Some (JStr "post") ->
  strict_eq (get_prop (JObj fs) "_type") (JVal (JStr "post")) = true.
Proof. intros H. simpl. rewrite H. by apply strict_eq_str_true. Qed.

(** Section 8, property 1: a body whose [_type] is anything but the
    string ["post"] (another string, a number, absent, ...) selects
    exactly ["/"]. *)
Theorem pathsToRevalidate_not_post (j : json) :
  j <> JNull -> get_prop j "_type" <> JVal (JStr "post") ->
  pathsToRevalidate (JVal j) = Ok ["/"].
Proof.
  intros Hj Ht. rewrite pathsToRevalidate_nonnull by done.
  destruct (strict_eq _ _) eqn:E; [|done].
  apply strict_eq_str_true in E. contradiction.
Qed.

(** Section 8, property 2, first half: a post without a [slug]
    member selects ["/"] and ["/blog"], in this order. *)
Theorem pathsToRevalidate_post_no_slug (fs : list (string * json)) :
  obj_lookup "_type" fs = Some (JStr "post") -> obj_lookup "slug" fs = None ->
  pathsToRevalidate (JVal (JObj fs)) = Ok ["/"; "/blog"].
Proof.
  intros Ht Hs. rewrite pathsToRevalidate_nonnull by done.
  rewrite strict_eq_post_obj by done. simpl. by rewrite Hs.
Qed.

(** Section 8, property 2, second half: a post whose
    [slug.current] is a non-empty string [s] selects ["/"], ["/blog"]
    and ["/blog/" ++ s], in this order. *)
Theorem pathsToRevalidate_post_slug (fs gs : list (string * json)) (s : string) :
  obj_lookup "_type" fs = Some (JStr "post") ->
  obj_lookup "slug" fs = Some (JObj gs) ->
  obj_lookup "current" gs = Some (JStr s) -> s <> "" ->
  pathsToRevalidate (JVal (JObj fs)) = Ok ["/"; "/blog"; "/blog/" +ₛ s].
Proof.
  intros Ht Hs Hc Hne. rewrite pathsToRevalidate_nonnull by done.
  rewrite strict_eq_post_obj by done. simpl. rewrite Hs. simpl. rewrite Hc.
  by rewrite (proj2 (truthy_str s) Hne).
Qed.

(** The slug path is built by a template literal from whatever
    truthy value [slug.current] holds, not only from strings: a number
    is printed in decimal, an object as ["[object Object]"], and an
    object with its own [toString] member makes the selection throw. *)
Theorem pathsToRevalidate_slug_printed (fs gs : list (string * json)) (v : json) :
  obj_lookup "_type" fs = Some (JStr "post") ->
  obj_lookup "slug" fs = Some (JObj gs) ->
  obj_lookup "current" gs = Some v -> truthy (JVal v) = true ->
  pathsToRevalidate (JVal (JObj fs)) =
    (s ← json_to_string v; Ok ["/"; "/blog"; "/blog/" +ₛ s]).
Proof.
  intros Ht Hs Hc Hv. rewrite pathsToRevalidate_nonnull by done.
  rewrite strict_eq_post_obj by done. simpl. rewrite Hs. simpl. rewrite Hc.
  by rewrite Hv.
Qed.
End PathSelector.

Module Webhook.
Import PathSelector.

(** The parts of the [NextRequest] the handler reads: the body, which
    [req.json()] parses ([None] when it is not JSON text), and the
    [x-webhook-secret] header ([None] when absent: [headers.get]
    returns [null]). *)
Record request := {
  req_json : option json;
  req_secret : option string
}.

Record response := {
  status : Z;
  payload : json
}.

(** [NextResponse.json(payload, { status })] *)
Definition json_response (payload : json) (status : Z) : response :=
  {| status := status; payload := payload |}.

Definition resp_unauthorized : response :=
  json_response (JObj [("message", JStr "Invalid secret")]) 401.
Definition resp_ok : response :=
  json_response (JObj [("revalidated", JBool true);
                       ("message", JStr "Revalidation triggered")]) 200.
Definition resp_error : response :=
  json_response (JObj [("revalidated", JBool false);
                       ("message", JStr "Error revalidating")]) 500.

(** [await req.json()]: rejects with a [SyntaxError] on malformed text. *)
Definition parse_body (req : request) : result js_error jsval :=
  match req_json req with
  | Some j => Ok (JVal j)
  | None => Throw SyntaxError
  end.

(** [req.headers.get('x-webhook-secret')]: a string or [null]. *)
Definition header_value (h : option string) : jsval :=
  match h with Some s => JVal (JStr s) | None => JVal JNull end.

(** [process.env.SANITY_WEBHOOK_SECRET]: a string or [undefined]. *)
Definition env_value (e : option string) : jsval :=
  match e with Some s => JVal (JStr s) | None => JUndefined end.

Section Handler.
Context `{PathRevalidator C}.

(** The [try] block (lines 7-39): parse, authenticate, select, then
    [revalidatePath] each path in order. *)
Definition POST_try (env : option string) (req : request) : M C js_error response :=
  body <- m_lift (parse_body req) ;;
  let secret := header_value (req_secret req) in
  if negb (strict_eq secret (env_value env)) then m_ret resp_unauthorized
  else
    ps <- m_lift (pathsToRevalidate body) ;;
    m_for_each ps (fun path => m_modify (revalidatePath path)) ;;;
    m_ret resp_ok.

(** [POST] (lines 4-47): the [catch] logs the error and answers 500. *)
Definition POST (env : option string) (req : request) : M C js_error response :=
  m_catch (POST_try env req) (fun _ => m_ret resp_error).
End Handler.

Section Properties.
Context `{PathRevalidatorLaws C}.

Lemma authorized_iff (h e : option string) :
  strict_eq (header_value h) (env_value e) = true <->
  exists s, e = Some s /\ h = Some s.
Proof.
  destruct h as [sh|], e as [se|]; simpl; split;
    try (intros (? & ? & ?); congruence); try discriminate.
  - intros Hx. apply string_eqb_true in Hx. subst. eauto.
  - intros (? & [= ->] & [= ->]). by apply string_eqb_true.
Qed.

(** Every branch of the handler: a malformed body, a failed
    authentication, a body that throws during path selection, and the
    success path, with the state each leaves the cache in. *)
Lemma POST_spec env req (c : C) :
  POST env req c =
    match req_json req with
    | None => (Ok resp_error, c)
    | Some j =>
        if strict_eq (header_value (req_secret req)) (env_value env) then
          match pathsToRevalidate (JVal j) with
          | Ok ps => (Ok resp_ok, revalidate_all ps c)
          | Throw _ => (Ok resp_error, c)
          end
        else (Ok resp_unauthorized, c)
    end.
Proof.
  unfold POST, POST_try, parse_body, m_catch, m_bind, m_lift.
  destruct (req_json req) as [j|]; [|done]. cbv beta iota zeta.
  destruct (strict_eq _ _); cbv beta iota zeta delta [negb]; [|done].
  destruct (pathsToRevalidate (JVal j)) as [ps|]; cbv beta iota zeta; [|done].
  by rewrite (m_for_each_modify ps revalidatePath).
Qed.

Lemma POST_authorized env req (c : C) s j ps :
  env = Some s -> req_secret req = Some s -> req_json req = Some j ->
  pathsToRevalidate (JVal j) = Ok ps ->
  POST env req c = (Ok resp_ok, revalidate_all ps c).
Proof.
  intros He Hs Hj Hps. rewrite POST_spec, Hj, Hps.
  rewrite (proj2 (authorized_iff _ _)); eauto.
Qed.

(** C2. A request whose body is not JSON text is answered 500 and
    invalidates nothing, whatever its secret header. *)
Theorem POST_malformed env req (c : C) :
  req_json req = None -> POST env req c = (Ok resp_error, c).
Proof. intros Hj. by rewrite POST_spec, Hj. Qed.

(** C3. A request with a JSON body whose secret header is absent or
    differs from the configured secret is answered 401 and
    invalidates nothing. *)
Theorem POST_unauthorized env req (c : C) j :
  req_json req = Some j ->
  (forall s, env = Some s -> req_secret req <> Some s) ->
  POST env req c = (Ok resp_unauthorized, c).
Proof.
  intros Hj Hs. rewrite POST_spec, Hj.
  destruct (strict_eq _ _) eqn:E; [|done].
  apply authorized_iff in E as (s & Hes & Hrs). by destruct (Hs s).
Qed.

(** C4. When [SANITY_WEBHOOK_SECRET] is unset, no request changes the
    cache: [null] (absent header) and any string both differ from
    [undefined] under [!==]. *)
Theorem POST_env_unset req (c : C) :
  snd (POST None req c) = c.
Proof.
  rewrite POST_spec. destruct (req_json req); [|done].
  destruct (strict_eq _ _) eqn:E; [|done].
  apply authorized_iff in E as (? & ? & _). discriminate.
Qed.

(** C5. An authenticated request whose body is the JSON text [null]
    makes [const { _type } = body] throw; the handler answers 500 and
    invalidates nothing. *)
Theorem POST_null_body env req (c : C) s :
  env = Some s -> req_secret req = Some s -> req_json req = Some JNull ->
  POST env req c = (Ok resp_error, c).
Proof.
  intros He Hs Hj. rewrite POST_spec, Hj.
  by rewrite (proj2 (authorized_iff _ _)) by eauto.
Qed.

(** C6. An authenticated request with a parsed body other than [null]:
    when the body describes an event, it is answered 200 and afterwards
    exactly the paths of the specification's path set for the event are
    stale (each of them is no longer fresh, every other path is as
    fresh as before); when printing the post's slug throws, it is
    answered 500 and nothing is invalidated. *)
Theorem POST_success env req (c : C) s j :
  env = Some s -> req_secret req = Some s -> req_json req = Some j -> j <> JNull ->
  match event_of_body j with
  | Ok ev => exists c', POST env req c = (Ok resp_ok, c') /\
               forall q, is_fresh c' q =
                         if decide (q ∈ selectPaths ev) then false else is_fresh c q
  | Throw _ => POST env req c = (Ok resp_error, c)
  end.
Proof.
  intros He Hs Hj Hnn. pose proof (pathsToRevalidate_event j Hnn) as Hev.
  destruct (event_of_body j) as [ev|e].
  - destruct Hev as (ps & Hps & Hset).
    exists (revalidate_all ps c). split; [by eapply POST_authorized|].
    intros q. rewrite revalidate_all_fresh, <- Hset.
    repeat case_decide; set_solver.
  - rewrite POST_spec, Hj, (proj2 (authorized_iff _ _)) by eauto. by rewrite Hev.
Qed.

(** C7. The handler never lets an exception escape: every request is
    answered, with status 200, 401 or 500. *)
Theorem POST_total env req (c : C) :
  exists r, fst (POST env req c) = Ok r /\ status r ∈ [200; 401; 500]%Z.
Proof.
  rewrite POST_spec. destruct (req_json req) as [j|]; simpl.
  - destruct (strict_eq _ _); [destruct (pathsToRevalidate (JVal j))|].
    all: eexists; split; [reflexivity | cbn; set_solver].
  - eexists; split; [reflexivity | cbn; set_solver].
Qed.
End Properties.

(** C10. End to end, on Next.js' route cache: after the webhook for a
    post whose [slug.current] is a non-empty string [s], the next
    request for ["/"], ["/blog"] or ["/blog/" ++ s] renders the page
    again (and caches the new render) instead of serving the old one. *)
Theorem webhook_then_serve_rerenders {Page} (m : gmap string Page)
    (regen : string -> Page) secret fs gs s p :
  obj_lookup "_type" fs = Some (JStr "post") ->
  obj_lookup "slug" fs = Some (JObj gs) ->
  obj_lookup "current" gs = Some (JStr s) -> s <> "" ->
  p ∈ ["/"; "/blog"; "/blog/" +ₛ s] ->
  let m' := snd (POST (Some secret) {| req_json := Some (JObj fs);
                                       req_secret := Some secret |} m) in
  serve regen p m' = (regen p, <[p := regen p]> m').
Proof.
  intros Ht Hs Hc Hne Hp m'. apply serve_stale. unfold m'.
  rewrite (POST_authorized _ _ _ secret (JObj fs) ["/"; "/blog"; "/blog/" +ₛ s]);
    try done.
  - cbn [snd]. rewrite revalidate_all_fresh. by rewrite decide_True.
  - rewrite pathsToRevalidate_nonnull by done.
    rewrite strict_eq_post_obj by done. simpl. rewrite Hs. simpl. rewrite Hc.
    by rewrite (proj2 (truthy_str s) Hne).
Qed.
End Webhook.

(** ** The theorems at concrete requests *)

Import PathSelector Webhook.

Definition hello_post : json :=
  JObj [("_type", JStr "post"); ("slug", JObj [("current", JStr "hello")])].

Definition signed (body : option json) (secret : option string) : request :=
  {| req_json := body; req_secret := secret |}.

Lemma pathsToRevalidate_refines_witness :
  hello_post <> JNull /\
  match event_of_body hello_post with
  | Ok ev => exists ps, pathsToRevalidate (JVal hello_post) = Ok ps /\ NoDup ps /\
                        list_to_set ps = selectPaths ev
  | Throw e => pathsToRevalidate (JVal hello_post) = Throw e
  end.
Proof. split; [discriminate | apply pathsToRevalidate_refines; discriminate]. Defined.

(** A wrong secret with a malformed body: 500, not 401. *)
Lemma POST_malformed_witness :
  req_json (signed None (Some "wrong")) = None /\
  POST (Some "s3cret") (signed None (Some "wrong")) (∅ : gmap string nat)
  = (Ok resp_error, ∅).
Proof. split; [reflexivity | apply POST_malformed; reflexivity]. Defined.

Lemma POST_unauthorized_witness :
  POST (Some "s3cret") (signed (Some hello_post) (Some "wrong")) (∅ : gmap string nat)
  = (Ok resp_unauthorized, ∅).
Proof.
  apply (POST_unauthorized _ _ _ hello_post); [reflexivity|].
  intros s [= <-]. discriminate.
Defined.

Lemma POST_null_body_witness :
  POST (Some "s3cret") (signed (Some JNull) (Some "s3cret")) (∅ : gmap string nat)
  = (Ok resp_error, ∅).
Proof. apply (POST_null_body _ _ _ "s3cret"); reflexivity. Defined.

Lemma POST_success_witness :
  match event_of_body hello_post with
  | Ok ev => exists c', POST (Some "s3cret") (signed (Some hello_post) (Some "s3cret"))
                          ({["/blog/hello" := 1%nat]} : gmap string nat) = (Ok resp_ok, c') /\
               forall q, is_fresh c' q =
                         if decide (q ∈ selectPaths ev) then false
                         else is_fresh ({["/blog/hello" := 1%nat]} : gmap string nat) q
  | Throw _ => POST (Some "s3cret") (signed (Some hello_post) (Some "s3cret"))
                 ({["/blog/hello" := 1%nat]} : gmap string nat) =
               (Ok resp_error, {["/blog/hello" := 1%nat]})
  end.
Proof. apply (POST_success _ _ _ "s3cret"); try reflexivity. discriminate. Defined.

(** A post whose [slug.current] has its own [toString] member: the
    template literal throws, and the authenticated request is answered
    500 with nothing invalidated. *)
Example POST_slug_with_toString :
  let body := JObj [("_type", JStr "post");
                    ("slug", JObj [("current", JObj [("toString", JNum 1)])])] in
  event_of_body body = Throw TypeError /\
  POST (Some "s3cret") (signed (Some body) (Some "s3cret")) ({["/" := 1%nat]} : gmap string nat)
  = (Ok resp_error, {["/" := 1%nat]}).
Proof. split; reflexivity. Qed.

Lemma pathsToRevalidate_not_post_witness :
  pathsToRevalidate (JVal (JObj [("_type", JStr "page")])) = Ok ["/"].
Proof. apply pathsToRevalidate_not_post; discriminate. Defined.

Lemma pathsToRevalidate_post_no_slug_witness :
  pathsToRevalidate (JVal (JObj [("_type", JStr "post")])) = Ok ["/"; "/blog"].
Proof. apply pathsToRevalidate_post_no_slug; reflexivity. Defined.

Lemma pathsToRevalidate_post_slug_witness :
  pathsToRevalidate (JVal hello_post) = Ok ["/"; "/blog"; "/blog/hello"].
Proof.
  apply (pathsToRevalidate_post_slug _ [("current", JStr "hello")]);
    [reflexivity | reflexivity | reflexivity | discriminate].
Defined.

(** An object slug yields the path ["/blog/[object Object]"]. *)
Lemma pathsToRevalidate_slug_printed_witness :
  pathsToRevalidate (JVal (JObj [("_type", JStr "post");
                                 ("slug", JObj [("current", JObj [])])]))
  = Ok ["/"; "/blog"; "/blog/[object Object]"].
Proof. apply (pathsToRevalidate_slug_printed _ [("current", JObj [])] (JObj [])); reflexivity. Defined.

Lemma webhook_then_serve_rerenders_witness :
  let m' := snd (POST (Some "s3cret") (signed (Some hello_post) (Some "s3cret"))
                      ({["/blog/hello" := 1%nat]} : gmap string nat)) in
  serve (fun _ => 2%nat) "/blog/hello" m' = (2%nat, <[ "/blog/hello" := 2%nat ]> m').
Proof.
  apply (webhook_then_serve_rerenders _ (fun _ => 2%nat) "s3cret" _
           [("current", JStr "hello")] "hello" "/blog/hello");
    try reflexivity.
  - discriminate.
  - set_solver.
Defined.

Lemma POST_env_unset_witness :
  snd (POST None (signed (Some hello_post) None) ({["/" := 1%nat]} : gmap string nat))
  = {["/" := 1%nat]}.
Proof. apply POST_env_unset. Defined.

Lemma POST_total_witness :
  exists r, fst (POST (Some "s3cret") (signed (Some JNull) (Some "s3cret"))
                     (∅ : gmap string nat)) = Ok r /\ status r ∈ [200; 401; 500]%Z.
Proof. apply POST_total. Defined.
