(* ===== verification/PortableText.v ===== *)
(** * The Portable Text component table
    ([src/app/components/PortableTextComponents.tsx])

    The file builds React elements with JSX. [vnode] is the element tree
    JSX evaluates to: an element (a DOM tag or a component such as
    [Image] or [SyntaxHighlighterPrism]) with its props in source order
    and its children, or an expression child [{v}]. [MemoizedImage] and
    [CodeBlock] are the two memoised components, each taking the record
    of its declared props interface; [PortableTextComponents]
    is the exported object literal, whose five groups ([types], [block],
    [list], [listItem], [marks]) map a key to a component.

    The [@portabletext/react] renderer that looks components up in the
    table is library code: [Module Renderer] models its dispatch from the
    specification (section 4.5), with the library's fallback components
    for keys the table lacks reached through the class
    [PortableTextFallbacks]. *)

From S2P Require Import Prelude JsValue.
#[local] Set Warnings "-register-all".

(** ** React elements *)

Inductive vnode : Type :=
| VElem (tag : string) (props : list (string * prop)) (children : list vnode)
| VVal (v : jsval)
with prop : Type :=
| PVal (v : jsval)
| PNode (n : vnode)
| PRef (binding : string).

(** [a || b] and [a && b] on values. *)
Definition js_or (a b : jsval) : jsval := if truthy a then a else b.

(** [{v && <e/>}]: the element when [v] is truthy, else [v] itself. *)
Definition js_and_node (v : jsval) (e : vnode) : vnode :=
  if truthy v then e else VVal v.

(** What React draws for an expression child: nothing for [null],
    [undefined], booleans and the empty string. *)
Definition renders_nothing (v : jsval) : bool :=
  match v with
  | JUndefined | JVal JNull | JVal (JBool _) => true
  | JVal (JStr s) => String.eqb s ""
  | _ => false
  end.

Definition cls (c : string) : string * prop := ("className", PVal (jstr c)).

(** ** The memoised components *)

(** [MemoizedImageProps] (lines 8-15): the values the component is
    handed, as JavaScript values ([src] and [alt] are read with [||]). *)
Record MemoizedImageProps := {
  src : jsval;
  alt : jsval;
  width : Z;
  height : Z;
  className : jsval;
  caption : jsval
}.

(** [MemoizedImage] (lines 18-33). *)
Definition MemoizedImage (props : MemoizedImageProps) : vnode :=
  VElem "figure" [cls "my-8"]
    [VElem "Image" [("src", PVal (js_or (src props) (jstr "")));
                    ("alt", PVal (js_or (alt props) (jstr " ")));
                    ("width", PVal (jnum (width props)));
                    ("height", PVal (jnum (height props)));
                    ("className", PVal (className props));
                    ("loading", PVal (jstr "lazy"));
                    ("sizes", PVal (jstr "(max-width: 768px) 100vw, 800px"))] [];
     js_and_node (caption props)
       (VElem "figcaption" [cls "text-center text-sm text-gray-500 mt-2"] [VVal (caption props)])].

(** [CodeBlockProps] (lines 38-42). *)
Record CodeBlockProps := {
  language : jsval;
  code : jsval;
  filename : jsval
}.

(** [CodeBlock] (lines 45-67), destructuring its props. *)
Definition CodeBlock (props : CodeBlockProps) : vnode :=
  let '{| language := language; code := code; filename := filename |} := props in
  VElem "Suspense"
    [("fallback", PNode (VElem "div"
        [cls "bg-gray-900 text-gray-100 p-5 rounded-lg animate-pulse h-32"] []))]
    [VElem "div" [cls "my-6 rounded-lg overflow-hidden"]
       [VElem "SyntaxHighlighterPrism"
          [("language", PVal (js_or language (jstr "typescript")));
           ("style", PRef "atomDark");
           cls "text-sm";
           ("customStyle", PVal (JVal (JObj [("borderRadius", JStr "0.5rem");
                                             ("padding", JStr "1.25rem");
                                             ("margin", JStr "0")])))]
          [VVal code];
        js_and_node filename
          (VElem "div" [cls "text-xs text-gray-500 mt-1 px-1"] [VVal filename])]].

(** ** The component table *)

(** [types.image] (lines 73-82): [value.asset?.url] as the source. *)
Definition image_type (value : json) : vnode :=
  MemoizedImage {| src := opt_member (get_prop value "asset") "url"; alt := get_prop value "alt";
                   width := 800; height := 500; className := jstr "rounded-lg shadow-md mx-auto";
                   caption := get_prop value "caption" |}.

(** [types.code] (lines 83-89). *)
Definition code_type (value : json) : vnode :=
  CodeBlock {| language := get_prop value "language"; code := get_prop value "code";
               filename := get_prop value "filename" |}.

(** [types.callout] (lines 90-95): the border colour follows
    [value.tone === 'warning']. *)
Definition callout_type (value : json) : vnode :=
  VElem "div"
    [cls ("p-4 my-6 border-l-4 bg-gray-50 rounded-r-lg " +ₛ
          (if strict_eq (get_prop value "tone") (jstr "warning")
           then "border-yellow-500" else "border-blue-500"))]
    [VElem "div" [cls "font-semibold"] [VVal (get_prop value "title")];
     VElem "div" [] [VVal (get_prop value "text")]].

(** A component that wraps its [children] in one element. *)
Definition styled (tag c : string) (children : list vnode) : vnode :=
  VElem tag [cls c] children.

(** [block] (lines 97-110). *)
Definition block_components : list (string * (list vnode -> vnode)) :=
  [("h1", styled "h1" "text-4xl font-bold my-6 text-gray-800");
   ("h2", styled "h2" "text-3xl font-semibold my-5 text-gray-800");
   ("h3", styled "h3" "text-2xl font-semibold my-4 text-gray-800");
   ("h4", styled "h4" "text-xl font-semibold my-3 text-gray-800");
   ("h5", styled "h5" "text-lg font-semibold my-3 text-gray-800");
   ("h6", styled "h6" "text-base font-semibold my-3 text-gray-800");
   ("normal", styled "p" "text-lg leading-relaxed my-4 text-gray-700");
   ("blockquote", styled "blockquote"
      "border-l-4 border-blue-500 pl-6 py-1 my-6 italic bg-blue-50 rounded-r-lg text-gray-700")].

(** [list] (lines 111-114) and [listItem] (lines 115-118). *)
Definition list_components : list (string * (list vnode -> vnode)) :=
  [("bullet", styled "ul" "list-disc pl-6 my-6 space-y-2");
   ("number", styled "ol" "list-decimal pl-6 my-6 space-y-2")].

Definition listItem_components : list (string * (list vnode -> vnode)) :=
  [("bullet", styled "li" "text-gray-700");
   ("number", styled "li" "text-gray-700")].

(** [value.href.startsWith(p)]: a [TypeError] unless [value.href] is a
    string ([undefined.startsWith] cannot be read, and a number's
    [startsWith] is not a function). *)
Definition starts_with (v : jsval) (p : string) : result js_error bool :=
  match v with
  | JVal (JStr s) => Ok (String.prefix p s)
  | _ => Throw TypeError
  end.

(** [marks.link] (lines 127-136): the props are evaluated in source
    order, [value.href] read for each. *)
Definition link_mark (value : jsval) (children : list vnode) : result js_error vnode :=
  href ← member value "href";
  href' ← member value "href";
  starts_with href' "/" ≫= λ internal : bool,
  href'' ← member value "href";
  starts_with href'' "/" ≫= λ internal' : bool,
  mret (VElem "a"
          [("href", PVal href);
           cls "text-blue-600 hover:text-blue-800 hover:underline transition-colors duration-200";
           ("target", PVal (if internal then JUndefined else jstr "_blank"));
           ("rel", PVal (if internal' then JUndefined else jstr "noopener noreferrer"))]
          children).

(** [marks] (lines 119-137); decorators ignore [value]. *)
Definition mark_components
  : list (string * (jsval -> list vnode -> result js_error vnode)) :=
  [("strong", fun (_ : jsval) (ch : list vnode) => Ok (styled "strong" "font-bold text-gray-900" ch));
   ("em", fun (_ : jsval) (ch : list vnode) => Ok (styled "em" "italic text-gray-800" ch));
   ("code", fun (_ : jsval) (ch : list vnode) =>
      Ok (styled "code" "px-1.5 py-0.5 bg-gray-100 rounded text-sm font-mono text-gray-800" ch));
   ("link", link_mark)].

Definition type_components : list (string * (json -> vnode)) :=
  [("image", image_type); ("code", code_type); ("callout", callout_type)].

(** The exported [PortableTextComponents] (lines 71-138); the group
    [list] is the field [list_], [list] being the type of lists. *)
Record components := {
  types : list (string * (json -> vnode));
  block : list (string * (list vnode -> vnode));
  list_ : list (string * (list vnode -> vnode));
  listItem : list (string * (list vnode -> vnode));
  marks : list (string * (jsval -> list vnode -> result js_error vnode))
}.

Definition PortableTextComponents : components := {|
  types := type_components;
  block := block_components;
  list_ := list_components;
  listItem := listItem_components;
  marks := mark_components
|}.

(** Property lookup on the object literals of the table. *)
Fixpoint lookup_component {A} (k : string) (tbl : list (string * A)) : option A :=
  match tbl with
  | [] => None
  | (k', c) :: tbl' => if String.eqb k k' then Some c else lookup_component k tbl'
  end.

(** ** The renderer's dispatch ([@portabletext/react]) *)

Module Renderer.

(** A span of text with its mark keys, outermost first. *)
Record span := {
  span_text : string;
  span_marks : list string
}.

(** A Portable Text node: a text block (its [style], absent meaning
    ["normal"], its [listItem] kind, its spans and [markDefs]), or an
    embedded object dispatched on its [_type]. *)
Inductive ptnode : Type :=
| PTBlock (style : option string) (listItem : option string) (spans : list span)
    (markDefs : list json)
| PTObject (typeName : string) (value : json).

(** The library's own components for keys the table does not have. *)
Class PortableTextFallbacks := {
  unknownType : string -> json -> vnode;
  unknownBlockStyle : string -> list vnode -> vnode;
  unknownList : string -> list vnode -> vnode;
  unknownListItem : string -> list vnode -> vnode;
  unknownMark : string -> list vnode -> vnode
}.

(** A mark key names an annotation when a mark definition has it as
    [_key] (the definition's [_type] selects the component and the
    definition is its [value]), and a decorator otherwise (the key
    selects the component, [value] is [undefined]). *)
Definition mark_value (defs : list json) (m : string) : string * jsval :=
  match List.find (fun d => strict_eq (get_prop d "_key") (jstr m)) defs with
  | Some d => (match get_prop d "_type" with JVal (JStr t) => t | _ => "" end, JVal d)
  | None => (m, JUndefined)
  end.

(** Consecutive list blocks of one kind form one list. *)
Inductive ptunit : Type :=
| UBlock (style : string) (spans : list span) (markDefs : list json)
| UList (kind : string) (items : list (list span * list json))
| UObject (typeName : string) (value : json).

Fixpoint group (ns : list ptnode) : list ptunit :=
  match ns with
  | [] => []
  | PTBlock st None sp d :: ns' => UBlock (default "normal" st) sp d :: group ns'
  | PTObject t v :: ns' => UObject t v :: group ns'
  | PTBlock _ (Some k) sp d :: ns' =>
      match group ns' with
      | UList k' items :: g' =>
          if String.eqb k k' then UList k ((sp, d) :: items) :: g'
          else UList k [(sp, d)] :: UList k' items :: g'
      | g => UList k [(sp, d)] :: g
      end
  end.

Section Render.
Context `{PortableTextFallbacks} (c : components).

Definition render_type (t : string) (v : json) : vnode :=
  match lookup_component t (types c) with
  | Some comp => comp v
  | None => unknownType t v
  end.

Definition render_style (st : string) (children : list vnode) : vnode :=
  match lookup_component st (block c) with
  | Some comp => comp children
  | None => unknownBlockStyle st children
  end.

Definition render_list (k : string) (children : list vnode) : vnode :=
  match lookup_component k (list_ c) with
  | Some comp => comp children
  | None => unknownList k children
  end.

Definition render_listItem (k : string) (children : list vnode) : vnode :=
  match lookup_component k (listItem c) with
  | Some comp => comp children
  | None => unknownListItem k children
  end.

Definition render_mark (defs : list json) (m : string) (children : list vnode)
  : result js_error vnode :=
  let '(ty, v) := mark_value defs m in
  match lookup_component ty (marks c) with
  | Some comp => comp v children
  | None => Ok (unknownMark ty children)
  end.

(** The marks of a span wrap its text, the first mark outermost. *)
Fixpoint render_marks (defs : list json) (ms : list string) (inner : list vnode)
  : result js_error (list vnode) :=
  match ms with
  | [] => Ok inner
  | m :: ms' => inner' ← render_marks defs ms' inner; n ← render_mark defs m inner'; mret [n]
  end.

Definition render_spans (defs : list json) (sps : list span) : result js_error (list vnode) :=
  ns ← mapR (fun sp => render_marks defs (span_marks sp) [VVal (jstr (span_text sp))]) sps;
  mret (List.concat ns).

Definition render_unit (u : ptunit) : result js_error vnode :=
  match u with
  | UBlock st sps defs => ch ← render_spans defs sps; mret (render_style st ch)
  | UList k items =>
      lis ← mapR (fun '(sps, defs) => ch ← render_spans defs sps; mret (render_listItem k ch)) items;
      mret (render_list k lis)
  | UObject t v => Ok (render_type t v)
  end.

Definition render_document (ns : list ptnode) : result js_error (list vnode) :=
  mapR render_unit (group ns).
End Render.
End Renderer.

(** ** Properties of the table under the renderer *)

Module TableProperties.
Import Renderer.

Section WithFallbacks.
Context `{PortableTextFallbacks}.

Abbreviation PTC := PortableTextComponents.

Lemma get_prop_str_nonnull (d : json) k s : get_prop d k = jstr s -> d <> JNull.
Proof. by intros Hd ->. Qed.

(** A link whose [href] is missing or not a string makes the link
    component throw a [TypeError] ([value.href.startsWith]). *)
Theorem link_mark_no_href (value : jsval) (ch : list vnode) :
  (forall s, opt_member value "href" <> jstr s) -> link_mark value ch = Throw TypeError.
Proof.
  intros Hs. unfold link_mark.
  destruct value as [|j]; [done|]. destruct (json_null_dec j) as [->|Hj]; [done|].
  rewrite member_nonnullish by done. simpl.
  rewrite opt_member_nonnullish in Hs by done.
  destruct (get_prop j "href") as [|[]]; try done. by destruct (Hs s).
Qed.

(** The link component, and so every mark of the table, fails only
    with a [TypeError]. *)
Lemma link_mark_error (v : jsval) ch e : link_mark v ch = Throw e -> e = TypeError.
Proof.
  unfold link_mark. destruct v as [|j]; [throw_inv|].
  destruct (json_null_dec j) as [->|Hj]; [throw_inv|].
  rewrite member_nonnullish by done. simpl.
  destruct (get_prop j "href") as [|[]]; simpl; throw_inv.
Qed.

Lemma render_mark_error defs m ch e : render_mark PTC defs m ch = Throw e -> e = TypeError.
Proof.
  unfold render_mark. destruct (mark_value defs m) as [ty v]. simpl.
  destruct (String.eqb ty "strong"); [throw_inv|].
  destruct (String.eqb ty "em"); [throw_inv|].
  destruct (String.eqb ty "code"); [throw_inv|].
  destruct (String.eqb ty "link"); [apply link_mark_error | throw_inv].
Qed.

Lemma render_marks_error defs ms inner e :
  render_marks PTC defs ms inner = Throw e -> e = TypeError.
Proof.
  induction ms as [|m ms IH]; simpl; [throw_inv|].
  intros [Hr|(inner' & _ & Hr)]%result_bind_throw; [by apply IH|].
  apply result_bind_throw in Hr as [Hr|(? & _ & ?)]; [by eapply render_mark_error | discriminate].
Qed.

Lemma render_spans_error defs sps e : render_spans PTC defs sps = Throw e -> e = TypeError.
Proof.
  unfold render_spans. intros [Hr|(? & _ & ?)]%result_bind_throw; [|discriminate].
  apply mapR_throw_inv in Hr as (sp & _ & Hsp). by eapply render_marks_error.
Qed.

Lemma render_unit_error u e : render_unit PTC u = Throw e -> e = TypeError.
Proof.
  destruct u as [st sps defs|k items|t v]; simpl; [| |discriminate].
  - intros [Hr|(? & _ & ?)]%result_bind_throw; [by eapply render_spans_error | discriminate].
  - intros [Hr|(? & _ & ?)]%result_bind_throw; [|discriminate].
    apply mapR_throw_inv in Hr as ([sps defs] & _ & Hr).
    apply result_bind_throw in Hr as [Hr|(? & _ & ?)]; [by eapply render_spans_error | discriminate].
Qed.

(** A mark that resolves to the link component with a value whose
    [href] is not a string throws, whatever it wraps; so does every
    span that carries it among its marks, and every run of spans that
    holds such a span. *)
Lemma render_mark_bad_link defs k v ch :
  mark_value defs k = ("link", v) -> (forall s, opt_member v "href" <> jstr s) ->
  render_mark PTC defs k ch = Throw TypeError.
Proof. intros Hk Hs. unfold render_mark. rewrite Hk. simpl. by apply link_mark_no_href. Qed.

Lemma render_marks_bad_link defs ms k v inner :
  k ∈ ms -> mark_value defs k = ("link", v) -> (forall s, opt_member v "href" <> jstr s) ->
  render_marks PTC defs ms inner = Throw TypeError.
Proof.
  intros Hk Hv Hs. revert Hk. induction ms as [|m ms IH]; intros Hk; simpl.
  { by apply not_elem_of_nil in Hk. }
  destruct (render_marks PTC defs ms inner) as [inner'|e] eqn:E; simpl.
  - apply elem_of_cons in Hk as [->|Hk]; [by rewrite (render_mark_bad_link _ _ _ _ Hv Hs)|].
    discriminate (IH Hk).
  - by rewrite (render_marks_error _ _ _ _ E).
Qed.

Lemma render_spans_bad_link defs sps sp k v :
  sp ∈ sps -> k ∈ span_marks sp -> mark_value defs k = ("link", v) ->
  (forall s, opt_member v "href" <> jstr s) -> render_spans PTC defs sps = Throw TypeError.
Proof.
  intros Hsp Hk Hv Hs. unfold render_spans.
  rewrite (mapR_throw_only _ _ TypeError); [done | intros x e _; apply render_marks_error |].
  exists sp. split; [done|]. by eapply render_marks_bad_link.
Qed.

(** The spans and mark definitions a unit of the grouping renders. *)
Definition unit_has (u : ptunit) (x : list span * list json) : Prop :=
  match u with
  | UBlock _ sps defs => x = (sps, defs)
  | UList _ items => x ∈ items
  | UObject _ _ => False
  end.

(** Every text block of a document, a list item or not, lands in one
    unit of its grouping. *)
Lemma group_elem ns st li sps defs :
  PTBlock st li sps defs ∈ ns -> exists u, u ∈ group ns /\ unit_has u (sps, defs).
Proof.
  induction ns as [|n ns IH]; intros Hn; [by apply not_elem_of_nil in Hn|].
  apply elem_of_cons in Hn as [<-|Hn].
  - destruct li as [k|]; simpl; [|by eexists; split; [left|]].
    destruct (group ns) as [|[st' sps' defs'|k' items|t v] g];
      [| | destruct (String.eqb k k') |]; by eexists; split; [left | left].
  - destruct (IH Hn) as (u & Hu & Hh).
    destruct n as [st' [k|] sps' defs'|t v]; simpl; [|by exists u; split; [right|] ..].
    destruct (group ns) as [|[st'' sps'' defs''|k' items|t v] g];
      [by apply not_elem_of_nil in Hu | by exists u; split; [right|] | | by exists u; split; [right|]].
    destruct (String.eqb k k'); [|by exists u; split; [right|]].
    apply elem_of_cons in Hu as [->|Hu]; [|by exists u; split; [right|]].
    exists (UList k ((sps', defs') :: items)). split; [left | by right].
Qed.

Lemma render_unit_bad_link u sps defs sp k v :
  unit_has u (sps, defs) -> sp ∈ sps -> k ∈ span_marks sp -> mark_value defs k = ("link", v) ->
  (forall s, opt_member v "href" <> jstr s) -> render_unit PTC u = Throw TypeError.
Proof.
  intros Hu Hsp Hk Hv Hs. destruct u as [st sps' defs'|k' items|t w]; simpl in *; [..|done].
  - simplify_eq. by rewrite (render_spans_bad_link _ _ _ _ _ Hsp Hk Hv Hs).
  - rewrite (mapR_throw_only _ _ TypeError); [done| |].
    + intros [sps' defs'] e _ [Hr|(? & _ & ?)]%result_bind_throw;
        [by eapply render_spans_error | discriminate].
    + exists (sps, defs). split; [done|]. by rewrite (render_spans_bad_link _ _ _ _ _ Hsp Hk Hv Hs).
Qed.

(** Each heading level 1 to 6 is rendered by the element of that
    level ([h1] ... [h6]) wrapping exactly the block's children. *)
Theorem heading_levels (n : Z) (ch : list vnode) :
  (1 <= n <= 6)%Z ->
  exists c, render_style PTC ("h" +ₛ string_of_Z n) ch = VElem ("h" +ₛ string_of_Z n) [cls c] ch.
Proof.
  intros Hn. assert (n = 1 \/ n = 2 \/ n = 3 \/ n = 4 \/ n = 5 \/ n = 6)%Z as Hc by lia.
  destruct_or! Hc; subst; eexists; reflexivity.
Qed.

(** The other block-level variants each map to exactly one wrapper:
    [normal] to [p], [blockquote] to [blockquote], bullet and number
    lists to [ul] and [ol], their items to [li]. *)
Theorem block_wrappers (ch : list vnode) :
  (exists c, render_style PTC "normal" ch = VElem "p" [cls c] ch) /\
  (exists c, render_style PTC "blockquote" ch = VElem "blockquote" [cls c] ch) /\
  (exists c, render_list PTC "bullet" ch = VElem "ul" [cls c] ch) /\
  (exists c, render_list PTC "number" ch = VElem "ol" [cls c] ch) /\
  (exists c, render_listItem PTC "bullet" ch = VElem "li" [cls c] ch) /\
  (exists c, render_listItem PTC "number" ch = VElem "li" [cls c] ch).
Proof. split_and!; eexists; reflexivity. Qed.

(** C11. The link rule: an [href] with a leading ['/'] is internal and
    gets neither [target] nor [rel]; any other string [href] opens in a
    new tab with [rel="noopener noreferrer"]. *)
Theorem link_mark_target (d : json) (s : string) (ch : list vnode) :
  get_prop d "href" = jstr s ->
  link_mark (JVal d) ch =
    Ok (VElem "a"
          [("href", PVal (jstr s));
           cls "text-blue-600 hover:text-blue-800 hover:underline transition-colors duration-200";
           ("target", PVal (if String.prefix "/" s then JUndefined else jstr "_blank"));
           ("rel", PVal (if String.prefix "/" s then JUndefined else jstr "noopener noreferrer"))]
          ch).
Proof.
  intros Hh. unfold link_mark.
  rewrite member_nonnullish by (by eapply get_prop_str_nonnull). simpl. by rewrite Hh.
Qed.

(** C12. One bad link fails the whole document, not only the link: when
    a text block anywhere in the document (a paragraph, a heading or a
    list item) has a span carrying a mark that resolves to the [link]
    component with a value whose [href] is not a string, rendering the
    document throws a [TypeError]. *)
Theorem render_document_link_without_href (ns : list ptnode) st li sps defs sp k v :
  PTBlock st li sps defs ∈ ns -> sp ∈ sps -> k ∈ span_marks sp ->
  mark_value defs k = ("link", v) -> (forall s, opt_member v "href" <> jstr s) ->
  render_document PTC ns = Throw TypeError.
Proof.
  intros Hn Hsp Hk Hv Hs. destruct (group_elem _ _ _ _ _ Hn) as (u & Hu & Hh).
  apply (mapR_throw_only _ _ TypeError); [intros x e _; apply render_unit_error|].
  exists u. split; [done|]. by eapply render_unit_bad_link.
Qed.

(** C13. The callout's border follows [tone] with exactly two outcomes:
    yellow for the string ["warning"], blue for anything else (another
    string, a missing tone, a non-string). *)
Theorem callout_tone (value : json) :
  exists border,
    callout_type value =
      VElem "div" [cls ("p-4 my-6 border-l-4 bg-gray-50 rounded-r-lg " +ₛ border)]
        [VElem "div" [cls "font-semibold"] [VVal (get_prop value "title")];
         VElem "div" [] [VVal (get_prop value "text")]] /\
    (get_prop value "tone" = jstr "warning" -> border = "border-yellow-500") /\
    (get_prop value "tone" <> jstr "warning" -> border = "border-blue-500").
Proof.
  unfold callout_type.
  destruct (strict_eq (get_prop value "tone") (jstr "warning")) eqn:E;
    eexists; (split; [reflexivity|]); split; intros Ht; try done.
  - by apply strict_eq_str_true in E.
  - rewrite Ht in E. discriminate.
Qed.

(** C14. An image whose [asset.url] is missing is not omitted: the
    figure is rendered with an [Image] whose [src] is the empty string. *)
Theorem image_without_asset (value : json) :
  truthy (opt_member (get_prop value "asset") "url") = false ->
  exists rest slot,
    image_type value = VElem "figure" [cls "my-8"]
                         [VElem "Image" (("src", PVal (jstr "")) :: rest) []; slot].
Proof.
  intros Hu. unfold image_type, MemoizedImage, js_or. cbn [src]. rewrite Hu. by do 2 eexists.
Qed.

(** C15. A code block without a (truthy) language renders exactly as one
    whose language is ["typescript"]. *)
Theorem code_language_default (value : json) :
  truthy (get_prop value "language") = false ->
  code_type value = CodeBlock {| language := jstr "typescript"; code := get_prop value "code";
                                 filename := get_prop value "filename" |}.
Proof. intros Hl. unfold code_type, CodeBlock, js_or. cbv beta iota. by rewrite Hl. Qed.

Definition bullet_item (t : string) : ptnode :=
  PTBlock None (Some "bullet") [{| span_text := t; span_marks := [] |}] [].

Lemma group_bullets (texts : list string) :
  texts <> [] ->
  group (map bullet_item texts) =
    [UList "bullet" (map (fun t => ([{| span_text := t; span_marks := [] |}], [])) texts)].
Proof.
  induction texts as [|t ts IH]; [done|]. intros _.
  destruct ts as [|t' ts']; [done|]. simpl in *. by rewrite IH.
Qed.

Lemma render_bullet_items (texts : list string) :
  mapR (fun '(sps, defs) => ch ← render_spans PTC defs sps; mret (render_listItem PTC "bullet" ch))
    (map (fun t => ([{| span_text := t; span_marks := [] |}], [])) texts)
  = Ok (map (fun t => styled "li" "text-gray-700" [VVal (jstr t)]) texts).
Proof. induction texts as [|t ts IH]; [done|]. simpl. by rewrite IH. Qed.

(** Consecutive bullet blocks form one list: [n > 0] bullet items
    render as a single [ul] holding one [li] per item, in order. *)
Theorem render_bullet_list (texts : list string) :
  texts <> [] ->
  render_document PTC (map bullet_item texts) =
    Ok [styled "ul" "list-disc pl-6 my-6 space-y-2"
          (map (fun t => styled "li" "text-gray-700" [VVal (jstr t)]) texts)].
Proof.
  intros Hne. unfold render_document. rewrite group_bullets by done.
  simpl. by rewrite render_bullet_items.
Qed.
End WithFallbacks.
End TableProperties.

(** ** The theorems at concrete documents

    The witnesses below use a fallback instance that hides unknown
    types and wraps the other unknown nodes in neutral elements. *)

Import Renderer TableProperties.

#[local] Instance witness_fallbacks : PortableTextFallbacks := {|
  unknownType _ _ := VElem "div" [("style", PVal (jstr "display: none"))] [];
  unknownBlockStyle _ ch := VElem "p" [] ch;
  unknownList _ ch := VElem "ul" [] ch;
  unknownListItem _ ch := VElem "li" [] ch;
  unknownMark t ch := VElem "span" [cls ("unknown__pt__mark__" +ₛ t)] ch
|}.

Lemma heading_levels_witness :
  exists c, render_style PortableTextComponents ("h" +ₛ string_of_Z 3) []
            = VElem ("h" +ₛ string_of_Z 3) [cls c] [].
Proof. apply heading_levels. lia. Defined.

(** A heading, then a bullet item with a link annotation that has no
    [href]. *)
Definition bad_link_doc : list ptnode :=
  [PTBlock (Some "h2") None [{| span_text := "Intro"; span_marks := [] |}] [];
   PTBlock None (Some "bullet") [{| span_text := "docs"; span_marks := ["em"; "k2"] |}]
     [JObj [("_key", JStr "k2"); ("_type", JStr "link")]]].

Lemma render_document_link_without_href_witness :
  render_document PortableTextComponents bad_link_doc = Throw TypeError.
Proof.
  apply (render_document_link_without_href _ None (Some "bullet")
           [{| span_text := "docs"; span_marks := ["em"; "k2"] |}]
           [JObj [("_key", JStr "k2"); ("_type", JStr "link")]]
           {| span_text := "docs"; span_marks := ["em"; "k2"] |} "k2"
           (JVal (JObj [("_key", JStr "k2"); ("_type", JStr "link")])));
    [right; left | left | right; left | reflexivity | intros s; discriminate].
Defined.

Lemma link_mark_target_witness :
  link_mark (JVal (JObj [("_type", JStr "link"); ("href", JStr "https://example.com")])) []
  = Ok (VElem "a"
          [("href", PVal (jstr "https://example.com"));
           cls "text-blue-600 hover:text-blue-800 hover:underline transition-colors duration-200";
           ("target", PVal (jstr "_blank"));
           ("rel", PVal (jstr "noopener noreferrer"))] []).
Proof. apply link_mark_target. reflexivity. Defined.

Lemma link_mark_no_href_witness :
  link_mark (JVal (JObj [("_type", JStr "link")])) [] = Throw TypeError.
Proof. apply link_mark_no_href. intros s. discriminate. Defined.

Lemma image_without_asset_witness :
  exists rest slot,
    image_type (JObj [("alt", JStr "A diagram")]) =
      VElem "figure" [cls "my-8"] [VElem "Image" (("src", PVal (jstr "")) :: rest) []; slot].
Proof. apply image_without_asset. reflexivity. Defined.

Lemma code_language_default_witness :
  code_type (JObj [("code", JStr "let x = 1")]) =
    CodeBlock {| language := jstr "typescript"; code := jstr "let x = 1"; filename := JUndefined |}.
Proof. apply code_language_default. reflexivity. Defined.

Lemma render_bullet_list_witness :
  render_document PortableTextComponents (map bullet_item ["one"; "two"]) =
    Ok [styled "ul" "list-disc pl-6 my-6 space-y-2"
          [styled "li" "text-gray-700" [VVal (jstr "one")];
           styled "li" "text-gray-700" [VVal (jstr "two")]]].
Proof. apply render_bullet_list. discriminate. Defined.
