(* ===== verification/Groq.v ===== *)
(** * The GROQ queries of the pages

    The pages send three GROQ expressions to the content store:
    - [src/app/blog/page.tsx] line 18, the listing:
      [*[_type == "post" && publishedAt < now()] | order(publishedAt desc)];
    - [src/app/blog/[slug]/page.tsx] line 17, one post:
      [*[_type == "post" && slug.current == $slug][0]];
    - the same file, line 18, the slugs of the static pages:
      [*[_type == "post" && defined(slug.current)].slug.current].
    The store evaluates them; this file gives each the meaning GROQ gives
    it over the dataset, a list of JSON documents in the store's order.
    GROQ compares two strings lexicographically and yields [null] (a
    filter miss) when the operands are not both strings or both numbers;
    [publishedAt] and [now()] are ISO 8601 strings. *)

From S2P Require Import Prelude JsValue.
From stdpp Require Import sorting.

Module Groq.

(** [a < b] in GROQ: [None] is [null]. *)
Definition groq_lt (a b : jsval) : option bool :=
  match a, b with
  | JVal (JStr x), JVal (JStr y) => Some (String.ltb x y)
  | JVal (JNum x), JVal (JNum y) => Some (Z.ltb x y)
  | _, _ => None
  end.

Definition is_post (d : json) : bool := strict_eq (get_prop d "_type") (jstr "post").

(** The filter of the listing: [_type == "post" && publishedAt < now()];
    a [null] comparison does not select the document. *)
Definition published_post (now : string) (d : json) : bool :=
  is_post d && bool_decide (groq_lt (get_prop d "publishedAt") (jstr now) = Some true).

Definition publishedAt_key (d : json) : string :=
  match get_prop d "publishedAt" with JVal (JStr s) => s | _ => "" end.

(** [b] comes no earlier than [a] in [order(publishedAt desc)]. *)
Definition published_desc (a b : json) : Prop := String.le (publishedAt_key b) (publishedAt_key a).

#[export] Instance published_desc_dec : RelDecision published_desc.
Proof. intros a b. unfold published_desc. apply _. Defined.

(** [| order(publishedAt desc)]: a stable sort on the key. *)
Definition order_publishedAt_desc (ds : list json) : list json :=
  merge_sort published_desc ds.

(** The listing query of [getPosts] (line 18), at the store's clock [now]. *)
Definition POSTS_QUERY (now : string) (dataset : list json) : list json :=
  order_publishedAt_desc (filter (fun d => published_post now d = true) dataset).

(** [slug.current == $slug] *)
Definition slug_current (d : json) : jsval := opt_member (get_prop d "slug") "current".

(** The filter [_type == "post" && slug.current == $slug]. *)
Definition matches_slug (slug : string) (d : json) : bool :=
  is_post d && strict_eq (slug_current d) (jstr slug).

(** [POST_QUERY] (line 17): the first post with the slug, [null] if none. *)
Definition POST_QUERY (slug : string) (dataset : list json) : option json :=
  head (filter (fun d => matches_slug slug d = true) dataset).

(** [ALL_POSTS_QUERY] (line 18): [defined(x)] is "[x] is not [null]". *)
Definition ALL_POSTS_QUERY (dataset : list json) : list json :=
  omap (fun d => if is_post d then
                   match slug_current d with
                   | JVal JNull | JUndefined => None
                   | JVal v => Some v
                   end
                 else None) dataset.

(** ** Lemmas *)

#[export] Instance published_desc_trans : Transitive published_desc.
Proof. intros a b c Hab Hbc. unfold published_desc in *. by trans (publishedAt_key b). Qed.

#[export] Instance published_desc_total : Total published_desc.
Proof.
  intros a b. unfold published_desc.
  destruct (total String.le (publishedAt_key a) (publishedAt_key b)); auto.
Qed.

Lemma published_post_iff now d :
  published_post now d = true <->
  is_post d = true /\ exists t, get_prop d "publishedAt" = jstr t /\ String.ltb t now = true.
Proof.
  unfold published_post. rewrite andb_true_iff, bool_decide_eq_true.
  apply and_iff_compat_l. unfold jstr.
  destruct (get_prop d "publishedAt") as [|[]]; simpl; split;
    try (intros (? & ? & ?); congruence); try discriminate;
    intros [= Hlt]; eauto.
Qed.

(** Strong sortedness carries over to a coarser order on elements that
    satisfy [P]. *)
Lemma StronglySorted_weaken {A} (R R' : A -> A -> Prop) (P : A -> Prop) (l : list A) :
  (forall a b, P a -> P b -> R a b -> R' a b) -> Forall P l ->
  StronglySorted R l -> StronglySorted R' l.
Proof.
  intros HR HP Hs. induction Hs as [|a l Hs IH Hf]; [constructor|].
  inversion HP as [|? ? Ha Hl]; subst. constructor; [by apply IH|].
  rewrite Forall_forall in Hf, Hl |- *. intros b Hb. apply HR; auto.
Qed.

(** The listing's filter, computed. *)
Lemma published_post_eq now d :
  published_post now d =
    strict_eq (get_prop d "_type") (jstr "post") &&
    match get_prop d "publishedAt" with JVal (JStr t) => String.ltb t now | _ => false end.
Proof.
  unfold published_post, is_post. f_equal.
  destruct (get_prop d "publishedAt") as [|[]]; try reflexivity. simpl.
  by destruct (String.ltb _ now).
Qed.

(** ** Properties *)

(** A document is listed exactly when it is in the dataset, its
    [_type] is ["post"] and its [publishedAt] is a string that is
    strictly earlier than [now()]: drafts without a date, future posts
    and other document types are left out. *)
Theorem POSTS_QUERY_spec now (ds : list json) d :
  d ∈ POSTS_QUERY now ds <->
  d ∈ ds /\ is_post d = true /\
  exists t, get_prop d "publishedAt" = jstr t /\ String.ltb t now = true.
Proof.
  unfold POSTS_QUERY, order_publishedAt_desc.
  rewrite (merge_sort_Permutation _ _), list_elem_of_filter, published_post_iff.
  tauto.
Qed.

(** C16. The listing holds, each as often as it occurs in the dataset,
    exactly the documents whose [_type] is ["post"] and whose
    [publishedAt] is a string strictly earlier than [now()], and it is
    in non-increasing order of [publishedAt]: of any two listed posts,
    the later one in the list was published no later. *)
Theorem POSTS_QUERY_sorted_perm now (ds : list json) :
  POSTS_QUERY now ds ≡ₚ
    filter (fun d => (strict_eq (get_prop d "_type") (jstr "post") &&
                      match get_prop d "publishedAt" with
                      | JVal (JStr t) => String.ltb t now
                      | _ => false
                      end) = true) ds /\
  StronglySorted (fun a b => exists ta tb, get_prop a "publishedAt" = jstr ta /\
                                          get_prop b "publishedAt" = jstr tb /\ String.le tb ta)
    (POSTS_QUERY now ds).
Proof.
  split.
  - unfold POSTS_QUERY, order_publishedAt_desc. rewrite (merge_sort_Permutation _ _). apply Permutation_refl', list_filter_iff.
    intros d. by rewrite published_post_eq.
  - apply (StronglySorted_weaken published_desc _
             (fun d => exists t, get_prop d "publishedAt" = jstr t)).
    + intros a b [ta Ha] [tb Hb]. unfold published_desc, publishedAt_key.
      rewrite Ha, Hb. eauto 6.
    + apply Forall_forall. intros d (_ & _ & t & Ht & _)%POSTS_QUERY_spec. eauto.
    + apply StronglySorted_merge_sort; apply _.
Qed.

(** Section 8, property 6: with posts published one day after,
    one day before and two days before [now], the listing holds the one
    of the day before, then the one of two days before. *)
Theorem POSTS_QUERY_example :
  let post t := JObj [("_type", JStr "post"); ("publishedAt", JStr t)] in
  POSTS_QUERY "2025-03-10T12:00:00Z"
    [post "2025-03-11T12:00:00Z"; post "2025-03-09T12:00:00Z"; post "2025-03-08T12:00:00Z"]
  = [post "2025-03-09T12:00:00Z"; post "2025-03-08T12:00:00Z"].
Proof. vm_compute. reflexivity. Qed.

(** A post published exactly at [now()] is not listed: the filter is
    a strict [<]. *)
Theorem POSTS_QUERY_excludes_now now (ds : list json) d :
  get_prop d "publishedAt" = jstr now -> d ∉ POSTS_QUERY now ds.
Proof.
  intros Hd Hin. apply POSTS_QUERY_spec in Hin as (_ & _ & t & Ht & Hlt).
  rewrite Hd in Ht. injection Ht as <-.
  by rewrite string_ltb_irrefl in Hlt.
Qed.

Lemma head_filter_Some {A} (P : A -> Prop) `{!∀ x, Decision (P x)} (l : list A) x :
  x ∈ l -> P x -> exists y, head (filter P l) = Some y /\ P y.
Proof.
  intros Hx HP. destruct (filter P l) as [|y l'] eqn:E.
  - exfalso. assert (x ∈ filter P l) as Hf by (by apply list_elem_of_filter).
    rewrite E in Hf. by apply not_elem_of_nil in Hf.
  - exists y. split; [done|]. assert (y ∈ filter P l) as Hy by (rewrite E; left).
    by apply list_elem_of_filter in Hy as [? _].
Qed.

Lemma ALL_POSTS_QUERY_elem (ds : list json) v :
  v ∈ ALL_POSTS_QUERY ds <->
  exists d, d ∈ ds /\ is_post d = true /\ slug_current d = JVal v /\ v <> JNull.
Proof.
  unfold ALL_POSTS_QUERY. rewrite list_elem_of_omap.
  split; intros (d & Hd & Hv); exists d; split; try done.
  - destruct (is_post d); [|done]. destruct (slug_current d) as [|[]]; naive_solver.
  - destruct Hv as (-> & Hs & Hn). rewrite Hs. destruct v; done.
Qed.


(** Every string slug of [ALL_POSTS_QUERY] resolves: [POST_QUERY]
    finds a post with that slug. *)
Lemma static_slugs_resolve (ds : list json) s :
  JStr s ∈ ALL_POSTS_QUERY ds ->
  exists d, POST_QUERY s ds = Some d /\ is_post d = true /\ slug_current d = jstr s.
Proof.
  intros (d & Hd & Hp & Hs & _)%ALL_POSTS_QUERY_elem.
  destruct (head_filter_Some (fun d => matches_slug s d = true) ds d) as (y & Hy & Hm);
    [done | unfold matches_slug; rewrite Hp, Hs; simpl; apply String.eqb_refl |].
  exists y. split; [done|]. unfold matches_slug in Hm.
  apply andb_true_iff in Hm as [Hpy Hsy]. split; [done|]. by apply strict_eq_str_true.
Qed.

End Groq.

(** ** The theorems at concrete datasets *)

Import Groq.

Definition dated_post (slug t : string) : json :=
  JObj [("_type", JStr "post"); ("slug", JObj [("current", JStr slug)]); ("publishedAt", JStr t)].

Lemma POSTS_QUERY_excludes_now_witness :
  dated_post "launch" "2025-03-10T12:00:00Z"
    ∉ POSTS_QUERY "2025-03-10T12:00:00Z" [dated_post "launch" "2025-03-10T12:00:00Z"].
Proof. apply POSTS_QUERY_excludes_now. reflexivity. Defined.
