(* ===== verification/FetchCache.v ===== *)
(** * The content fetcher and its 60 second data cache

    Both pages read the content store through
    [client.fetch(query, params, { next: { revalidate: 60 } })]
    ([src/app/blog/page.tsx] lines 16-22, [getPosts];
    [src/app/blog/[slug]/page.tsx] lines 27-33, [getPost] and line 37,
    [generateStaticParams]). The cache itself is Next.js code: it is
    modelled from section 4.4 and the design notes of the specification,
    as a keyed store of timestamped answers with expiry on read (Next.js
    itself answers an expired entry once more while it refetches in the
    background; that answer is not modelled). A fetch
    whose entry is younger than 60 seconds answers from the cache;
    otherwise it makes a round trip to the store, and a successful answer
    replaces the entry. [store_calls] counts the round trips, the probe
    of property 7 of the specification.

    The store is a function of the time and the key; [groq_store] is the
    store that evaluates the three queries of the site with the meaning
    [Groq] gives them. *)

From S2P Require Import Prelude JsValue Groq.

Module FetchCache.

(** The three GROQ texts of the site. The texts are pairwise distinct, so
    a key compares them by name. *)
Inductive query_id := QPosts | QPost | QAllPosts.

#[export] Instance query_id_eq_dec : EqDecision query_id.
Proof. solve_decision. Defined.

#[export] Instance query_id_countable : Countable query_id.
Proof.
  refine (inj_countable'
    (fun q => match q with QPosts => 0 | QPost => 1 | QAllPosts => 2 end)
    (fun n => match n with 0 => QPosts | 1 => QPost | _ => QAllPosts end) _).
  by intros [].
Defined.

(** The cache key of a fetch: its query and its parameters. *)
Definition key : Type := query_id * list (string * string).

Inductive fetch_error := RetrievalError.

Record cache := mk_cache {
  entries : gmap key (Z * json);
  store_calls : nat
}.

Definition empty_cache : cache := mk_cache ∅ 0.

(** [{ next: { revalidate: 60 } }], in seconds. *)
Definition revalidate : Z := 60.

Section Fetch.
Variable store : Z -> key -> result fetch_error json.

(** An entry fetched at [e.1] still answers at [now]. *)
Definition fresh (now : Z) (e : Z * json) : bool := (now - e.1 <? revalidate)%Z.

(** A round trip to the store at [now]; only a successful answer is kept. *)
Definition fetch_store (now : Z) (k : key) : M cache fetch_error json := fun c =>
  match store now k with
  | Ok v => (Ok v, mk_cache (<[k := (now, v)]> (entries c)) (S (store_calls c)))
  | Throw e => (Throw e, mk_cache (entries c) (S (store_calls c)))
  end.

(** [client.fetch(query, params, { next: { revalidate: 60 } })] at [now]. *)
Definition fetch (now : Z) (k : key) : M cache fetch_error json := fun c =>
  match entries c !! k with
  | Some e => if fresh now e then (Ok e.2, c) else fetch_store now k c
  | None => fetch_store now k c
  end.

(** The caches a run of the site can produce: fetches in the order of a
    clock that never goes back. *)
Inductive reachable : Z -> cache -> Prop :=
| reach_init t : reachable t empty_cache
| reach_fetch t t' k c r c' :
    reachable t c -> (t <= t')%Z -> fetch t' k c = (r, c') -> reachable t' c'.

(** Every entry was the store's answer at its time, which is not in the
    future. *)
Definition cache_inv (now : Z) (c : cache) : Prop :=
  map_Forall (fun k e => (e.1 <= now)%Z /\ store e.1 k = Ok e.2) (entries c).

End Fetch.

(** The store that evaluates the site's queries on the dataset at the
    time of the request; [iso t] is [now()] at [t]; [up t] says whether
    the store is reachable. An unbound [$slug] is a query error. *)
Definition groq_store (dataset : Z -> list json) (iso : Z -> string) (up : Z -> bool)
    (t : Z) (k : key) : result fetch_error json :=
  if up t then
    match k with
    | (QPosts, _) => Ok (JArr (Groq.POSTS_QUERY (iso t) (dataset t)))
    | (QPost, params) =>
        match list_to_map (M := gmap string string) params !! "slug" with
        | Some s => Ok (default JNull (Groq.POST_QUERY s (dataset t)))
        | None => Throw RetrievalError
        end
    | (QAllPosts, _) => Ok (JArr (Groq.ALL_POSTS_QUERY (dataset t)))
    end
  else Throw RetrievalError.

(** ** Lemmas *)

Section Properties.
Variable store : Z -> key -> result fetch_error json.

(** The two ways a fetch completes: from a fresh entry, with the cache
    unchanged, or through a round trip to the store. *)
Lemma fetch_cases (now : Z) (k : key) (c c' : cache) (r : result fetch_error json) :
  fetch store now k c = (r, c') ->
  (exists e, entries c !! k = Some e /\ fresh now e = true /\ r = Ok e.2 /\ c' = c) \/
  fetch_store store now k c = (r, c').
Proof.
  unfold fetch. destruct (entries c !! k) as [e|] eqn:E; [|by right].
  destruct (fresh now e) eqn:F; [|by right]. intros [= <- <-]. left. by exists e.
Qed.

Lemma fetch_store_spec (now : Z) (k : key) (c c' : cache) (r : result fetch_error json) :
  fetch_store store now k c = (r, c') ->
  r = store now k /\ store_calls c' = S (store_calls c) /\
  entries c' = match r with Ok v => <[k := (now, v)]> (entries c) | Throw _ => entries c end.
Proof. unfold fetch_store. destruct (store now k); by intros [= <- <-]. Qed.

Lemma fetch_hit (now : Z) (k : key) (c : cache) (e : Z * json) :
  entries c !! k = Some e -> fresh now e = true -> fetch store now k c = (Ok e.2, c).
Proof. unfold fetch. by intros -> ->. Qed.

Lemma cache_inv_mono (t t' : Z) (c : cache) :
  cache_inv store t c -> (t <= t')%Z -> cache_inv store t' c.
Proof. intros Hc Ht. eapply map_Forall_impl; [done|]. intros k e [? ?]; split; [lia | done]. Qed.

Lemma fetch_inv (now : Z) (k : key) (c c' : cache) (r : result fetch_error json) :
  cache_inv store now c -> fetch store now k c = (r, c') -> cache_inv store now c'.
Proof.
  intros Hc [(e & _ & _ & _ & ->) | (Hr & _ & He)%fetch_store_spec]%fetch_cases; [done|].
  unfold cache_inv. rewrite He. destruct r as [v|]; [|done].
  apply map_Forall_insert_2; [|done]. simpl. split; [lia | done].
Qed.

Lemma reachable_inv (t : Z) (c : cache) : reachable store t c -> cache_inv store t c.
Proof.
  induction 1 as [t | t t' k c r c' _ IH Ht Hf].
  - apply map_Forall_empty.
  - eapply fetch_inv; [eapply cache_inv_mono|]; eauto.
Qed.

(** Under the invariant, a value a fetch returns at [now] is the
    store's answer at some time in the last 60 seconds. *)
Lemma fetch_answer_recent (now : Z) (k : key) (c c' : cache) (v : json) :
  cache_inv store now c -> fetch store now k c = (Ok v, c') ->
  exists t0, (now - revalidate < t0 <= now)%Z /\ store t0 k = Ok v.
Proof.
  intros Hinv Hf.
  destruct (fetch_cases _ _ _ _ _ Hf) as [(e & He & Hfr & [= ->] & _) | (Hs & _)%fetch_store_spec].
  - destruct (Hinv k e He) as [Hle Hst]. exists e.1. unfold fresh in Hfr.
    apply Z.ltb_lt in Hfr. split; [lia | done].
  - exists now. split; [unfold revalidate; lia | done].
Qed.

(** ** Properties *)

(** C27. Section 8, property 7, and the end of the window: once a fetch
    has made a round trip to the store at [now], the same fetch at any
    time in the next 60 seconds returns the same value from the cache and
    makes no round trip; from [now + 60] on, it goes to the store again. *)
Theorem fetch_within_window (now : Z) (k : key) (c c' : cache) (v : json) :
  fetch store now k c = (Ok v, c') -> store_calls c' = S (store_calls c) ->
  (forall now', (now <= now' < now + 60)%Z -> fetch store now' k c' = (Ok v, c')) /\
  (forall now', (now + 60 <= now')%Z -> fetch store now' k c' = fetch_store store now' k c').
Proof.
  intros Hf Hcalls.
  destruct (fetch_cases _ _ _ _ _ Hf) as [(e & _ & _ & _ & ->) | Hs]; [lia|].
  apply fetch_store_spec in Hs as (_ & _ & He).
  assert (Hk : entries c' !! k = Some (now, v)) by (by rewrite He, lookup_insert_eq).
  split; intros now' Hnow.
  - apply (fetch_hit _ _ _ (now, v) Hk). unfold fresh, revalidate. simpl. apply Z.ltb_lt. lia.
  - unfold fetch. rewrite Hk. unfold fresh, revalidate. simpl.
    by rewrite (proj2 (Z.ltb_ge _ _)) by lia.
Qed.


End Properties.

End FetchCache.

(** ** The theorems at a concrete store *)

Import FetchCache.

(** The store of a dataset of one post, always reachable. *)
Definition demo_store : Z -> key -> result fetch_error json :=
  groq_store (fun _ => [dated_post "hello" "2025-01-01T00:00:00Z"])
    (fun _ => "2025-06-01T00:00:00Z") (fun _ => true).

Definition demo_key : key := (QPost, [("slug", "hello")]).

(** The cache and the answer after the first fetch, at time 100. *)
Definition demo_cache : cache := Eval vm_compute in snd (fetch demo_store 100 demo_key empty_cache).

Definition demo_answer : json :=
  Eval vm_compute in
    match fst (fetch demo_store 100 demo_key empty_cache) with Ok v => v | Throw _ => JNull end.

Lemma fetch_within_window_witness :
  fetch demo_store 159 demo_key demo_cache = (Ok demo_answer, demo_cache) /\
  fetch demo_store 160 demo_key demo_cache = fetch_store demo_store 160 demo_key demo_cache.
Proof.
  destruct (fetch_within_window demo_store 100 demo_key empty_cache demo_cache demo_answer)
    as [Hin Hout]; [vm_compute; reflexivity | reflexivity |].
  split; [apply Hin | apply Hout]; lia.
Defined.

