(* ===== verification/UriCodec.v ===== *)
(** * [encodeURIComponent] and [decodeURIComponent]

    The listing page links a post with
    [`/blog/${encodeURIComponent(post.slug.current)}`]
    ([src/app/blog/page.tsx] line 77) and the detail page decodes the
    route parameter with [decodeURIComponent(slug)]
    ([src/app/blog/[slug]/page.tsx] lines 45 and 84). Both are ECMAScript
    built-ins (ECMA-262, Encode and Decode). Strings here are byte
    strings: a JavaScript string corresponds to its UTF-8 encoding, and
    [encodeURIComponent] escapes exactly the UTF-8 octets of the code
    points outside the unreserved set, so encoding is byte by byte.
    Decoding follows ECMA-262 Decode: an escape below [0x80] is one
    character, a higher one must start a well-formed UTF-8 sequence
    (RFC 3629: no overlong form, no surrogate, nothing above U+10FFFF)
    of escaped continuation octets; anything else is a [URIError].
    The theorems: decoding inverts encoding on well-formed UTF-8
    ([decode_encode]), and a string ending in [%] throws
    ([decode_trailing_percent]); the lemmas on octets are checked by
    computation over the octet ranges. *)

From S2P Require Import Prelude JsValue.
From Stdlib Require Import Ascii.

Module UriCodec.

(** The unreserved set: letters, digits and [- _ . ! ~ * ' ( )]. *)
Definition uri_unreserved (c : ascii) : bool :=
  let n := N_of_ascii c in
  ((65 <=? n) && (n <=? 90))%N || ((97 <=? n) && (n <=? 122))%N ||
  ((48 <=? n) && (n <=? 57))%N ||
  existsb (fun m => Ascii.eqb c m) ["-"; "_"; "."; "!"; "~"; "*"; "'"; "("; ")"]%char.

(** An upper-case hexadecimal digit. *)
Definition hex_digit (n : N) : ascii :=
  ascii_of_N (if (n <? 10)%N then 48 + n else 55 + n)%N.

(** ["%XY"] for the octet [c]. *)
Definition percent_escape (c : ascii) : string :=
  String "%" (String (hex_digit (N_of_ascii c / 16)) (String (hex_digit (N_of_ascii c mod 16)) "")).

Fixpoint encodeURIComponent (s : string) : string :=
  match s with
  | EmptyString => EmptyString
  | String c s' =>
      (if uri_unreserved c then String c EmptyString else percent_escape c) +ₛ encodeURIComponent s'
  end.

(** ** Decoding *)

(** A hexadecimal digit, either case. *)
Definition hex_value (c : ascii) : option N :=
  let n := N_of_ascii c in
  if ((48 <=? n) && (n <=? 57))%N then Some (n - 48)%N
  else if ((65 <=? n) && (n <=? 70))%N then Some (n - 55)%N
  else if ((97 <=? n) && (n <=? 102))%N then Some (n - 87)%N
  else None.

(** ["%XY"] at the head of the string: the octet and the rest. *)
Definition read_escape (s : string) : option (N * string) :=
  match s with
  | String p (String h1 (String h2 rest)) =>
      if Ascii.eqb p "%" then
        match hex_value h1, hex_value h2 with
        | Some a, Some b => Some (16 * a + b, rest)%N
        | _, _ => None
        end
      else None
  | _ => None
  end.

(** The number of octets of a UTF-8 sequence, from its leading octet:
    the count of its leading one bits, which must be 2, 3 or 4. *)
Definition utf8_length (b : N) : option nat :=
  if (N.land b 224 =? 192)%N then Some 2
  else if (N.land b 240 =? 224)%N then Some 3
  else if (N.land b 248 =? 240)%N then Some 4
  else None.

Definition in_range (lo hi b : N) : bool := ((lo <=? b) && (b <=? hi))%N.

(** A well-formed UTF-8 encoding of one code point of at least two
    octets: no overlong form, no surrogate, nothing past U+10FFFF
    (RFC 3629, section 4). *)
Definition utf8_valid_seq (bs : list N) : bool :=
  match bs with
  | [b1; b2] => in_range 194 223 b1 && in_range 128 191 b2
  | [b1; b2; b3] =>
      in_range 128 191 b3 &&
      (if (b1 =? 224)%N then in_range 160 191 b2
       else if (b1 =? 237)%N then in_range 128 159 b2
       else (in_range 225 236 b1 || in_range 238 239 b1) && in_range 128 191 b2)
  | [b1; b2; b3; b4] =>
      in_range 128 191 b3 && in_range 128 191 b4 &&
      (if (b1 =? 240)%N then in_range 144 191 b2
       else if (b1 =? 244)%N then in_range 128 143 b2
       else in_range 241 243 b1 && in_range 128 191 b2)
  | _ => false
  end.

(** The [n] continuation octets of a sequence, each escaped and of the
    form [10xxxxxx]. *)
Fixpoint read_continuations (n : nat) (s : string) : option (list N * string) :=
  match n with
  | O => Some ([], s)
  | S n' =>
      match read_escape s with
      | Some (b, rest) =>
          if (N.land b 192 =? 128)%N then
            match read_continuations n' rest with
            | Some (bs, rest') => Some (b :: bs, rest')
            | None => None
            end
          else None
      | None => None
      end
  end.

Definition string_of_octets (bs : list N) : string :=
  fold_right (fun b s => String (ascii_of_N b) s) EmptyString bs.

(** ECMA-262 Decode with an empty reserved set, by recursion on a fuel
    that bounds the number of steps; [decodeURIComponent] gives it one
    more than the length of the string, and every step consumes at least
    one character ([decode_fuel_enough]). *)
Fixpoint decode_fuel (fuel : nat) (s : string) : result js_error string :=
  match fuel with
  | O => Throw URIError
  | S fuel' =>
      match s with
      | EmptyString => Ok EmptyString
      | String c s' =>
          if negb (Ascii.eqb c "%") then
            r ← decode_fuel fuel' s'; mret (String c r)
          else
            match read_escape s with
            | None => Throw URIError
            | Some (b, rest) =>
                if (b <? 128)%N then
                  r ← decode_fuel fuel' rest; mret (String (ascii_of_N b) r)
                else
                  match utf8_length b with
                  | None => Throw URIError
                  | Some n =>
                      match read_continuations (n - 1) rest with
                      | None => Throw URIError
                      | Some (bs, rest') =>
                          if utf8_valid_seq (b :: bs) then
                            r ← decode_fuel fuel' rest';
                            mret (string_of_octets (b :: bs) +ₛ r)
                          else Throw URIError
                      end
                  end
            end
      end
  end.

Definition decodeURIComponent (s : string) : result js_error string :=
  decode_fuel (S (String.length s)) s.

(** A well-formed UTF-8 string: ASCII octets and well-formed multi-octet
    sequences, split as the decoder splits them. *)
Fixpoint utf8_valid_fuel (fuel : nat) (s : string) : bool :=
  match fuel with
  | O => false
  | S fuel' =>
      match s with
      | EmptyString => true
      | String c s' =>
          let b := N_of_ascii c in
          if (b <? 128)%N then utf8_valid_fuel fuel' s'
          else
            match utf8_length b with
            | None => false
            | Some n =>
                let t := list_ascii_of_string s' in
                utf8_valid_seq (b :: map N_of_ascii (take (n - 1) t)) &&
                utf8_valid_fuel fuel' (string_of_list_ascii (drop (n - 1) t))
            end
      end
  end.

Definition utf8_valid (s : string) : bool := utf8_valid_fuel (S (String.length s)) s.

(** ** Lemmas on octets *)

(** A property of octets checked by computation on a range. *)
Lemma N_range_check (P : N -> bool) (lo len : nat) (b : N) :
  forallb (fun k => P (N.of_nat k)) (seq lo len) = true ->
  (N.of_nat lo <= b < N.of_nat lo + N.of_nat len)%N -> P b = true.
Proof.
  intros Hall Hb. rewrite forallb_forall in Hall.
  rewrite <-(N2Nat.id b). apply Hall, in_seq. lia.
Qed.

Lemma hex_digit_value (n : N) : (n < 16)%N -> hex_value (hex_digit n) = Some n.
Proof.
  intros Hn.
  assert (match hex_value (hex_digit n) with Some m => N.eqb m n | None => false end = true) as Hv
    by (apply (N_range_check (fun n => match hex_value (hex_digit n) with
                                       | Some m => N.eqb m n | None => false end) 0 16);
        [by vm_compute | lia]).
  destruct (hex_value (hex_digit n)); [|done]. by apply N.eqb_eq in Hv as ->.
Qed.

Lemma read_escape_percent (c : ascii) (rest : string) :
  read_escape (percent_escape c +ₛ rest) = Some (N_of_ascii c, rest).
Proof.
  pose proof (N_ascii_bounded c) as Hc. unfold percent_escape. simpl.
  rewrite !hex_digit_value.
  - f_equal. f_equal. symmetry. apply N.div_mod. lia.
  - apply N.mod_lt. lia.
  - apply N.Div0.div_lt_upper_bound. lia.
Qed.

(** Checked on all 256 octets. *)
Lemma unreserved_ascii (c : ascii) : uri_unreserved c = true -> (N_of_ascii c < 128)%N.
Proof. intros H. destruct c as [[] [] [] [] [] [] [] []]; vm_compute in H |- *; congruence. Qed.

Lemma unreserved_not_percent (c : ascii) : uri_unreserved c = true -> Ascii.eqb c "%" = false.
Proof.
  intros H. destruct (Ascii.eqb_spec c "%") as [->|]; [discriminate H | done].
Qed.

Lemma continuation_land (b : N) : in_range 128 191 b = true -> N.land b 192 = 128%N.
Proof.
  unfold in_range. rewrite andb_true_iff, !N.leb_le. intros Hb.
  assert (forallb (fun k => N.land (N.of_nat k) 192 =? 128)%N (seq 128 64) = true) as Hall
    by (vm_compute; reflexivity).
  rewrite forallb_forall in Hall. specialize (Hall (N.to_nat b)).
  rewrite N2Nat.id in Hall. apply N.eqb_eq, Hall, in_seq. lia.
Qed.

Lemma encode_app (a b : string) :
  encodeURIComponent (a +ₛ b) = encodeURIComponent a +ₛ encodeURIComponent b.
Proof.
  induction a as [|c a IH]; [done|]. rewrite string_app_cons. simpl.
  by rewrite IH, string_app_assoc.
Qed.

Ltac split_octet_bools :=
  repeat match goal with
  | H : _ && _ = true |- _ => apply andb_true_iff in H as [? ?]
  | H : _ || _ = true |- _ => apply orb_true_iff in H as [?|?]
  | H : (_ <=? _)%N = true |- _ => apply N.leb_le in H
  | H : context [if (?a =? ?b)%N then _ else _] |- _ => destruct (N.eqb_spec a b)
  end.

(** A well-formed sequence: its length, from the range of its leading
    octet, and continuation octets in [80..BF]. *)
Lemma valid_seq_shape (b : N) (bs : list N) :
  utf8_valid_seq (b :: bs) = true ->
  ((List.length bs = 1 /\ (194 <= b <= 223)%N) \/ (List.length bs = 2 /\ (224 <= b <= 239)%N) \/
   (List.length bs = 3 /\ (240 <= b <= 244)%N)) /\ Forall (fun x => in_range 128 191 x = true) bs.
Proof.
  destruct bs as [|x1 [|x2 [|x3 [|x4 bs]]]]; simpl; intros H; try discriminate;
    unfold in_range in *; split_octet_bools;
    (split; [simpl; lia | repeat constructor; unfold in_range; apply andb_true_iff; split; apply N.leb_le; lia]).
Qed.

Lemma utf8_length_range (lo len : nat) (m : nat) (b : N) :
  forallb (fun k => match utf8_length (N.of_nat k) with Some m' => Nat.eqb m' m | None => false end)
    (seq lo len) = true ->
  (N.of_nat lo <= b < N.of_nat lo + N.of_nat len)%N -> utf8_length b = Some m.
Proof.
  intros Hall Hb.
  apply (N_range_check (fun b => match utf8_length b with Some m' => Nat.eqb m' m | None => false end)
    lo len b Hall) in Hb.
  destruct (utf8_length b) as [m'|]; [|done]. by apply Nat.eqb_eq in Hb as ->.
Qed.

Lemma valid_seq_length (b : N) (n : nat) (bs : list N) :
  utf8_length b = Some n -> utf8_valid_seq (b :: bs) = true -> n = S (List.length bs).
Proof.
  intros Hn (Hb & _)%valid_seq_shape.
  destruct_or! Hb; destruct Hb as [-> Hb]; simpl.
  - enough (utf8_length b = Some 2) by congruence.
    apply (utf8_length_range 194 30); [by vm_compute | lia].
  - enough (utf8_length b = Some 3) by congruence.
    apply (utf8_length_range 224 16); [by vm_compute | lia].
  - enough (utf8_length b = Some 4) by congruence.
    apply (utf8_length_range 240 5); [by vm_compute | lia].
Qed.

Lemma string_of_list_ascii_app (a b : list ascii) :
  string_of_list_ascii (a ++ b) = string_of_list_ascii a +ₛ string_of_list_ascii b.
Proof. induction a as [|c a IH]; [done|]. simpl. by rewrite IH, string_app_cons. Qed.

Lemma string_of_list_ascii_length (a : list ascii) :
  String.length (string_of_list_ascii a) = List.length a.
Proof. induction a; simpl; auto. Qed.

Lemma string_of_octets_ascii (t : list ascii) :
  string_of_octets (map N_of_ascii t) = string_of_list_ascii t.
Proof. induction t as [|c t IH]; [done|]. simpl. by rewrite ascii_N_embedding, <-IH. Qed.

Lemma percent_escape_head (c : ascii) (rest : string) :
  exists s', percent_escape c +ₛ rest = String "%" s'.
Proof. unfold percent_escape. rewrite string_app_cons. by eexists. Qed.

Lemma percent_escape_length (c : ascii) : String.length (percent_escape c) = 3.
Proof. done. Qed.

(** An octet of the high half is never unreserved, so it is escaped. *)
Lemma encode_high (c : ascii) (s : string) :
  (128 <= N_of_ascii c)%N ->
  encodeURIComponent (String c s) = percent_escape c +ₛ encodeURIComponent s.
Proof.
  intros Hc. simpl. destruct (uri_unreserved c) eqn:E; [|done].
  apply unreserved_ascii in E. lia.
Qed.

Lemma read_continuations_S (n : nat) (s : string) :
  read_continuations (S n) s =
  match read_escape s with
  | Some (b, rest) =>
      if (N.land b 192 =? 128)%N then
        match read_continuations n rest with
        | Some (bs, rest') => Some (b :: bs, rest')
        | None => None
        end
      else None
  | None => None
  end.
Proof. done. Qed.

Lemma read_continuations_encode (t : list ascii) (rest : string) :
  Forall (fun c => in_range 128 191 (N_of_ascii c) = true) t ->
  read_continuations (List.length t) (encodeURIComponent (string_of_list_ascii t) +ₛ rest)
  = Some (map N_of_ascii t, rest).
Proof.
  induction 1 as [|c t Hc Ht IH]; [done|]. simpl string_of_list_ascii.
  rewrite encode_high by (unfold in_range in Hc; split_octet_bools; lia).
  rewrite string_app_assoc. simpl List.length. rewrite read_continuations_S.
  rewrite read_escape_percent, continuation_land by done. simpl. by rewrite IH.
Qed.

Lemma decode_fuel_percent (f : nat) (s : string) :
  (exists s', s = String "%" s') ->
  decode_fuel (S f) s =
  match read_escape s with
  | None => Throw URIError
  | Some (b, rest) =>
      if (b <? 128)%N then r ← decode_fuel f rest; mret (String (ascii_of_N b) r)
      else
        match utf8_length b with
        | None => Throw URIError
        | Some n =>
            match read_continuations (n - 1) rest with
            | None => Throw URIError
            | Some (bs, rest') =>
                if utf8_valid_seq (b :: bs) then
                  r ← decode_fuel f rest'; mret (string_of_octets (b :: bs) +ₛ r)
                else Throw URIError
            end
        end
  end.
Proof. by intros [s' ->]. Qed.

(** The three ways the decoder consumes the encoding of one character. *)
Lemma decode_unreserved (f : nat) (c : ascii) (rest : string) :
  uri_unreserved c = true ->
  decode_fuel (S f) (String c rest) = r ← decode_fuel f rest; mret (String c r).
Proof. intros Hc. simpl. by rewrite unreserved_not_percent. Qed.

Lemma decode_escape_ascii (f : nat) (c : ascii) (rest : string) :
  (N_of_ascii c < 128)%N ->
  decode_fuel (S f) (percent_escape c +ₛ rest) = r ← decode_fuel f rest; mret (String c r).
Proof.
  intros Hc. rewrite decode_fuel_percent by apply percent_escape_head.
  rewrite read_escape_percent, (proj2 (N.ltb_lt _ _) Hc). by rewrite ascii_N_embedding.
Qed.

Lemma decode_escape_multi (f : nat) (c : ascii) (t : list ascii) (rest : string) :
  (128 <= N_of_ascii c)%N ->
  utf8_length (N_of_ascii c) = Some (S (List.length t)) ->
  utf8_valid_seq (N_of_ascii c :: map N_of_ascii t) = true ->
  decode_fuel (S f) (percent_escape c +ₛ (encodeURIComponent (string_of_list_ascii t) +ₛ rest))
  = r ← decode_fuel f rest; mret (String c (string_of_list_ascii t) +ₛ r).
Proof.
  intros Hc Hn Hv. rewrite decode_fuel_percent by apply percent_escape_head.
  rewrite read_escape_percent, (proj2 (N.ltb_ge _ _) Hc), Hn. simpl (S _ - 1).
  rewrite Nat.sub_0_r, read_continuations_encode, Hv.
  - change (string_of_octets (N_of_ascii c :: map N_of_ascii t))
      with (string_of_octets (map N_of_ascii (c :: t))).
    by rewrite string_of_octets_ascii.
  - apply valid_seq_shape in Hv as [_ Hv]. by apply Forall_map in Hv.
Qed.

(** ** Fuel *)

Lemma read_escape_length (s rest : string) (b : N) :
  read_escape s = Some (b, rest) -> String.length s = 3 + String.length rest.
Proof.
  destruct s as [|p [|h1 [|h2 rest']]]; simpl; try discriminate.
  destruct (Ascii.eqb p "%"), (hex_value h1), (hex_value h2); by intros [= _ <-].
Qed.

Lemma read_continuations_length (n : nat) (s rest : string) (bs : list N) :
  read_continuations n s = Some (bs, rest) -> String.length rest <= String.length s.
Proof.
  revert s bs. induction n as [|n IH]; intros s bs; simpl; [intros [= _ <-]; lia|].
  destruct (read_escape s) as [[b r]|] eqn:E; [|done].
  apply read_escape_length in E. destruct (N.land b 192 =? 128)%N; [|done].
  destruct (read_continuations n r) as [[bs' r']|] eqn:E'; [|done].
  intros [= _ <-]. apply IH in E'. lia.
Qed.

Lemma decode_fuel_irrel (f1 f2 : nat) (s : string) :
  String.length s < f1 -> String.length s < f2 -> decode_fuel f1 s = decode_fuel f2 s.
Proof.
  revert f2 s. induction f1 as [|f1 IH]; intros [|f2] s H1 H2; try lia.
  destruct s as [|c s']; [done|]. cbn [decode_fuel]. simpl in H1, H2.
  destruct (negb (Ascii.eqb c "%")); [by rewrite (IH f2) by lia|].
  destruct (read_escape (String c s')) as [[b rest]|] eqn:E; [|done].
  apply read_escape_length in E. simpl in E.
  destruct (b <? 128)%N; [by rewrite (IH f2) by lia|].
  destruct (utf8_length b) as [n|]; [|done].
  destruct (read_continuations (n - 1) rest) as [[bs rest']|] eqn:E'; [|done].
  apply read_continuations_length in E'.
  destruct (utf8_valid_seq (b :: bs)); [by rewrite (IH f2) by lia | done].
Qed.

(** The decoding loop consumes at least one character per step, so any
    fuel above the length of the string gives the result of
    [decodeURIComponent]: the fuel never cuts a decoding short. *)
Theorem decode_fuel_enough (f : nat) (s : string) :
  String.length s < f -> decode_fuel f s = decodeURIComponent s.
Proof. intros H. apply decode_fuel_irrel; [done | lia]. Qed.

Lemma split_string (s : string) (k : nat) :
  s = string_of_list_ascii (take k (list_ascii_of_string s)) +ₛ
      string_of_list_ascii (drop k (list_ascii_of_string s)).
Proof. by rewrite <-string_of_list_ascii_app, take_drop, string_of_list_ascii_of_string. Qed.

(** ** Round trip *)

Lemma decode_encode_fuel (f : nat) (s : string) (g : nat) :
  utf8_valid_fuel f s = true -> String.length (encodeURIComponent s) < g ->
  decode_fuel g (encodeURIComponent s) = Ok s.
Proof.
  revert s g. induction f as [|f IH]; intros s g Hv Hg; [discriminate|].
  destruct g as [|g]; [lia|]. destruct s as [|c s']; [done|].
  cbn [utf8_valid_fuel] in Hv. destruct (N.ltb_spec (N_of_ascii c) 128) as [Hc|Hc].
  - cbn [encodeURIComponent] in Hg |- *. rewrite string_app_length in Hg.
    destruct (uri_unreserved c) eqn:Hu.
    + rewrite string_app_cons, string_app_nil_l, decode_unreserved by done.
      simpl in Hg. by rewrite (IH s' g) by (done || lia).
    + rewrite decode_escape_ascii by done.
      rewrite percent_escape_length in Hg. by rewrite (IH s' g) by (done || lia).
  - destruct (utf8_length (N_of_ascii c)) as [n|] eqn:Hn; [|discriminate].
    apply andb_true_iff in Hv as [Hseq Hrest].
    pose proof (valid_seq_length _ _ _ Hn Hseq) as Hlen. rewrite length_map in Hlen.
    rewrite (split_string s' (n - 1)) in Hg |- *.
    set (t1 := take (n - 1) (list_ascii_of_string s')) in *.
    set (s'' := string_of_list_ascii (drop (n - 1) (list_ascii_of_string s'))) in *.
    rewrite encode_high, encode_app in Hg |- * by lia.
    rewrite Hlen in Hn. rewrite decode_escape_multi by done.
    rewrite !string_app_length, percent_escape_length in Hg.
    by rewrite (IH s'' g) by (done || lia).
Qed.

(** C25. [decodeURIComponent] inverts [encodeURIComponent] on every
    well-formed UTF-8 string: the slug the listing page writes into the
    link ([src/app/blog/page.tsx] line 77) is the slug the detail page
    decodes ([src/app/blog/[slug]/page.tsx] lines 45 and 84). *)
Theorem decode_encode (s : string) :
  utf8_valid s = true -> decodeURIComponent (encodeURIComponent s) = Ok s.
Proof. intros Hv. apply (decode_encode_fuel (S (String.length s))); [done | lia]. Qed.

(** ** A trailing [%] *)

Lemma read_escape_trailing (p rest : string) (b : N) :
  read_escape (p +ₛ "%") = Some (b, rest) -> exists p', rest = p' +ₛ "%".
Proof.
  destruct p as [|c1 [|c2 [|c3 p]]]; simpl; try discriminate.
  - destruct (Ascii.eqb c1 "%"), (hex_value c2); discriminate.
  - destruct (Ascii.eqb c1 "%"), (hex_value c2), (hex_value c3); intros [= _ <-]. by exists p.
Qed.

Lemma read_continuations_trailing (n : nat) (p rest : string) (bs : list N) :
  read_continuations n (p +ₛ "%") = Some (bs, rest) -> exists p', rest = p' +ₛ "%".
Proof.
  revert p bs. induction n as [|n IH]; intros p bs; simpl; [intros [= _ <-]; by exists p|].
  destruct (read_escape (p +ₛ "%")) as [[b r]|] eqn:E; [|done].
  apply read_escape_trailing in E as [p' ->]. destruct (N.land b 192 =? 128)%N; [|done].
  destruct (read_continuations n (p' +ₛ "%")) as [[bs' r']|] eqn:E'; [|done].
  intros [= _ <-]. by apply IH in E'.
Qed.

Lemma decode_fuel_trailing (f : nat) (p : string) :
  decode_fuel f (p +ₛ "%") = Throw URIError.
Proof.
  revert p. induction f as [|f IH]; intros p; [done|].
  destruct p as [|c p]; [done|]. rewrite string_app_cons. cbn [decode_fuel].
  destruct (negb (Ascii.eqb c "%")); [by rewrite IH|].
  rewrite <-string_app_cons.
  destruct (read_escape (String c p +ₛ "%")) as [[b rest]|] eqn:E; [|done].
  apply read_escape_trailing in E as [p' ->].
  destruct (b <? 128)%N; [by rewrite IH|].
  destruct (utf8_length b) as [n|]; [|done].
  destruct (read_continuations (n - 1) (p' +ₛ "%")) as [[bs rest']|] eqn:E'; [|done].
  apply read_continuations_trailing in E' as [p'' ->].
  destruct (utf8_valid_seq (b :: bs)); [by rewrite IH | done].
Qed.

(** C26. A string that ends in [%] is not a valid URI component:
    [decodeURIComponent] throws a [URIError], whatever comes before
    it; a slug such as ["100%"] in the address makes the detail page
    throw instead of rendering or answering "not found". *)
Theorem decode_trailing_percent (p : string) :
  decodeURIComponent (p +ₛ "%") = Throw URIError.
Proof. apply decode_fuel_trailing. Qed.

(** A string without [%] decodes to itself. *)
Lemma decode_fuel_no_percent (f : nat) (s : string) :
  forallb (fun c => negb (Ascii.eqb c "%")) (list_ascii_of_string s) = true ->
  String.length s < f -> decode_fuel f s = Ok s.
Proof.
  revert f. induction s as [|c s IH]; intros [|f] Hs Hf; simpl in *; try lia; [done|].
  apply andb_true_iff in Hs as [Hc Hs]. rewrite Hc. by rewrite IH by (done || lia).
Qed.

(** ** Lengths *)

Lemma encode_length (s : string) :
  String.length s <= String.length (encodeURIComponent s) <= 3 * String.length s.
Proof.
  induction s as [|c s IH]; [simpl; lia|]. simpl encodeURIComponent.
  rewrite string_app_length. destruct (uri_unreserved c); simpl; lia.
Qed.

End UriCodec.

(** ** The round trip at a concrete slug *)

Import UriCodec.

Lemma decode_encode_witness :
  utf8_valid "café-10%" = true /\
  decodeURIComponent (encodeURIComponent "café-10%") = Ok "café-10%".
Proof. split; [reflexivity | apply decode_encode; reflexivity]. Defined.
