(* ===== verification/SiteConfig.v ===== *)
(** * The site's configuration: [next.config.js] and [client.ts]

    [src/next.config.js] allows [next/image] to load remote images only
    from [https://cdn.sanity.io/images/**]; Next.js checks every remote
    [src] of an [<Image>] against [images.remotePatterns] with
    [matchRemotePattern] (Next.js code, modelled here from its source
    contract): the protocol, port and search must equal the pattern's
    when the pattern gives them, the hostname and the pathname must
    match the pattern's globs. The [src] is first parsed as a URL.

    The URL parser is the WHATWG parser on the URLs it leaves unchanged:
    [http] and [https] URLs whose host is lower case and whose path
    segments are unreserved characters other than the dot segments [.]
    and [..]; on those the parser's components are the substrings
    between the delimiters, and [parse_url] answers [None] on every
    other string. Globs: [**] matches any string, [*] any string without
    the separator ([/] in paths, [.] in hostnames), any other character
    itself.

    [src/app/sanity/client.ts] builds the content store client from the
    environment; [client.config()] gives the pages its [projectId] and
    [dataset]. *)

From S2P Require Import Prelude JsValue.
From Stdlib Require Import Ascii.

(** ** URLs *)

Module Url.

Record url := mk_url {
  protocol : string;
  hostname : string;
  port : string;
  pathname : string;
  search : string
}.

Definition in_range (lo hi : ascii) (c : ascii) : bool :=
  (N_of_ascii lo <=? N_of_ascii c)%N && (N_of_ascii c <=? N_of_ascii hi)%N.

Definition is_digit (c : ascii) : bool := in_range "0" "9" c.
Definition is_lower (c : ascii) : bool := in_range "a" "z" c.
Definition is_alnum (c : ascii) : bool := is_lower c || in_range "A" "Z" c || is_digit c.

Definition one_of (cs : string) (c : ascii) : bool :=
  existsb (Ascii.eqb c) (list_ascii_of_string cs).

Definition host_char (c : ascii) : bool := is_lower c || is_digit c || one_of ".-" c.
Definition seg_char (c : ascii) : bool := is_alnum c || one_of "-._~" c.
Definition query_char (c : ascii) : bool := seg_char c || one_of "=&/?:@+,;" c.

Definition all_chars (p : ascii -> bool) (s : string) : bool := forallb p (list_ascii_of_string s).

(** The longest prefix without a character satisfying [stop], and the rest. *)
Fixpoint take_until (stop : ascii -> bool) (s : string) : string * string :=
  match s with
  | EmptyString => (EmptyString, EmptyString)
  | String c s' =>
      if stop c then (EmptyString, s)
      else let '(a, b) := take_until stop s' in (String c a, b)
  end.

(** The pieces of [s] between the occurrences of [sep]. *)
Fixpoint split_on (sep : ascii) (s : string) : list string :=
  match s with
  | EmptyString => [EmptyString]
  | String c s' =>
      match split_on sep s' with
      | [] => []
      | x :: xs => if Ascii.eqb c sep then EmptyString :: x :: xs else String c x :: xs
      end
  end.

(** A path the parser keeps as written: [/] and unreserved characters,
    no dot segment. *)
Definition plain_path (p : string) : bool :=
  all_chars (fun c => seg_char c || Ascii.eqb c "/") p &&
  forallb (fun seg => negb (String.eqb seg ".") && negb (String.eqb seg "..")) (split_on "/" p).

Definition default_port (scheme : string) : string :=
  if String.eqb scheme "https" then "443" else "80".

(** [new URL(s)] on the URLs of the model. *)
Definition parse_url (s : string) : option url :=
  let '(scheme, r1) := take_until (Ascii.eqb ":") s in
  match r1 with
  | String ":" (String "/" (String "/" r2)) =>
      if String.eqb scheme "https" || String.eqb scheme "http" then
        let '(auth, r3) := take_until (one_of "/?#") r2 in
        let '(host, p) := take_until (Ascii.eqb ":") auth in
        let port := match p with String ":" q => q | _ => p end in
        let '(path, r4) := take_until (one_of "?#") r3 in
        let pathname := if String.eqb path "" then "/" else path in
        let '(query, _) := take_until (Ascii.eqb "#") r4 in
        if negb (String.eqb host "") && all_chars host_char host && all_chars is_digit port &&
           plain_path pathname && all_chars query_char query
        then Some (mk_url (scheme +ₛ ":") host
                     (if String.eqb port (default_port scheme) then "" else port)
                     pathname (if String.eqb query "?" then "" else query))
        else None
      else None
  | _ => None
  end.

(** ** Lemmas *)

Lemma list_ascii_of_string_app (a b : string) :
  list_ascii_of_string (a +ₛ b) = list_ascii_of_string a ++ list_ascii_of_string b.
Proof. induction a as [|c a IH]; [done|]. rewrite string_app_cons. simpl. by rewrite IH. Qed.

Lemma all_chars_app (p : ascii -> bool) (a b : string) :
  all_chars p (a +ₛ b) = all_chars p a && all_chars p b.
Proof. unfold all_chars. by rewrite list_ascii_of_string_app, forallb_app. Qed.

Lemma all_chars_cons (p : ascii -> bool) (c : ascii) (a : string) :
  all_chars p (String c a) = p c && all_chars p a.
Proof. done. Qed.

Lemma take_until_skip (stop : ascii -> bool) (a b : string) :
  all_chars (fun c => negb (stop c)) a = true ->
  take_until stop (a +ₛ b) = (a +ₛ (take_until stop b).1, (take_until stop b).2).
Proof.
  induction a as [|c a IH]; intros H; [rewrite !string_app_nil_l; by destruct (take_until stop b)|].
  rewrite all_chars_cons in H. apply andb_true_iff in H as [Hc Ha].
  rewrite !string_app_cons. simpl. destruct (stop c); [done|]. by rewrite IH.
Qed.

Lemma take_until_all (stop : ascii -> bool) (a : string) :
  all_chars (fun c => negb (stop c)) a = true -> take_until stop a = (a, "").
Proof.
  intros H. rewrite <-(string_app_nil_r a), take_until_skip by done. simpl.
  by rewrite string_app_nil_r.
Qed.

Lemma split_on_nonnil (sep : ascii) (s : string) : split_on sep s <> [].
Proof.
  induction s as [|c s IH]; simpl; [done|].
  destruct (split_on sep s); [done|]. by destruct (Ascii.eqb c sep).
Qed.

Lemma split_on_sep (sep : ascii) (a b : string) :
  all_chars (fun c => negb (Ascii.eqb c sep)) a = true ->
  split_on sep (a +ₛ String sep b) = a :: split_on sep b.
Proof.
  induction a as [|c a IH]; intros H.
  - simpl. destruct (split_on sep b) eqn:E; [by apply split_on_nonnil in E|].
    by rewrite Ascii.eqb_refl.
  - rewrite all_chars_cons in H. apply andb_true_iff in H as [Hc Ha].
    rewrite string_app_cons. simpl. rewrite IH by done. by destruct (Ascii.eqb c sep).
Qed.

Lemma split_on_none (sep : ascii) (a : string) :
  all_chars (fun c => negb (Ascii.eqb c sep)) a = true -> split_on sep a = [a].
Proof.
  intros H. induction a as [|c a IH]; [done|].
  rewrite all_chars_cons in H. apply andb_true_iff in H as [Hc Ha].
  simpl. rewrite IH by done. by destruct (Ascii.eqb c sep).
Qed.

Lemma split_on_concat (sep : ascii) (segs : list string) :
  segs <> [] -> Forall (fun x => all_chars (fun c => negb (Ascii.eqb c sep)) x = true) segs ->
  split_on sep (String.concat (String sep "") segs) = segs.
Proof.
  induction segs as [|x [|y rest] IH]; intros Hne Hf; [done| |].
  - inversion Hf. by apply split_on_none.
  - inversion Hf as [|? ? Hx Hr]; subst. change (String.concat (String sep "") (x :: y :: rest))
      with (x +ₛ String sep "" +ₛ String.concat (String sep "") (y :: rest)).
    rewrite string_app_cons, string_app_nil_l, split_on_sep by done. by rewrite IH.
Qed.

Lemma all_chars_concat (p : ascii -> bool) (sep : string) (segs : list string) :
  all_chars p sep = true -> Forall (fun x => all_chars p x = true) segs ->
  all_chars p (String.concat sep segs) = true.
Proof.
  intros Hs. induction 1 as [|x [|y rest] Hx Hr IH]; [done|done|].
  change (String.concat sep (x :: y :: rest)) with (x +ₛ sep +ₛ String.concat sep (y :: rest)).
  by rewrite !all_chars_app, Hx, Hs, IH.
Qed.

(** An implication between character classes, checked on all 256 octets. *)
Definition char_impl (p q : ascii -> bool) : bool :=
  forallb (fun n => implb (p (ascii_of_nat n)) (q (ascii_of_nat n))) (seq 0 256).

Lemma char_impl_sound (p q : ascii -> bool) (c : ascii) :
  char_impl p q = true -> p c = true -> q c = true.
Proof.
  intros Hall Hc. unfold char_impl in Hall. rewrite forallb_forall in Hall.
  specialize (Hall (nat_of_ascii c)). rewrite ascii_nat_embedding, Hc in Hall.
  apply Hall, in_seq. pose proof (nat_ascii_bounded c). lia.
Qed.

Lemma all_chars_impl (p q : ascii -> bool) (s : string) :
  char_impl p q = true -> all_chars p s = true -> all_chars q s = true.
Proof.
  intros Hi. induction s as [|c s IH]; [done|]. rewrite !all_chars_cons.
  intros [Hc Hs]%andb_true_iff. by rewrite (char_impl_sound p q c), IH.
Qed.

Lemma parse_sanity (P q : string) :
  all_chars (fun c => seg_char c || Ascii.eqb c "/") P = true ->
  plain_path ("/images/" +ₛ P) = true -> all_chars query_char q = true ->
  parse_url ("https://cdn.sanity.io/images/" +ₛ P +ₛ "?" +ₛ q) =
  Some (mk_url "https:" "cdn.sanity.io" "" ("/images/" +ₛ P) (if String.eqb q "" then "" else "?" +ₛ q)).
Proof.
  intros HP Hpath Hq.
  assert (E1 : take_until (one_of "?#") (P +ₛ String "?" q) = (P, String "?" q)).
  { rewrite take_until_skip; [simpl; by rewrite string_app_nil_r|].
    eapply all_chars_impl; [|exact HP]. by vm_compute. }
  assert (E2 : take_until (Ascii.eqb "#") q = (q, "")).
  { apply take_until_all. eapply all_chars_impl; [|exact Hq]. by vm_compute. }
  rewrite !string_app_cons, !string_app_nil_l. rewrite !string_app_cons, string_app_nil_l in Hpath.
  unfold parse_url. cbn. rewrite E1. cbn. rewrite E2. cbn.
  rewrite Hpath. unfold all_chars in Hq. rewrite Hq. reflexivity.
Qed.

End Url.

(** ** Globs *)

Module Glob.

(** [k] holds of some suffix of [s]. *)
Fixpoint some_suffix (k : string -> bool) (s : string) : bool :=
  k s || match s with String _ s' => some_suffix k s' | EmptyString => false end.

(** [k] holds of some suffix of [s] whose dropped prefix has no [sep]. *)
Fixpoint some_suffix_within (sep : ascii) (k : string -> bool) (s : string) : bool :=
  k s || match s with
         | String c s' => negb (Ascii.eqb c sep) && some_suffix_within sep k s'
         | EmptyString => false
         end.

Fixpoint glob_match (sep : ascii) (p s : string) : bool :=
  match p with
  | EmptyString => String.eqb s EmptyString
  | String c p' =>
      if Ascii.eqb c "*" then
        match p' with
        | String c2 p'' =>
            if Ascii.eqb c2 "*" then some_suffix (glob_match sep p'') s
            else some_suffix_within sep (glob_match sep p') s
        | EmptyString => some_suffix_within sep (glob_match sep p') s
        end
      else
        match s with
        | String c' s' => Ascii.eqb c c' && glob_match sep p' s'
        | EmptyString => false
        end
  end.

(** ** Lemmas *)

Lemma some_suffix_end (k : string -> bool) (s : string) : k "" = true -> some_suffix k s = true.
Proof. intros H. induction s as [|c s IH]; simpl; [by rewrite H|]. by rewrite IH, orb_true_r. Qed.

End Glob.

(** ** [next.config.js] *)

Module NextConfig.
Import Url Glob.

(** An entry of [images.remotePatterns]; [None] is an absent key. *)
Record remote_pattern := mk_pattern {
  rp_protocol : option string;
  rp_hostname : string;
  rp_port : option string;
  rp_pathname : option string;
  rp_search : option string
}.

Record images_config := mk_images {
  remotePatterns : list remote_pattern;
  formats : list string;
  minimumCacheTTL : Z
}.

Record next_config := mk_next_config {
  images : images_config;
  poweredByHeader : bool
}.

(** [nextConfig] (lines 2-16). *)
Definition nextConfig : next_config :=
  mk_next_config
    (mk_images [mk_pattern (Some "https") "cdn.sanity.io" None (Some "/images/**") None]
       ["image/avif"; "image/webp"] 60)
    false.

(** [matchRemotePattern(pattern, url)] of Next.js. *)
Definition matchRemotePattern (pat : remote_pattern) (u : url) : bool :=
  match rp_protocol pat with
  | Some pr => String.eqb (pr +ₛ ":") (protocol u)
  | None => true
  end &&
  match rp_port pat with Some po => String.eqb po (port u) | None => true end &&
  glob_match "." (rp_hostname pat) (hostname u) &&
  match rp_search pat with Some se => String.eqb se (search u) | None => true end &&
  glob_match "/" (default "**" (rp_pathname pat)) (pathname u).

Definition hasRemoteMatch (cfg : next_config) (u : url) : bool :=
  existsb (fun pat => matchRemotePattern pat u) (remotePatterns (images cfg)).

(** [next/image] loads a [src] that is a local path, or a URL some
    remote pattern matches. *)
Definition image_loads (cfg : next_config) (src : jsval) : bool :=
  match src with
  | JVal (JStr (String "/" _)) => true
  | JVal (JStr s) => match parse_url s with Some u => hasRemoteMatch cfg u | None => false end
  | _ => false
  end.

(** A path segment of an image URL: unreserved characters, not a dot
    segment. *)
Definition segment (x : string) : bool :=
  negb (String.eqb x "") && negb (String.eqb x ".") && negb (String.eqb x "..") && all_chars seg_char x.

(** The URLs [@sanity/image-url] builds: the CDN's image path of the
    project, dataset and file, and the transformation parameters. *)
Definition sanity_image_url (u : string) : Prop :=
  exists segs q, u = "https://cdn.sanity.io/images/" +ₛ String.concat "/" segs +ₛ "?" +ₛ q /\
    segs <> [] /\ forallb segment segs = true /\ all_chars query_char q = true.

(** ** Lemmas *)

Lemma plain_path_images (segs : list string) :
  segs <> [] -> forallb segment segs = true ->
  plain_path ("/images/" +ₛ String.concat "/" segs) = true.
Proof.
  intros Hne Hs. rewrite forallb_forall in Hs.
  assert (Hseg : forall x, In x segs -> all_chars seg_char x = true /\ x <> "." /\ x <> "..").
  { intros x Hx. apply Hs in Hx. unfold segment in Hx.
    repeat rewrite andb_true_iff in Hx. destruct Hx as [[[_ H1] H2] H3].
    apply negb_true_iff, String.eqb_neq in H1, H2. auto. }
  unfold plain_path. apply andb_true_iff. split.
  - change ("/images/" +ₛ String.concat "/" segs) with ("/images/" +ₛ String.concat "/" segs).
    rewrite all_chars_app. apply andb_true_iff. split; [done|].
    apply all_chars_concat; [done|]. apply List.Forall_forall. intros x Hx.
    eapply all_chars_impl; [|apply (Hseg x Hx)]. by vm_compute.
  - change ("/images/" +ₛ String.concat "/" segs)
      with ("" +ₛ String "/" ("images" +ₛ String "/" (String.concat (String "/" "") segs))).
    assert (Hns : Forall (fun x => all_chars (fun c => negb (Ascii.eqb c "/")) x = true) segs).
    { apply List.Forall_forall. intros x Hx. eapply all_chars_impl; [|apply (Hseg x Hx)].
      by vm_compute. }
    rewrite split_on_sep by done. rewrite split_on_sep by done. rewrite split_on_concat by done.
    simpl. apply forallb_forall. intros x Hx. apply Hseg in Hx as (_ & H1 & H2).
    apply andb_true_iff. split; apply negb_true_iff, String.eqb_neq; done.
Qed.

Lemma image_loads_url (cfg : next_config) (c : ascii) (s : string) :
  Ascii.eqb c "/" = false ->
  image_loads cfg (jstr (String c s)) =
  match parse_url (String c s) with Some u => hasRemoteMatch cfg u | None => false end.
Proof.
  intros Hc. destruct (Ascii.eqb_spec c "/") as [->|Hn]; [done|]. unfold image_loads, jstr.
  destruct c as [[] [] [] [] [] [] [] []]; done.
Qed.

Lemma image_loads_sanity (u : string) : sanity_image_url u -> image_loads nextConfig (jstr u) = true.
Proof.
  intros (segs & q & -> & Hne & Hs & Hq).
  pose proof (plain_path_images segs Hne Hs) as Hp.
  rewrite string_app_cons, image_loads_url, <-string_app_cons by done.
  rewrite parse_sanity; [| |done|done].
  - unfold hasRemoteMatch, matchRemotePattern. simpl.
    by rewrite string_app_nil_l, some_suffix_end.
  - unfold plain_path in Hp. apply andb_true_iff in Hp as [Hp _].
    rewrite all_chars_app in Hp. by apply andb_true_iff in Hp as [_ Hp].
Qed.
End NextConfig.

(** ** [client.ts] *)

Module SanityClient.

(** [process.env]: a variable is a string or [undefined]. *)
Definition env := gmap string string.

Definition env_get (e : env) (k : string) : jsval :=
  match e !! k with Some v => jstr v | None => JUndefined end.

Record client_options := mk_options {
  opt_projectId : jsval;
  opt_dataset : jsval;
  opt_apiVersion : jsval;
  useCdn : bool;
  perspective : string;
  stega : bool
}.

(** [createClient({...})] (lines 4-11): the options [client.config()]
    returns. *)
Definition client (e : env) : client_options :=
  mk_options (env_get e "NEXT_PUBLIC_SANITY_PROJECT_ID") (env_get e "NEXT_PUBLIC_SANITY_DATASET")
    (env_get e "NEXT_PUBLIC_SANITY_API_VERSION")
    (strict_eq (env_get e "NODE_ENV") (jstr "production")) "published" false.

End SanityClient.
