(* ===== verification/BlogList.v ===== *)
(** * The listing page ([src/app/blog/page.tsx], [BlogPage])

    [BlogPage_request] is the route: [getPosts()] through the data cache
    of [FetchCache], the reading of its answer ([posts.length], then
    [posts.map]), and [BlogPage], which renders one card per post: a link
    to [`/blog/${encodeURIComponent(post.slug.current)}`], a thumbnail
    whose URL is built in a [try] block (a failure leaves it [null] and
    shows a placeholder), the formatted date or ["No date"], the title
    and the excerpt when present; the first six thumbnails are loaded
    with priority ([posts.indexOf(post) < 6]).

    The image URL builder of [@sanity/image-url] and the [Intl] date
    formatting are library code, reached through the classes
    [ImageUrlBuilder] and [DateFormatter]. [posts.indexOf(post)] compares
    object references: the posts are the objects [JSON.parse] allocated,
    each at its own location. *)

From S2P Require Import Prelude JsValue PortableText FetchCache UriCodec.

(** [urlFor(source).width(w).height(h).url()]: a URL, or an exception
    when the builder cannot read the source. *)
Class ImageUrlBuilder := {
  image_url : json -> Z -> Z -> result js_error string
}.

(** [new Date(v).toLocaleDateString('en-US', { year: 'numeric',
    month: 'long', day: 'numeric' })]. *)
Class DateFormatter := {
  toLocaleDateString_long : jsval -> string
}.

(** What rendering a page route can throw: a JavaScript exception, the
    fetch's retrieval error, or the signal [notFound()] throws. *)
Inductive page_exn :=
| JsExn (e : js_error)
| FetchExn (e : FetchCache.fetch_error)
| NEXT_NOT_FOUND.

Module BlogList.
Import UriCodec FetchCache.

(** A location of the heap; the posts array holds references. *)
Definition loc := N.

(** [JSON.parse] of the query result allocates one object per post. *)
Definition alloc_posts (ds : list json) : list (loc * json) :=
  zip (map N.of_nat (seq 0 (List.length ds))) ds.

(** [posts.indexOf(post)]: the first position holding the same
    reference, [-1] when there is none. *)
Fixpoint indexOf (ps : list (loc * json)) (r : loc) : Z :=
  match ps with
  | [] => -1
  | (r', _) :: ps' => if N.eqb r r' then 0 else
                       let i := indexOf ps' r in if Z.ltb i 0 then -1 else i + 1
  end%Z.

(** ** The declared type of the posts

    [interface Post extends SanityDocument] (lines 30-41), read as a
    check on a JSON value: its own members with their declared types; an
    optional member ([?]) may be absent. The members of [SanityDocument]
    are not checked: the page reads none of them but [_id]. *)
Definition is_str (v : jsval) : bool := match v with JVal (JStr _) => true | _ => false end.

Definition is_obj_with (v : jsval) (p : json -> bool) : bool :=
  match v with JVal (JObj fs) => p (JObj fs) | _ => false end.

Definition optional (p : jsval -> bool) (v : jsval) : bool :=
  match v with JUndefined => true | _ => p v end.

Definition Post_members (d : json) : bool :=
  is_obj_with (JVal d) (fun d =>
    is_str (get_prop d "title") &&
    is_obj_with (get_prop d "slug") (fun sl => is_str (get_prop sl "current")) &&
    is_str (get_prop d "publishedAt") &&
    optional (fun v => is_obj_with v (fun m =>
                is_str (get_prop m "_type") &&
                is_obj_with (get_prop m "asset") (fun a => is_str (get_prop a "_ref"))))
      (get_prop d "mainImage") &&
    optional is_str (get_prop d "excerpt")).

Section Page.
Context `{ImageUrlBuilder} `{DateFormatter}.

(** Lines 58-64: [imageUrl] is [null] without a main image and when the
    builder throws (the [catch] only logs). *)
Definition card_imageUrl (post : json) : jsval :=
  let mainImage := get_prop post "mainImage" in
  if truthy mainImage then
    match mainImage with
    | JVal img => match image_url img 800 450 with
                  | Ok u => jstr u
                  | Throw _ => JVal JNull
                  end
    | JUndefined => JVal JNull
    end
  else JVal JNull.

(** Lines 67-73. *)
Definition card_publishedDate (post : json) : string :=
  if truthy (get_prop post "publishedAt")
  then toLocaleDateString_long (get_prop post "publishedAt")
  else "No date".

(** Line 89: [priority={posts.indexOf(post) < 6}]. *)
Definition card_priority (posts : list (loc * json)) (r : loc) : bool :=
  Z.ltb (indexOf posts r) 6.

(** Lines 81-96: the thumbnail or the placeholder. *)
Definition card_media (posts : list (loc * json)) (r : loc) (post : json) (imageUrl : jsval)
  : vnode :=
  VElem "div" [cls "relative aspect-video"]
    [if truthy imageUrl then
       VElem "Image" [("src", PVal imageUrl);
                      ("alt", PVal (js_or (get_prop post "title") (jstr "Blog post thumbnail")));
                      ("fill", PVal (JVal (JBool true)));
                      cls "object-cover";
                      ("sizes", PVal (jstr "(max-width: 640px) 100vw, (max-width: 1024px) 50vw, 33vw"));
                      ("priority", PVal (JVal (JBool (card_priority posts r))))] []
     else
       VElem "div" [cls "bg-gray-200 w-full h-full flex items-center justify-center"]
         [VElem "span" [cls "text-gray-500"] [VVal (jstr "No image")]]].

(** Line 77: [post.slug.current], printed by the [ToString] that
    [encodeURIComponent] applies to its argument. *)
Definition card_slug (post : json) : result js_error string :=
  slug ← member (get_prop post "slug") "current";
  to_string slug.

(** The card of one post (lines 57-110): [post.slug.current] is read and
    printed for the link before anything is rendered. *)
Definition card (posts : list (loc * json)) (r : loc) (post : json) : result js_error vnode :=
  let imageUrl := card_imageUrl post in
  let publishedDate := card_publishedDate post in
  slug ← card_slug post;
  mret (VElem "Link"
          [("href", PVal (jstr ("/blog/" +ₛ encodeURIComponent slug)));
           ("key", PVal (get_prop post "_id"));
           cls ("rounded-lg overflow-hidden border border-gray-200 hover:shadow-lg " +ₛ
                "transition-shadow duration-300 flex flex-col h-full")]
          [card_media posts r post imageUrl;
           VElem "div" [cls "p-6 flex-grow flex flex-col"]
             [VElem "h2" [cls "text-xl font-bold mb-2 text-gray-800"] [VVal (get_prop post "title")];
              VElem "p" [cls "text-gray-600 mb-4 text-sm"] [VVal (jstr publishedDate)];
              js_and_node (get_prop post "excerpt")
                (VElem "p" [cls "text-gray-700 flex-grow"] [VVal (get_prop post "excerpt")]);
              VElem "div" [cls "mt-4"]
                [VElem "span" [cls "text-blue-600 hover:underline"] [VVal (jstr "Read more →")]]]]).

(** The page around the list (lines 46-52 and 113). *)
Definition blog_main (body : vnode) : vnode :=
  VElem "main" [cls "container mx-auto px-6 py-12 max-w-5xl"]
    [VElem "Link" [("href", PVal (jstr "/"));
                   cls "text-blue-600 hover:underline inline-flex items-center mb-4"]
       [VElem "span" [cls "mr-1"] [VVal (jstr "←")]; VVal (jstr " Back Home")];
     VElem "h1" [cls "text-4xl font-bold mb-10 text-center"] [VVal (jstr "Blog")];
     body].

Definition grid (cards : list vnode) : vnode :=
  VElem "div" [cls "grid gap-8 md:grid-cols-2 lg:grid-cols-3"] cards.

(** [BlogPage] (lines 43-115), given the posts [getPosts()] returned. *)
Definition BlogPage (posts : list (loc * json)) : result js_error vnode :=
  body ← (if Nat.eqb (List.length posts) 0 then
            mret (VElem "div" [cls "text-center text-gray-600"] [VVal (jstr "No posts found.")])
          else
            cards ← mapR (fun '(r, post) => card posts r post) posts;
            mret (grid cards));
  mret (blog_main body).

Variable store : Z -> key -> result fetch_error json.

(** The key of the listing's [client.fetch(query, {}, ...)]. *)
Definition posts_key : key := (QPosts, []).

(** [getPosts] (lines 16-22): one fetch through the data cache. React's
    [cache] memoises it within a request, and the listing page calls it
    once per request, so the memo never answers. *)
Definition getPosts (now : Z) : M cache fetch_error json := fetch store now posts_key.

(** How [BlogPage] reads the answer (lines 44 and 54-57): the cast
    [as Post[]] checks nothing; [posts.length === 0] comes first (reading
    [length] of [null] throws), then [posts.map], which only arrays have. *)
Definition posts_of (v : json) : result js_error (list (loc * json)) :=
  len ← member (JVal v) "length";
  if strict_eq len (jnum 0) then mret []
  else match v with JArr ds => mret (alloc_posts ds) | _ => Throw TypeError end.

(** The listing route: [BlogPage] (lines 43-44) with its fetch. *)
Definition BlogPage_request (now : Z) : M cache page_exn vnode :=
  posts <- m_map_err FetchExn (getPosts now) ;;
  ps <- m_map_err JsExn (m_lift (posts_of posts)) ;;
  m_map_err JsExn (m_lift (BlogPage ps)).
End Page.

(** ** Lemmas *)

Lemma indexOf_lookup (ps : list (loc * json)) i r p :
  NoDup (map fst ps) -> ps !! i = Some (r, p) -> indexOf ps r = Z.of_nat i.
Proof.
  revert i. induction ps as [|[r' p'] ps IH]; intros i Hnd Hi; [done|].
  simpl in Hnd. apply NoDup_cons in Hnd as [Hr' Hnd]. simpl.
  destruct i as [|i]; simpl in Hi.
  - injection Hi as -> ->. by rewrite N.eqb_refl.
  - assert (r <> r') as Hne.
    { intros ->. apply Hr'. apply list_elem_of_lookup. exists i.
      by rewrite list_lookup_fmap, Hi. }
    apply N.eqb_neq in Hne. rewrite Hne, (IH i) by done.
    destruct (Z.ltb_spec (Z.of_nat i) 0); lia.
Qed.

Lemma alloc_posts_lookup (ds : list json) i p :
  ds !! i = Some p -> alloc_posts ds !! i = Some (N.of_nat i, p).
Proof.
  intros Hi. unfold alloc_posts. rewrite lookup_zip_with, list_lookup_fmap, lookup_seq_lt.
  - by rewrite Hi.
  - by eapply lookup_lt_Some.
Qed.

Lemma alloc_posts_NoDup (ds : list json) : NoDup (map fst (alloc_posts ds)).
Proof.
  unfold alloc_posts. rewrite fst_zip by (rewrite length_map, length_seq; lia).
  apply NoDup_fmap_2; [intros ?? ?; lia | apply NoDup_seq].
Qed.

Lemma alloc_posts_elem (ds : list json) r p :
  (r, p) ∈ alloc_posts ds -> p ∈ ds.
Proof.
  unfold alloc_posts. intros Hin. apply list_elem_of_lookup in Hin as [i Hi].
  rewrite lookup_zip_with in Hi.
  destruct (map N.of_nat (seq 0 (List.length ds)) !! i); simpl in Hi; [|done].
  destruct (ds !! i) eqn:E; simpl in Hi; [|done].
  injection Hi as _ ->. by eapply list_elem_of_lookup_2.
Qed.

Lemma card_slug_error (p : json) e : card_slug p = Throw e -> e = TypeError.
Proof.
  unfold card_slug. destruct (get_prop p "slug") as [|[]]; simpl;
    try (intros [= <-]; done); apply to_string_error.
Qed.

Lemma card_slug_nullish (p : json) :
  nullish (get_prop p "slug") = true -> card_slug p = Throw TypeError.
Proof. unfold card_slug. by destruct (get_prop p "slug") as [|[]]. Qed.

(** A card throws exactly when its slug cannot be read or printed, and
    then with a [TypeError]. *)
Lemma card_cases `{ImageUrlBuilder} `{DateFormatter} ps r p :
  (card ps r p = Throw TypeError /\ forall s, card_slug p <> Ok s) \/
  (exists c s, card ps r p = Ok c /\ card_slug p = Ok s).
Proof.
  unfold card. destruct (card_slug p) as [s|e] eqn:E; simpl; [right; by eexists _, s|].
  left. rewrite (card_slug_error _ _ E). split; [done | congruence].
Qed.

Lemma alloc_posts_length (ds : list json) : List.length (alloc_posts ds) = List.length ds.
Proof. unfold alloc_posts. rewrite length_zip_with, length_map, length_seq. lia. Qed.

Lemma alloc_posts_elem_2 (ds : list json) p :
  p ∈ ds -> exists r, (r, p) ∈ alloc_posts ds.
Proof.
  intros Hp. apply list_elem_of_lookup in Hp as [i Hi]. exists (N.of_nat i).
  apply list_elem_of_lookup. exists i. by apply alloc_posts_lookup.
Qed.

(** A value of type [Post] has a slug that prints. *)
Lemma Post_members_card_slug (d : json) :
  Post_members d = true -> exists s, card_slug d = Ok s.
Proof.
  destruct d; try discriminate. unfold Post_members, is_obj_with at 1.
  intros [[[[_ Hs]%andb_true_iff _]%andb_true_iff _]%andb_true_iff _]%andb_true_iff.
  unfold card_slug. destruct (get_prop _ "slug") as [|[| | | | |fs]]; try discriminate.
  cbn [is_obj_with] in Hs. destruct (get_prop (JObj fs) "current") as [|[]] eqn:E; try discriminate.
  eexists. cbn [member mbind result_bind]. by rewrite E.
Qed.

(** When every post's slug prints, every card renders. *)
Lemma cards_ok `{ImageUrlBuilder} `{DateFormatter} (ds : list json) :
  (forall p, p ∈ ds -> exists s, card_slug p = Ok s) ->
  exists cards, mapR (fun '(r, post) => card (alloc_posts ds) r post) (alloc_posts ds) = Ok cards.
Proof.
  intros Hslug. apply mapR_ok. intros [r q] Hq. apply alloc_posts_elem in Hq.
  destruct (card_cases (alloc_posts ds) r q) as [[_ Hn]|(c & _ & Hc & _)]; [|eauto].
  destruct (Hslug q Hq) as [s Hs]. by apply Hn in Hs.
Qed.

(** ** Properties *)

Section Properties.
Context `{ImageUrlBuilder} `{DateFormatter}.

(** [await getPosts()] (line 44) is outside any [try]: when nothing
    fresh is cached and the store fails, the listing route throws the
    retrieval error. *)
Lemma BlogPage_request_store_fails (store : Z -> key -> result fetch_error json) (now : Z)
    (c : cache) (e : fetch_error) :
  entries c !! posts_key = None -> store now posts_key = Throw e ->
  BlogPage_request store now c = (Throw (FetchExn e), mk_cache (entries c) (S (store_calls c))).
Proof.
  unfold BlogPage_request, getPosts, fetch, fetch_store, m_bind, m_map_err. by intros -> ->.
Qed.

(** C17. Type soundness of the cast [as Post[]] (line 44): whenever the
    listing route's fetch answers an array of values of the declared type
    [Post], the route renders a page and does not throw. The cast itself
    checks nothing. *)
Theorem BlogPage_request_well_typed (store : Z -> key -> result fetch_error json) (now : Z)
    (c c' : cache) (ds : list json) :
  fetch store now posts_key c = (Ok (JArr ds), c') ->
  Forall (fun d => Post_members d = true) ds ->
  exists page, BlogPage_request store now c = (Ok page, c').
Proof.
  intros Hf Hty. destruct ds as [|d ds'].
  { unfold BlogPage_request, getPosts, m_bind, m_map_err, m_lift. rewrite Hf. by eexists. }
  assert (Hslug : forall p, p ∈ d :: ds' -> exists s, card_slug p = Ok s)
    by (intros p Hp; apply Post_members_card_slug; by apply (proj1 (Forall_forall _ _) Hty)).
  destruct (cards_ok _ Hslug) as [cards Hcards].
  assert (Hp : posts_of (JArr (d :: ds')) = Ok (alloc_posts (d :: ds'))) by reflexivity.
  assert (Hb : BlogPage (alloc_posts (d :: ds')) = Ok (blog_main (grid cards))).
  { unfold BlogPage. rewrite alloc_posts_length. cbn [List.length Nat.eqb]. by rewrite Hcards. }
  unfold BlogPage_request, getPosts, m_bind, m_map_err, m_lift. rewrite Hf. cbv beta iota.
  rewrite Hp. cbv beta iota. rewrite Hb. by eexists.
Qed.

(** C21. The thumbnails of the first six posts, and only those, load
    with priority: [posts.indexOf(post)] finds each post at its own
    position because every post is a distinct object. *)
Theorem card_priority_first_six (ds : list json) i p :
  ds !! i = Some p -> card_priority (alloc_posts ds) (N.of_nat i) = bool_decide (i < 6).
Proof.
  intros Hi. unfold card_priority.
  rewrite (indexOf_lookup _ i _ p) by auto using alloc_posts_NoDup, alloc_posts_lookup.
  destruct (Z.ltb_spec (Z.of_nat i) 6); case_bool_decide; lia.
Qed.

(** C22. One listed post without a [slug] makes the whole listing page
    throw a [TypeError] at [post.slug.current], instead of leaving that
    card out. *)
Theorem BlogPage_missing_slug (ds : list json) p :
  p ∈ ds -> nullish (get_prop p "slug") = true -> BlogPage (alloc_posts ds) = Throw TypeError.
Proof.
  intros Hp Hn. unfold BlogPage.
  destruct (Nat.eqb_spec (List.length (alloc_posts ds)) 0) as [Hl|_].
  { rewrite alloc_posts_length in Hl. destruct ds; [by apply not_elem_of_nil in Hp | done]. }
  rewrite (mapR_throw _ _ TypeError); [done| |].
  - intros [r q] _. destruct (card_cases (alloc_posts ds) r q) as [[? _]|(c & _ & ? & _)]; eauto.
  - destruct (alloc_posts_elem_2 ds p Hp) as [r Hr]. exists (r, p). split; [done|].
    destruct (card_cases (alloc_posts ds) r p) as [[? _]|(c & s & _ & Hs)]; [done|].
    by rewrite card_slug_nullish in Hs.
Qed.

(** C23. When every post has a slug whose [current] member prints (as a
    string does), the page is the grid of one card per post, in the order
    of the query result. *)
Theorem BlogPage_cards (ds : list json) :
  ds <> [] -> (forall p, p ∈ ds -> exists s, card_slug p = Ok s) ->
  exists cards, BlogPage (alloc_posts ds) = Ok (blog_main (grid cards)) /\
    List.length cards = List.length ds /\
    forall i p, ds !! i = Some p ->
      exists c, cards !! i = Some c /\ card (alloc_posts ds) (N.of_nat i) p = Ok c.
Proof.
  intros Hne Hslug. destruct (cards_ok ds Hslug) as [cards Hcards]. exists cards. split_and!.
  - unfold BlogPage. destruct (Nat.eqb_spec (List.length (alloc_posts ds)) 0) as [Hl|_].
    + rewrite alloc_posts_length in Hl. by destruct ds.
    + by rewrite Hcards.
  - rewrite (mapR_length _ _ _ Hcards). apply alloc_posts_length.
  - intros i p Hi. apply (mapR_lookup _ _ _ i (N.of_nat i, p) Hcards).
    by apply alloc_posts_lookup.
Qed.

(** C24. When the image URL builder throws for a post's main image, the
    card shows the "No image" placeholder instead of failing. *)
Theorem card_image_fallback (ps : list (loc * json)) r (post img : json) e :
  get_prop post "mainImage" = JVal img -> truthy (JVal img) = true ->
  image_url img 800 450 = Throw e ->
  card_media ps r post (card_imageUrl post) =
    VElem "div" [cls "relative aspect-video"]
      [VElem "div" [cls "bg-gray-200 w-full h-full flex items-center justify-center"]
         [VElem "span" [cls "text-gray-500"] [VVal (jstr "No image")]]].
Proof. intros Hm Ht He. unfold card_imageUrl. by rewrite Hm, Ht, He. Qed.
End Properties.

End BlogList.

(** ** The theorems at concrete listings

    The witnesses use an image URL builder that throws for a source
    without an [asset], and a date formatter that prints the date part. *)

Import BlogList.

#[local] Instance witness_image_url : ImageUrlBuilder := {|
  image_url img w h :=
    match get_prop img "asset" with
    | JVal (JObj _) => Ok ("https://cdn.sanity.io/images/p/d/img?w=" +ₛ string_of_Z w)
    | _ => Throw TypeError
    end
|}.

#[local] Instance witness_dates : DateFormatter := {|
  toLocaleDateString_long v := match to_string v with Ok s => s | Throw _ => "Invalid Date" end
|}.

Definition listed_post (slug : string) : json :=
  JObj [("_id", JStr slug); ("_type", JStr "post"); ("slug", JObj [("current", JStr slug)]);
        ("title", JStr slug)].

Lemma card_priority_first_six_witness :
  card_priority (alloc_posts (map listed_post ["a"; "b"; "c"; "d"; "e"; "f"; "g"])) (N.of_nat 6)
  = bool_decide (6 < 6).
Proof. apply (card_priority_first_six _ 6 (listed_post "g")). reflexivity. Defined.

Lemma BlogPage_missing_slug_witness :
  BlogPage (alloc_posts [listed_post "a"; JObj [("_type", JStr "post"); ("title", JStr "Draft")]])
  = Throw TypeError.
Proof.
  apply (BlogPage_missing_slug _ (JObj [("_type", JStr "post"); ("title", JStr "Draft")]));
    [right; left | reflexivity].
Defined.

Lemma BlogPage_cards_witness :
  exists cards, BlogPage (alloc_posts [listed_post "a"; listed_post "b"]) = Ok (blog_main (grid cards)) /\
    List.length cards = 2%nat /\
    forall i p, [listed_post "a"; listed_post "b"] !! i = Some p ->
      exists c, cards !! i = Some c /\
                card (alloc_posts [listed_post "a"; listed_post "b"]) (N.of_nat i) p = Ok c.
Proof.
  apply BlogPage_cards; [discriminate|].
  intros p Hp. repeat (apply elem_of_cons in Hp as [->|Hp]; [by eexists|]).
  by apply not_elem_of_nil in Hp.
Defined.

Lemma card_image_fallback_witness :
  let post := JObj [("title", JStr "t"); ("mainImage", JObj [("_type", JStr "image")])] in
  card_media [] 0%N post (card_imageUrl post) =
    VElem "div" [cls "relative aspect-video"]
      [VElem "div" [cls "bg-gray-200 w-full h-full flex items-center justify-center"]
         [VElem "span" [cls "text-gray-500"] [VVal (jstr "No image")]]].
Proof. apply (card_image_fallback _ _ _ (JObj [("_type", JStr "image")]) TypeError); reflexivity. Defined.

Import FetchCache.

(** Two posts that have the declared type [Post]. *)
Definition typed_post (slug : string) : json :=
  JObj [("_id", JStr slug); ("_type", JStr "post"); ("slug", JObj [("current", JStr slug)]);
        ("title", JStr slug); ("publishedAt", JStr "2025-01-01T00:00:00Z")].

Definition typed_store : Z -> key -> result fetch_error json :=
  groq_store (fun _ => [typed_post "a"; typed_post "b"]) (fun _ => "2025-06-01T00:00:00Z")
    (fun _ => true).

Definition typed_posts := Eval vm_compute in
  match fst (fetch typed_store 0 posts_key empty_cache) with Ok (JArr ds) => ds | _ => [] end.

Definition typed_cache := Eval vm_compute in snd (fetch typed_store 0 posts_key empty_cache).

Lemma BlogPage_request_well_typed_witness :
  exists page, BlogPage_request typed_store 0 empty_cache = (Ok page, typed_cache).
Proof.
  apply (BlogPage_request_well_typed typed_store 0 empty_cache typed_cache typed_posts);
    [vm_compute; reflexivity|].
  repeat (apply List.Forall_cons; [reflexivity|]). apply List.Forall_nil.
Defined.
