(* ===== verification/PostPage.v ===== *)
(** * The detail page ([src/app/blog/[slug]/page.tsx])

    One request for [/blog/<slug>] runs [generateMetadata] and then
    [PostPage]. Each decodes the route segment with
    [decodeURIComponent], asks [getPost] for the post and builds its
    output: the metadata (title, description, social image), or the page
    (back link, title, date, main image, and the body rendered by the
    Portable Text renderer with the site's component table). A missing
    post makes [generateMetadata] answer ["Post Not Found"] and [PostPage]
    call [notFound()], which throws Next.js' not-found signal.

    [getPost] is wrapped in React's [cache]: within one request a second
    call with the same slug returns the first call's promise, fulfilled
    or rejected, without fetching again. The request state is that memo
    and the data cache of [FetchCache]. The route parameter is modelled
    by its declared type, [{ slug: string }], whose [await] is the value
    itself. At build time [generateStaticParams] lists the raw slugs of
    [ALL_POSTS_QUERY] as params; its theorems compose it with the page. *)

From S2P Require Import Prelude JsValue PortableText Groq FetchCache UriCodec BlogList.
From Stdlib Require Import Ascii.

(** [new Date(undefined).toLocaleDateString(...)] is ["Invalid Date"]
    (ECMA-402: the time value is [NaN]). *)
Class DateFormatterLaws `{DateFormatter} := {
  toLocaleDateString_undefined : toLocaleDateString_long JUndefined = "Invalid Date"
}.

Module PostPage.
Import UriCodec FetchCache Renderer.

(** [interface PostPageProps] (lines 12-15): declared in the file and
    used by none of its functions. *)
Record PostPageProps := mk_PostPageProps {
  height : Z;
  width : Z
}.

(** [client.config()] (line 20): the values [urlFor] tests. *)
Record client_config := mk_config {
  projectId : jsval;
  dataset : jsval
}.

(** The state one request threads: [cache(getPost)]'s memo, by slug, and
    the data cache. *)
Record request := mk_request {
  memo : gmap string (result fetch_error json);
  data : cache
}.

(** The object [generateMetadata] returns; [openGraph_images] is [None]
    when the object has no [openGraph]. *)
Record metadata := mk_metadata {
  title : jsval;
  description : jsval;
  openGraph_images : option (list jsval)
}.

(** [{ title: 'Post Not Found' }] (line 48). *)
Definition metadata_not_found : metadata := mk_metadata (jstr "Post Not Found") JUndefined None.

(** How [<PortableText value={...}>] reads its value: an array of
    blocks; a [block] is a text block of its [style], [listItem],
    [children] spans (their [text] and [marks]) and [markDefs], anything
    else an embedded object dispatched on its [_type]. *)
Definition str_field (j : json) (k : string) : option string :=
  match get_prop j k with JVal (JStr s) => Some s | _ => None end.

Definition arr_field (j : json) (k : string) : list json :=
  match get_prop j k with JVal (JArr xs) => xs | _ => [] end.

Definition span_of (j : json) : span :=
  {| span_text := default "" (str_field j "text");
     span_marks := omap (fun m => match m with JStr s => Some s | _ => None end)
                     (arr_field j "marks") |}.

Definition ptnode_of (b : json) : ptnode :=
  let t := default "" (str_field b "_type") in
  if String.eqb t "block" then
    PTBlock (str_field b "style") (str_field b "listItem") (map span_of (arr_field b "children"))
      (arr_field b "markDefs")
  else PTObject t b.

Definition body_nodes (v : jsval) : list ptnode :=
  match v with
  | JVal (JArr bs) => map ptnode_of bs
  | JVal (JObj fs) => [ptnode_of (JObj fs)]
  | _ => []
  end.

Section Page.
Context `{ImageUrlBuilder} `{DateFormatter} `{PortableTextFallbacks}.
Variable store : Z -> key -> result fetch_error json.
Variable cfg : client_config.

(** The key of [client.fetch(POST_QUERY, { slug }, ...)]. *)
Definition post_key (slug : string) : key := (QPost, [("slug", slug)]).

(** [generateStaticParams] (lines 36-39), run once at build time: a
    plain [client.fetch(ALL_POSTS_QUERY)], outside the data cache, and
    [slugs.map((slug) => ({ slug }))], which throws a [TypeError] when the
    answer is not an array. The params are the raw slugs. *)
Definition generateStaticParams (now : Z) : result page_exn (list json) :=
  match store now (QAllPosts, []) with
  | Throw e => Throw (FetchExn e)
  | Ok (JArr slugs) => Ok (map (fun slug => JObj [("slug", slug)]) slugs)
  | Ok _ => Throw (JsExn TypeError)
  end.

(** [getPost] (lines 27-33) under React's [cache]. *)
Definition getPost (now : Z) (slug : string) : M request fetch_error json := fun rq =>
  match memo rq !! slug with
  | Some r => (r, rq)
  | None =>
      let '(r, d') := fetch store now (post_key slug) (data rq) in
      (r, mk_request (<[slug := r]> (memo rq)) d')
  end.

(** Lines 44-46 and 83-85: decode the segment, then fetch. *)
Definition load_post (now : Z) (slug : string) : M request page_exn json :=
  decodedSlug <- m_map_err JsExn (m_lift (decodeURIComponent slug)) ;;
  m_map_err FetchExn (getPost now decodedSlug).

(** [urlFor] (lines 21-24) builds nothing unless [projectId && dataset]. *)
Definition urlFor_configured : bool := truthy (projectId cfg) && truthy (dataset cfg).

(** Lines 51-57 and 92-98: [post.mainImage && urlFor] ([urlFor] is a
    function, always truthy), then [.width(w).height(h).url()], outside
    any [try]; [undefined] when there is no URL. *)
Definition post_image_url (post : json) (w h : Z) : result js_error jsval :=
  match get_prop post "mainImage" with
  | JVal img =>
      if truthy (JVal img) && urlFor_configured then u ← image_url img w h; mret (jstr u)
      else Ok JUndefined
  | JUndefined => Ok JUndefined
  end.

(** Line 61: [post.excerpt || `Read about ${post.title}`]. The template
    literal is evaluated only when the excerpt is falsy, and its
    [ToString] of the title can throw. *)
Definition metadata_description (post : json) : result js_error jsval :=
  let excerpt := get_prop post "excerpt" in
  if truthy excerpt then Ok excerpt
  else t ← to_string (get_prop post "title"); mret (jstr ("Read about " +ₛ t)).

(** [generateMetadata] (lines 42-66). *)
Definition generateMetadata (now : Z) (slug : string) : M request page_exn metadata :=
  post <- load_post now slug ;;
  if negb (truthy (JVal post)) then m_ret metadata_not_found
  else
    ogImageUrl <- m_map_err JsExn (m_lift (post_image_url post 1200 630)) ;;
    description <- m_map_err JsExn (m_lift (metadata_description post)) ;;
    m_ret (mk_metadata
             (get_prop post "title")
             description
             (Some (if truthy ogImageUrl then [ogImageUrl] else []))).

(** [PostContent] (lines 69-75): the body through [<PortableText>],
    whose output is a fragment. *)
Definition PostContent (post : jsval) : result js_error vnode :=
  let body := opt_member post "body" in
  inner ← (if truthy body then
             out ← render_document PortableTextComponents (body_nodes body);
             mret (VElem "Fragment" [] out)
           else mret (VVal body));
  mret (VElem "div" [cls "prose prose-lg max-w-none"] [inner]).

(** The markup of lines 100-135 around a found post. *)
Definition post_view (post : json) (postImageUrl : jsval) (content : vnode) : vnode :=
  let p := JVal post in
  VElem "main" [cls "container mx-auto min-h-screen max-w-3xl p-8 flex flex-col gap-4"]
    [VElem "Link" [("href", PVal (jstr "/blog"));
                   cls "text-blue-600 hover:underline inline-flex items-center mb-4"]
       [VElem "span" [cls "mr-1"] [VVal (jstr "←")]; VVal (jstr " Back to posts")];
     VElem "h1" [cls "text-4xl font-bold mb-6 text-gray-800"] [VVal (opt_member p "title")];
     VElem "div" [cls "mb-6 text-gray-600"]
       [VElem "p" [] [VVal (jstr "Published: ");
                      VVal (jstr (toLocaleDateString_long (opt_member p "publishedAt")))]];
     js_and_node postImageUrl
       (VElem "div" [cls "mb-8"]
          [VElem "Image" [("src", PVal postImageUrl);
                          ("alt", PVal (js_or (opt_member p "title") (jstr "Blog post image")));
                          cls "aspect-video rounded-xl shadow-md w-full";
                          ("width", PVal (jnum 1200)); ("height", PVal (jnum 675));
                          ("priority", PVal (JVal (JBool true))); ("quality", PVal (jnum 85))] []]);
     VElem "Suspense" [("fallback", PNode (VElem "div" [cls "animate-pulse h-screen bg-gray-100 rounded-lg"] []))]
       [content]].

(** [PostPage] (lines 77-137). *)
Definition PostPage (now : Z) (slug : string) : M request page_exn vnode :=
  post <- load_post now slug ;;
  (if negb (truthy (JVal post)) then m_throw NEXT_NOT_FOUND else m_ret tt) ;;;
  postImageUrl <- m_map_err JsExn (m_lift (post_image_url post 1200 675)) ;;
  content <- m_map_err JsExn (m_lift (PostContent (JVal post))) ;;
  m_ret (post_view post postImageUrl content).

(** The request invariant: every data cache entry, and every answer the
    memo holds, is the store's answer of the last 60 seconds. *)
Definition req_inv (now : Z) (rq : request) : Prop :=
  cache_inv store now (data rq) /\
  forall sl v, memo rq !! sl = Some (Ok v) ->
    exists t0, (now - revalidate < t0 <= now)%Z /\ store t0 (post_key sl) = Ok v.

End Page.

(** The route parameter type [{ slug: string }] (line 42), which the
    type argument [string[]] of [client.fetch<string[]>] (line 37)
    promises every param of [generateStaticParams]. *)
Definition slug_param (p : json) : bool :=
  match p with JObj [(k, JStr _)] => String.eqb k "slug" | _ => false end.

(** The state of a request before anything is memoised or cached. *)
Definition empty_request : request := mk_request ∅ empty_cache.

(** The date line of a rendered detail page. *)
Definition page_published (page : vnode) : option string :=
  match page with
  | VElem "main" _ (_ :: _ :: VElem "div" _ [VElem "p" _ [_; VVal (JVal (JStr s))]] :: _) => Some s
  | _ => None
  end.

(** The heading of a rendered detail page. *)
Definition page_heading (page : vnode) : option jsval :=
  match page with
  | VElem "main" _ (_ :: VElem "h1" _ [VVal v] :: _) => Some v
  | _ => None
  end.

(** ** Lemmas *)

Section Properties.
Context `{ImageUrlBuilder} `{DateFormatter} `{PortableTextFallbacks}.
Variable store : Z -> key -> result fetch_error json.
Variable cfg : client_config.

Lemma getPost_memo (now : Z) (slug : string) (rq rq' : request) (r : result fetch_error json) :
  getPost store now slug rq = (r, rq') -> memo rq' !! slug = Some r.
Proof.
  unfold getPost. destruct (memo rq !! slug) as [r0|] eqn:E; [by intros [= <- <-]|].
  destruct (fetch store now _ (data rq)) as [r0 d']. intros [= <- <-]. simpl.
  by rewrite lookup_insert_eq.
Qed.

(** Within one request, a second [load_post] of the same slug, at any
    later time, returns what the first returned and changes nothing. *)
Lemma load_post_repeat (t1 t2 : Z) (slug : string) (rq rq1 : request) (r : result page_exn json) :
  load_post store t1 slug rq = (r, rq1) -> load_post store t2 slug rq1 = (r, rq1).
Proof.
  unfold load_post, m_bind, m_map_err, m_lift.
  destruct (decodeURIComponent slug) as [d|e]; [|by intros [= <- <-]].
  destruct (getPost store t1 d rq) as [r0 rq0] eqn:E.
  apply getPost_memo in E. intros Hr. unfold getPost.
  assert (rq0 = rq1) as <- by (destruct r0; congruence). rewrite E.
  destruct r0; congruence.
Qed.

Lemma generateMetadata_cases (now : Z) (slug : string) (rq rq' : request) (md : metadata) :
  generateMetadata store cfg now slug rq = (Ok md, rq') ->
  exists post, load_post store now slug rq = (Ok post, rq') /\
    ((truthy (JVal post) = false /\ md = metadata_not_found) \/
     (truthy (JVal post) = true /\ title md = get_prop post "title")).
Proof.
  intros Hg. unfold generateMetadata, m_bind at 1 in Hg.
  destruct (load_post store now slug rq) as [[post|e] rq0]; [|done].
  exists post. destruct (truthy (JVal post)) eqn:T; simpl in Hg.
  - unfold m_bind, m_map_err, m_lift, m_ret in Hg.
    destruct (post_image_url cfg post 1200 630); simpl in Hg; [|discriminate].
    destruct (metadata_description post); simpl in Hg; [|discriminate].
    injection Hg as <- <-. split; [done|]. by right.
  - unfold m_ret in Hg. injection Hg as <- <-. split; [done|]. by left.
Qed.

Lemma PostPage_cases (now : Z) (slug : string) (rq rq' : request) (page : vnode) :
  PostPage store cfg now slug rq = (Ok page, rq') ->
  exists post, load_post store now slug rq = (Ok post, rq') /\ truthy (JVal post) = true /\
    page_heading page = Some (get_prop post "title").
Proof.
  intros Hp. unfold PostPage, m_bind at 1 in Hp.
  destruct (load_post store now slug rq) as [[post|e] rq0]; [|done].
  destruct (truthy (JVal post)) eqn:T; simpl in Hp; [|done].
  unfold m_bind, m_map_err, m_lift, m_ret, m_throw in Hp.
  destruct (post_image_url cfg post 1200 675); [|done].
  destruct (PostContent (JVal post)); [|done]. injection Hp as <- <-.
  exists post. split_and!; [done | done |]. by destruct post.
Qed.

(** ** The request invariant *)

Lemma req_inv_empty (now : Z) (c : cache) :
  cache_inv store now c -> req_inv store now (mk_request ∅ c).
Proof. split; [done|]. intros sl v. simpl. by rewrite lookup_empty. Qed.

Lemma getPost_inv (now : Z) (sl : string) (rq rq' : request) (r : result fetch_error json) :
  req_inv store now rq -> getPost store now sl rq = (r, rq') ->
  req_inv store now rq' /\
  (forall v, r = Ok v ->
     exists t0, (now - revalidate < t0 <= now)%Z /\ store t0 (post_key sl) = Ok v).
Proof.
  intros [Hc Hm]. unfold getPost. destruct (memo rq !! sl) as [r0|] eqn:E.
  - intros [= <- <-]. split; [by split|]. intros v ->. by apply Hm.
  - destruct (fetch store now (post_key sl) (data rq)) as [r0 d'] eqn:F. intros [= <- <-].
    assert (Hr : forall v, r0 = Ok v ->
              exists t0, (now - revalidate < t0 <= now)%Z /\ store t0 (post_key sl) = Ok v)
      by (intros v ->; eapply fetch_answer_recent; eauto).
    split; [split|done]; [by eapply fetch_inv|]. simpl. intros sl' v.
    destruct (decide (sl' = sl)) as [->|Hne].
    + rewrite lookup_insert_eq. intros [= ->]. by apply Hr.
    + rewrite lookup_insert_ne by congruence. apply Hm.
Qed.

Lemma load_post_inv (now : Z) (slug : string) (rq rq' : request) (r : result page_exn json) :
  req_inv store now rq -> load_post store now slug rq = (r, rq') ->
  req_inv store now rq' /\
  (forall v, r = Ok v -> exists d t0, decodeURIComponent slug = Ok d /\
     (now - revalidate < t0 <= now)%Z /\ store t0 (post_key d) = Ok v).
Proof.
  intros Hi. unfold load_post, m_bind, m_map_err, m_lift.
  destruct (decodeURIComponent slug) as [d|e]; [|intros [= <- <-]; by split].
  destruct (getPost store now d rq) as [r0 rq0] eqn:E.
  apply getPost_inv in E as [Hi' Hr]; [|done].
  intros Hrq. assert (rq0 = rq') as <- by (destruct r0; congruence). split; [done|].
  intros v ->. destruct r0 as [v0|]; [|discriminate]. injection Hrq as ->.
  destruct (Hr v eq_refl) as (t0 & Ht & Hs). eauto.
Qed.

(** [generateMetadata] and [PostPage] change the request only through
    [load_post]. *)
Lemma generateMetadata_state (now : Z) (slug : string) (rq rq' : request) (r : result page_exn metadata) :
  generateMetadata store cfg now slug rq = (r, rq') ->
  exists r0, load_post store now slug rq = (r0, rq').
Proof.
  unfold generateMetadata, m_bind at 1.
  destruct (load_post store now slug rq) as [[post|e] rq0]; [|intros [= _ <-]; eauto].
  destruct (truthy (JVal post)); simpl; unfold m_bind, m_map_err, m_lift, m_ret;
    [destruct (post_image_url cfg post 1200 630); [destruct (metadata_description post)|]|];
    intros [= _ <-]; eauto.
Qed.

Lemma PostPage_state (now : Z) (slug : string) (rq rq' : request) (r : result page_exn vnode) :
  PostPage store cfg now slug rq = (r, rq') ->
  exists r0, load_post store now slug rq = (r0, rq').
Proof.
  unfold PostPage, m_bind at 1.
  destruct (load_post store now slug rq) as [[post|e] rq0]; [|intros [= _ <-]; eauto].
  destruct (truthy (JVal post)); simpl; unfold m_bind, m_map_err, m_lift, m_ret, m_throw;
    [|intros [= _ <-]; eauto].
  destruct (post_image_url cfg post 1200 675); [|intros [= _ <-]; eauto].
  destruct (PostContent (JVal post)); intros [= _ <-]; eauto.
Qed.

(** ** Properties *)

(** C29. Within one request, [generateMetadata] and then [PostPage]
    read the same post through React's [cache], even when the data
    cache entry expires between them: the page's heading is the title
    of its metadata. *)
Theorem metadata_matches_page (t1 t2 : Z) (slug : string) (rq rq1 rq2 : request)
    (md : metadata) (page : vnode) :
  generateMetadata store cfg t1 slug rq = (Ok md, rq1) ->
  PostPage store cfg t2 slug rq1 = (Ok page, rq2) ->
  page_heading page = Some (title md).
Proof.
  intros (post & Hl & Hmd)%generateMetadata_cases (post' & Hl' & Ht & Hh)%PostPage_cases.
  rewrite (load_post_repeat _ _ _ _ _ _ Hl) in Hl'. injection Hl' as <- _.
  destruct Hmd as [[Hf _] | [_ ->]]; [congruence | done].
Qed.

(** C30. A request whose slug decodes to [d], with nothing memoised or
    cached for [d]: when the store answers [null] the page throws
    Next.js' not-found signal and the metadata is ["Post Not Found"];
    when the store fails, the page throws the retrieval error instead of
    answering "not found". *)
Theorem PostPage_missing_post (now : Z) (slug d : string) (rq : request) :
  decodeURIComponent slug = Ok d -> memo rq !! d = None ->
  entries (data rq) !! post_key d = None ->
  (store now (post_key d) = Ok JNull ->
   fst (PostPage store cfg now slug rq) = Throw NEXT_NOT_FOUND /\
   fst (generateMetadata store cfg now slug rq) = Ok metadata_not_found) /\
  (forall e, store now (post_key d) = Throw e ->
   fst (PostPage store cfg now slug rq) = Throw (FetchExn e)).
Proof.
  intros Hd Hm He.
  unfold PostPage, generateMetadata, load_post, getPost, fetch, fetch_store, m_bind, m_map_err, m_lift.
  rewrite Hd, Hm, He. split; [intros Hs | intros e Hs]; by rewrite Hs.
Qed.

(** The page once [load_post] has produced a truthy [post]. *)
Lemma PostPage_found (now : Z) (slug : string) (rq rq' : request) (post : json) :
  load_post store now slug rq = (Ok post, rq') -> truthy (JVal post) = true ->
  PostPage store cfg now slug rq =
  match post_image_url cfg post 1200 675 with
  | Throw e => (Throw (JsExn e), rq')
  | Ok img => match PostContent (JVal post) with
              | Throw e => (Throw (JsExn e), rq')
              | Ok content => (Ok (post_view post img content), rq')
              end
  end.
Proof.
  intros Hl T. unfold PostPage, m_bind at 1. rewrite Hl, T. simpl.
  unfold m_bind, m_map_err, m_lift, m_ret.
  destruct (post_image_url cfg post 1200 675); [|done]. by destruct (PostContent (JVal post)).
Qed.

(** C31. The detail page builds its main image URL outside any [try]:
    when the image URL builder throws for a post's main image, the whole
    page throws, where the listing page shows a placeholder. *)
Theorem PostPage_image_throws (now : Z) (slug : string) (rq rq' : request) (post img : json)
    (e : js_error) :
  load_post store now slug rq = (Ok post, rq') -> truthy (JVal post) = true ->
  urlFor_configured cfg = true -> get_prop post "mainImage" = JVal img ->
  truthy (JVal img) = true -> image_url img 1200 675 = Throw e ->
  fst (PostPage store cfg now slug rq) = Throw (JsExn e).
Proof.
  intros Hl T Hc Hm Ti He. rewrite (PostPage_found _ _ _ _ _ Hl T).
  unfold post_image_url. by rewrite Hm, Ti, Hc, He.
Qed.

(** C32. The detail page prints its date without a guard: a post
    without [publishedAt] is shown as ["Published: Invalid Date"], where
    the listing page prints ["No date"]. *)
Theorem PostPage_invalid_date `{!DateFormatterLaws} (now : Z) (slug : string)
    (rq rq' : request) (page : vnode) (post : json) :
  load_post store now slug rq = (Ok post, rq') -> get_prop post "publishedAt" = JUndefined ->
  PostPage store cfg now slug rq = (Ok page, rq') ->
  page_published page = Some "Invalid Date".
Proof.
  intros Hl Hd Hp. destruct (truthy (JVal post)) eqn:T.
  - rewrite (PostPage_found _ _ _ _ _ Hl T) in Hp.
    destruct (post_image_url cfg post 1200 675); [|done].
    destruct (PostContent (JVal post)); [|done]. injection Hp as <-.
    assert (post <> JNull) as Hn by (intros ->; discriminate T).
    unfold page_published, post_view.
    rewrite (opt_member_nonnullish _ _ Hn), Hd, toLocaleDateString_undefined. reflexivity.
  - unfold PostPage, m_bind at 1 in Hp. rewrite Hl, T in Hp. discriminate.
Qed.

(** C20. Type: the type argument [string[]] of [client.fetch] (line 37)
    is an assertion the query does not check. Every param the build
    produces has the route's type [{ slug: string }] exactly when every
    post's [slug.current] is a string, [null] or missing; a post whose
    [slug.current] is a number or an object yields a param of another
    type. *)
Theorem generateStaticParams_typed (ds : list json) (iso : Z -> string) (t : Z)
    (ps : list json) :
  generateStaticParams (groq_store (fun _ => ds) iso (fun _ => true)) t = Ok ps ->
  (Forall (fun p => slug_param p = true) ps <->
   Forall (fun d => Groq.is_post d = true ->
             Groq.slug_current d = JUndefined \/ Groq.slug_current d = JVal JNull \/
             exists s, Groq.slug_current d = jstr s) ds).
Proof.
  intros Hg. injection Hg as <-. rewrite List.Forall_map, !Forall_forall. split.
  - intros Hall d Hd Hp. destruct (Groq.slug_current d) as [|v] eqn:Hs; [by left|].
    destruct v as [| | |s| |]; [by right; left| | |by eauto| |]; exfalso;
      match goal with Hs : _ = JVal ?v |- _ => refine (Bool.diff_false_true (Hall v _)) end;
      apply Groq.ALL_POSTS_QUERY_elem; eauto 10.
  - intros Hall v (d & Hd & Hp & Hs & Hn)%Groq.ALL_POSTS_QUERY_elem.
    destruct (Hall d Hd Hp) as [Hu|[Hu|[s Hu]]]; rewrite Hs in Hu;
      [discriminate | by injection Hu as -> | injection Hu as ->; apply String.eqb_refl].
Qed.

(** A post of the dataset is an object, hence truthy. *)
Lemma is_post_truthy (d : json) : Groq.is_post d = true -> truthy (JVal d) = true.
Proof. destruct d; try done; vm_compute; congruence. Qed.

(** C19. The build and the route disagree on slugs. Every param
    [generateStaticParams] produces carries a raw slug of
    [ALL_POSTS_QUERY], and [PostPage] decodes it again. A slug without
    [%] renders its own post, so no statically generated page is a
    not-found page. A slug that ends in [%] makes the page throw a
    [URIError], so the build fails. *)
Theorem static_params_build (ds : list json) (iso : Z -> string) (t : Z) (ps : list json)
    (s : string) :
  let st := groq_store (fun _ => ds) iso (fun _ => true) in
  generateStaticParams st t = Ok ps -> JObj [("slug", JStr s)] ∈ ps ->
  (forallb (fun c => negb (Ascii.eqb c "%")) (list_ascii_of_string s) = true ->
   exists d, fst (load_post st t s empty_request) = Ok d /\ truthy (JVal d) = true /\
             Groq.slug_current d = jstr s) /\
  (forall p, s = p +ₛ "%" -> fst (PostPage st cfg t s empty_request) = Throw (JsExn URIError)).
Proof.
  intros st Hg Hin. injection Hg as <-.
  apply list_elem_of_In, in_map_iff in Hin as (v & [= ->] & Hv%list_elem_of_In).
  destruct (Groq.static_slugs_resolve ds s Hv) as (d & Hq & Hp & Hs). split.
  - intros Hnp. exists d. split_and!; [|by apply is_post_truthy|done].
    unfold load_post, getPost, fetch, fetch_store, m_bind, m_map_err, m_lift, decodeURIComponent.
    rewrite (decode_fuel_no_percent _ _ Hnp) by lia. simpl.
    rewrite !lookup_empty. unfold st, groq_store, post_key. simpl.
    by rewrite lookup_insert_eq, Hq.
  - intros p ->. unfold PostPage, load_post, m_bind, m_map_err, m_lift.
    unfold decodeURIComponent. by rewrite decode_fuel_trailing.
Qed.

End Properties.

End PostPage.

(** ** The theorems at a concrete site *)

Import PostPage FetchCache Renderer.

#[local] Instance site_images : ImageUrlBuilder := {|
  image_url img w h :=
    match get_prop img "asset" with
    | JVal _ => Ok ("https://cdn.sanity.io/images/p/production/a.jpg?w=" +ₛ string_of_Z w)
    | JUndefined => Throw TypeError
    end
|}.

#[local] Instance site_dates : DateFormatter := {|
  toLocaleDateString_long v := match v with JVal (JStr s) => s | _ => "Invalid Date" end
|}.

#[local] Instance site_dates_laws : DateFormatterLaws.
Proof. constructor. reflexivity. Qed.

#[local] Instance site_fallbacks : PortableTextFallbacks := {|
  unknownType _ _ := VElem "div" [] [];
  unknownBlockStyle _ ch := VElem "p" [] ch;
  unknownList _ ch := VElem "ul" [] ch;
  unknownListItem _ ch := VElem "li" [] ch;
  unknownMark _ ch := VElem "span" [] ch
|}.

Definition site_post (slug title : string) (extra : list (string * json)) : json :=
  JObj ([("_type", JStr "post"); ("slug", JObj [("current", JStr slug)]); ("title", JStr title)]
        ++ extra).

Definition site_dataset : list json :=
  [site_post "hello" "Hello" [("publishedAt", JStr "2025-01-01T00:00:00Z")];
   site_post "broken" "Broken" [("publishedAt", JStr "2025-02-01T00:00:00Z");
                                ("mainImage", JObj [("_type", JStr "image")])];
   site_post "undated" "Undated" []].

Definition site_store : Z -> key -> result fetch_error json :=
  groq_store (fun _ => site_dataset) (fun _ => "2025-06-01T00:00:00Z") (fun _ => true).

Definition site_config : client_config := mk_config (jstr "p") (jstr "production").

(** One request for [/blog/hello]: the metadata at time 100, then the
    page at time 200, after the data cache entry has expired. *)
Definition hello_meta := Eval vm_compute in generateMetadata site_store site_config 100 "hello" empty_request.
Definition hello_page := Eval vm_compute in PostPage site_store site_config 200 "hello" (snd hello_meta).

Definition result_or {E A} (d : A) (r : result E A) : A := match r with Ok a => a | Throw _ => d end.

Lemma metadata_matches_page_witness :
  page_heading (result_or (VVal JUndefined) (fst hello_page))
  = Some (title (result_or metadata_not_found (fst hello_meta))).
Proof.
  apply (metadata_matches_page site_store site_config 100 200 "hello" empty_request
           (snd hello_meta) (snd hello_page)); vm_compute; reflexivity.
Defined.

Lemma PostPage_missing_post_witness :
  fst (PostPage site_store site_config 100 "missing" empty_request) = Throw NEXT_NOT_FOUND /\
  fst (generateMetadata site_store site_config 100 "missing" empty_request) = Ok metadata_not_found.
Proof.
  apply (proj1 (PostPage_missing_post site_store site_config 100 "missing" "missing" empty_request
                  eq_refl eq_refl eq_refl)).
  vm_compute. reflexivity.
Defined.

Definition broken_load := Eval vm_compute in load_post site_store 100 "broken" empty_request.

Lemma PostPage_image_throws_witness :
  fst (PostPage site_store site_config 100 "broken" empty_request) = Throw (JsExn TypeError).
Proof.
  apply (PostPage_image_throws site_store site_config 100 "broken" empty_request (snd broken_load)
           (result_or JNull (fst broken_load)) (JObj [("_type", JStr "image")]));
    vm_compute; reflexivity.
Defined.

Definition undated_load := Eval vm_compute in load_post site_store 100 "undated" empty_request.
Definition undated_page := Eval vm_compute in PostPage site_store site_config 100 "undated" empty_request.

Lemma PostPage_invalid_date_witness :
  page_published (result_or (VVal JUndefined) (fst undated_page)) = Some "Invalid Date".
Proof.
  apply (PostPage_invalid_date site_store site_config 100 "undated" empty_request (snd undated_load)
           _ (result_or JNull (fst undated_load))); vm_compute; reflexivity.
Defined.

(** The build of a site one of whose slugs is ["100%"]. *)
Definition build_dataset : list json := site_dataset ++ [site_post "100%" "Full marks" []].

Definition build_store : Z -> key -> result fetch_error json :=
  groq_store (fun _ => build_dataset) (fun _ => "2025-06-01T00:00:00Z") (fun _ => true).

Definition build_params := Eval vm_compute in result_or [] (generateStaticParams build_store 0).

Lemma static_params_build_witness :
  (exists d, fst (load_post build_store 0 "hello" empty_request) = Ok d /\
             truthy (JVal d) = true /\ Groq.slug_current d = jstr "hello") /\
  fst (PostPage build_store site_config 0 "100%" empty_request) = Throw (JsExn URIError).
Proof.
  split.
  - refine (proj1 (static_params_build site_config build_dataset (fun _ => "2025-06-01T00:00:00Z")
                     0 build_params "hello" eq_refl _) eq_refl).
    apply list_elem_of_In. vm_compute. auto.
  - refine (proj2 (static_params_build site_config build_dataset (fun _ => "2025-06-01T00:00:00Z")
                     0 build_params "100%" eq_refl _) "100" eq_refl).
    apply list_elem_of_In. vm_compute. auto.
Defined.

Lemma generateStaticParams_typed_witness : Forall (fun p => slug_param p = true) build_params.
Proof.
  apply (proj2 (generateStaticParams_typed build_dataset (fun _ => "2025-06-01T00:00:00Z") 0
                  build_params eq_refl)).
  unfold build_dataset, site_dataset. simpl.
  repeat (apply List.Forall_cons; [intros _; right; right; eexists; reflexivity|]).
  apply List.Forall_nil.
Defined.
