(* ===== verification/Site.v ===== *)
(** * The site: layout, home page, routes, and what holds across pages

    [src/app/layout.tsx] wraps every page in [RootLayout] and gives the
    site's metadata, whose title is a template: Next.js resolves the
    title a page declares through the template of the layout above it
    (Next.js' [resolveTitle], modelled here from its source contract),
    which is [template.replace(/%s/g, title)], a JavaScript [replace]
    whose replacement string interprets [$$], [$&], [$`] and [$'].
    [src/app/page.tsx] is the home page, [src/app/blog/page.tsx] exports
    the listing's metadata. The App Router maps a path to the page of the
    matching directory of [src/app]: [/], [/blog], [/blog/[slug]] and the
    route handler [/api/revalidate]; a trailing slash is redirected away.

    The theorems compose the pages: the documents' titles; every image
    of the listing page is one [next.config.js] allows, given what
    [@sanity/image-url] promises of its URLs; a card's link routes to the
    detail page, whose decoded slug finds that post again. *)

From S2P Require Import Prelude JsValue PortableText Groq UriCodec SiteConfig BlogList PostPage.
From Stdlib Require Import Ascii.
From stdpp Require Import sorting.

(** What [@sanity/image-url] promises: the URLs it builds are images of
    the Sanity CDN. *)
Class ImageUrlBuilderLaws `{ImageUrlBuilder} := {
  image_url_sanity : forall img w h u, image_url img w h = Ok u -> NextConfig.sanity_image_url u
}.

(** ** Titles *)

Module Layout.

(** The options given to [next/font/google]'s [Geist] and [Geist_Mono]. *)
Record font_options := mk_font_options {
  variable : string;
  subsets : list string;
  display : string;
  preload : bool
}.

(** [geistSans] and [geistMono] (lines 5-17). *)
Definition geistSans : font_options := mk_font_options "--font-geist-sans" ["latin"] "swap" true.
Definition geistMono : font_options := mk_font_options "--font-geist-mono" ["latin"] "swap" true.

(** [Metadata['title']]: a string, or a template with its default. *)
Inductive meta_title :=
| TitleString (s : string)
| TitleTemplate (template default : string).

Record layout_metadata := mk_layout_metadata {
  title : meta_title;
  description : string;
  keywords : list string;
  authors : list string;
  creator : string;
  og_type : string;
  og_locale : string;
  og_url : string;
  og_siteName : string
}.

(** [metadata] (lines 19-34). *)
Definition metadata : layout_metadata :=
  mk_layout_metadata
    (TitleTemplate "%s | Heritier Akilimali" "Heritier Akilimali's Blog")
    "Personal blog by Heritier Akilimali featuring articles on web development, Next.js, and Sanity CMS"
    ["Next.js"; "Sanity"; "Web Development"; "Heritier Akilimali"; "Blog"]
    ["Heritier Akilimali"] "Heritier Akilimali"
    "website" "en_US" "https://heritierakilimali.com" "Heritier Akilimali's Blog".

(** GetSubstitution (ECMA-262) for a match of [matched] with no capture
    groups, [pre] and [post] the input before and after the match. *)
Fixpoint get_substitution (matched pre post repl : string) : string :=
  match repl with
  | EmptyString => EmptyString
  | String c r =>
      if Ascii.eqb c "$" then
        match r with
        | String d r' =>
            if Ascii.eqb d "$" then String "$" (get_substitution matched pre post r')
            else if Ascii.eqb d "&" then matched +ₛ get_substitution matched pre post r'
            else if Ascii.eqb d "`" then pre +ₛ get_substitution matched pre post r'
            else if Ascii.eqb d "'" then post +ₛ get_substitution matched pre post r'
            else String "$" (get_substitution matched pre post r)
        | EmptyString => String "$" EmptyString
        end
      else String c (get_substitution matched pre post r)
  end.

(** [s.replace(/%s/g, repl)], [seen] being the input already scanned. *)
Fixpoint replace_pct_s (seen s repl : string) : string :=
  match s with
  | EmptyString => EmptyString
  | String c r =>
      if Ascii.eqb c "%" then
        match r with
        | String d r' =>
            if Ascii.eqb d "s" then
              get_substitution "%s" seen r' repl +ₛ replace_pct_s (seen +ₛ "%s") r' repl
            else String c (replace_pct_s (seen +ₛ String c EmptyString) r repl)
        | EmptyString => String c EmptyString
        end
      else String c (replace_pct_s (seen +ₛ String c EmptyString) r repl)
  end.

(** [resolveTitleTemplate(template, title)] of Next.js. *)
Definition resolveTitleTemplate (template : option string) (t : string) : string :=
  match template with
  | Some tpl => replace_pct_s EmptyString tpl t
  | None => t
  end.

(** The title a segment declares, resolved with the template of the
    layout above it. *)
Definition resolve_title (parent : option string) (t : meta_title) : string :=
  match t with
  | TitleString s => resolveTitleTemplate parent s
  | TitleTemplate _ d => resolveTitleTemplate parent d
  end.

(** The template [RootLayout] passes to the pages below it. *)
Definition layout_template : option string :=
  match title metadata with TitleTemplate tpl _ => Some tpl | TitleString _ => None end.

(** The [<title>] of a page that declares [t], or none. *)
Definition document_title (t : option meta_title) : string :=
  match t with
  | Some t' => resolve_title layout_template t'
  | None => resolve_title None (title metadata)
  end.

Section Root.
(** The class names [next/font] generates for the two fonts
    ([geistSans.variable], [geistMono.variable]). *)
Variables geistSans_variable geistMono_variable : string.

(** [RootLayout] (lines 36-55). *)
Definition RootLayout (children : vnode) : vnode :=
  VElem "html" [("lang", PVal (jstr "en"))]
    [VElem "head" []
       [VElem "link" [("rel", PVal (jstr "preconnect")); ("href", PVal (jstr "https://cdn.sanity.io"));
                      ("crossOrigin", PVal (jstr "anonymous"))] [];
        VElem "link" [("rel", PVal (jstr "dns-prefetch")); ("href", PVal (jstr "https://cdn.sanity.io"))] []];
     VElem "body" [cls (geistSans_variable +ₛ " " +ₛ geistMono_variable +ₛ " antialiased");
                   ("suppressHydrationWarning", PVal (JVal (JBool true)))]
       [children]].
End Root.

End Layout.

(** The listing's [metadata] ([src/app/blog/page.tsx] lines 25-28). *)
Module BlogIndex.
Import Layout.

Record page_metadata := mk_page_metadata {
  page_title : meta_title;
  page_description : string
}.

Definition metadata : page_metadata :=
  mk_page_metadata (TitleString "Blog | Heritier Akilimali")
    "Explore the latest articles and insights from Heritier Akilimali on AI, coding, and technology.".

End BlogIndex.

(** ** The home page ([src/app/page.tsx]) *)

Module Home.

Definition link_cls : string := "hover:underline text-blue-600 dark:text-blue-400".

Definition external_link (href label : string) : vnode :=
  VElem "a" [("href", PVal (jstr href)); ("target", PVal (jstr "_blank"));
             ("rel", PVal (jstr "noopener noreferrer")); cls link_cls] [VVal (jstr label)].

(** [Home] (lines 3-49); [year] is [new Date().getFullYear()]. *)
Definition Home (year : Z) : vnode :=
  VElem "div" [cls ("grid grid-rows-[auto_1fr_auto] items-center justify-items-center min-h-screen p-4 " +ₛ
                    "sm:p-1.2 font-[family-name:var(--font-geist-sans)] bg-white dark:bg-black text-black " +ₛ
                    "dark:text-white")]
    [VElem "header" [cls "text-center space-y-4"]
       [VElem "Image" [cls "centered-image rounded-full border-4 border-black/10 dark:border-white/20";
                       ("src", PVal (jstr "/your-avatar.jpg")); ("alt", PVal (jstr "Your Name"));
                       ("width", PVal (jnum 100)); ("height", PVal (jnum 100));
                       ("priority", PVal (JVal (JBool true)))] [];
        VElem "h1" [cls "text-3xl sm:text-1xl md:text-3xl font-bold"] [VVal (jstr "Heritier")];
        VElem "p" [cls "text-base sm:text-base md:text-xl max-w-2xl text-gray-600 dark:text-gray-400 mx-auto"]
          [VVal (jstr "A short intro about you. Web developer, writer, and lifelong learner.")]];
     VElem "main" [cls "mt-10 text-center max-w-3xl w-full px-2"]
       [VElem "section" [cls "space-y-6"]
          [VElem "h2" [cls "text-2xl sm:text-1xl font-semibold"] [VVal (jstr "About Me")];
           VElem "p" [cls "text-base sm:text-base md:text-xl text-gray-700 dark:text-gray-300"]
             [VVal (jstr ("Write about your journey, skills, and passions. Example: “I build fast, " +ₛ
                          "accessible web apps using Next.js, React, and Tailwind CSS. This blog " +ₛ
                          "shares my learnings, experiments, and thoughts.”"))]];
        VElem "section" [cls "mt-12 space-y-6"]
          [VElem "h2" [cls "text-2xl sm:text-1xl font-semibold"] [VVal (jstr "Contact & Links")];
           VElem "div" [cls "flex gap-6 justify-center flex-wrap text-base sm:text-lg"]
             [VElem "a" [("href", PVal (jstr "mailto:herri2293@gmail.com")); cls link_cls]
                [VVal (jstr "Email")];
              external_link "https://github.com/heriman22" "GitHub";
              external_link "https://www.linkedin.com/in/heri-b-61502423b/" "LinkedIn";
              external_link "https://huggingface.co/Heriman" "huggingface";
              VElem "Link" [("href", PVal (jstr "/blog")); cls link_cls] [VVal (jstr "Blog")]]]];
     VElem "footer" [cls "mt-16 text-center text-sm sm:text-base text-gray-500 dark:text-gray-400"]
       [VVal (jstr "© "); VVal (jnum year); VVal (jstr " Heritier. All rights reserved.")]].

End Home.

(** ** Routes *)

Module Routes.
Import Url.

(** The routes of [src/app]. *)
Inductive app_route :=
| RHome
| RBlog
| RPost (slug : string)
| RApiRevalidate.

(** The route an internal [href] reaches; the dynamic segment's value is
    the segment as it appears in the path. *)
Definition route_of (href : string) : option app_route :=
  match fst (take_until (one_of "?#") href) with
  | String "/" p =>
      let segs := split_on "/" p in
      let segs := if bool_decide (last segs = Some "") then removelast segs else segs in
      match segs with
      | [] => Some RHome
      | [s] => if String.eqb s "blog" then Some RBlog else None
      | [s; t] =>
          if String.eqb s "blog" then (if String.eqb t "" then None else Some (RPost t))
          else if String.eqb s "api" && String.eqb t "revalidate" then Some RApiRevalidate
          else None
      | _ => None
      end
  | _ => None
  end.

End Routes.

(** Every [src] of an [Image] element of a rendered tree. *)
Fixpoint image_srcs (v : vnode) : list jsval :=
  match v with
  | VVal _ => []
  | VElem tag props children =>
      (if String.eqb tag "Image" then
         match List.find (fun kp => String.eqb kp.1 "src") props with
         | Some (_, PVal s) => [s]
         | _ => []
         end
       else []) ++
      List.concat (map (fun kp => match kp.2 with PNode n => image_srcs n | _ => [] end) props) ++
      List.concat (map image_srcs children)
  end.

(** The [href] of a [Link] element. *)
Definition link_href (v : vnode) : option string :=
  match v with
  | VElem "Link" props _ =>
      match List.find (fun kp => String.eqb kp.1 "href") props with
      | Some (_, PVal (JVal (JStr h))) => Some h
      | _ => None
      end
  | _ => None
  end.

(** ** Lemmas *)

Import Url NextConfig Layout Routes UriCodec BlogList.

Lemma get_substitution_plain (m pre post t : string) :
  all_chars (fun c => negb (Ascii.eqb c "$")) t = true -> get_substitution m pre post t = t.
Proof.
  induction t as [|c t IH]; [done|]. rewrite all_chars_cons.
  intros [Hc Ht]%andb_true_iff. apply negb_true_iff in Hc. simpl. rewrite Hc. by rewrite IH.
Qed.

Section Images.
Context `{ImageUrlBuilderLaws} `{DateFormatter}.

Lemma card_image_srcs (posts : list (loc * json)) (r : loc) (post : json) (c : vnode) :
  card posts r post = Ok c ->
  image_srcs c = if truthy (card_imageUrl post) then [card_imageUrl post] else [].
Proof.
  unfold card. destruct (card_slug post); [|done]. simpl.
  intros [= <-]. unfold card_media, js_and_node.
  destruct (truthy (card_imageUrl post)), (truthy (get_prop post "excerpt")); reflexivity.
Qed.

End Images.

(** Every character of an encoded component is unreserved or [%]. *)
Lemma hex_digit_unreserved (n : N) : (n < 16)%N -> uri_unreserved (hex_digit n) = true.
Proof.
  intros Hn. apply (N_range_check (fun n => uri_unreserved (hex_digit n)) 0 16); [by vm_compute | lia].
Qed.

Lemma encode_chars (s : string) :
  all_chars (fun c => uri_unreserved c || Ascii.eqb c "%") (encodeURIComponent s) = true.
Proof.
  induction s as [|c s IH]; [done|]. simpl encodeURIComponent. rewrite all_chars_app, IH.
  destruct (uri_unreserved c) eqn:Hu; [by rewrite all_chars_cons, Hu|].
  pose proof (N_ascii_bounded c). unfold percent_escape. rewrite !all_chars_cons.
  rewrite !hex_digit_unreserved; [done | apply N.mod_lt; lia | apply N.Div0.div_lt_upper_bound; lia].
Qed.

Lemma encode_nonempty (s : string) : s <> "" -> encodeURIComponent s <> "".
Proof.
  intros Hs He. pose proof (encode_length s) as Hl. rewrite He in Hl. simpl in Hl.
  destruct s; [done | simpl in Hl; lia].
Qed.

(** The path of a card's link is the detail route of its encoded slug. *)
Lemma route_of_post (e : string) :
  all_chars (fun c => uri_unreserved c || Ascii.eqb c "%") e = true -> e <> "" ->
  route_of ("/blog/" +ₛ e) = Some (RPost e).
Proof.
  intros He Hne.
  assert (Hq : all_chars (fun c => negb (one_of "?#" c)) e = true)
    by (eapply all_chars_impl; [|exact He]; by vm_compute).
  assert (Hs : all_chars (fun c => negb (Ascii.eqb c "/")) e = true)
    by (eapply all_chars_impl; [|exact He]; by vm_compute).
  unfold route_of. rewrite take_until_all by (rewrite all_chars_app, Hq; done). simpl fst.
  rewrite string_app_cons.
  change ("blog/" +ₛ e) with ("blog" +ₛ String "/" e).
  cbn -[split_on]. rewrite split_on_sep, split_on_none by done. cbn.
  rewrite bool_decide_eq_false_2 by congruence. simpl.
  by rewrite (proj2 (String.eqb_neq e "") Hne).
Qed.

Lemma POSTS_QUERY_post (now : string) (ds : list json) (d : json) :
  d ∈ Groq.POSTS_QUERY now ds -> d ∈ ds /\ Groq.is_post d = true.
Proof.
  unfold Groq.POSTS_QUERY, Groq.order_publishedAt_desc.
  rewrite (merge_sort_Permutation _ _), list_elem_of_filter, Groq.published_post_iff. tauto.
Qed.

(** A post with slug [s] is found again by [POST_QUERY]. *)
Lemma POST_QUERY_finds (ds : list json) (d : json) (s : string) :
  d ∈ ds -> Groq.is_post d = true -> Groq.slug_current d = jstr s ->
  exists d', Groq.POST_QUERY s ds = Some d' /\ Groq.slug_current d' = jstr s.
Proof.
  intros Hd Hp Hs.
  destruct (Groq.head_filter_Some (fun d => Groq.matches_slug s d = true) ds d) as (y & Hy & Hm);
    [done | unfold Groq.matches_slug; rewrite Hp, Hs; simpl; apply String.eqb_refl |].
  exists y. split; [done|]. unfold Groq.matches_slug in Hm.
  apply andb_true_iff in Hm as [_ Hm]. by apply strict_eq_str_true.
Qed.

(** ** Properties *)

(** C33. The documents' titles through the layout's template: the home
    page shows the default title; the listing page, which already
    declares ["Blog | Heritier Akilimali"], gets the suffix a second
    time; a post title [t] without [$] becomes [t | Heritier Akilimali]. *)
Theorem document_titles (t : string) :
  document_title None = "Heritier Akilimali's Blog" /\
  document_title (Some (BlogIndex.page_title BlogIndex.metadata))
    = "Blog | Heritier Akilimali | Heritier Akilimali" /\
  (all_chars (fun c => negb (Ascii.eqb c "$")) t = true ->
   document_title (Some (TitleString t)) = t +ₛ " | Heritier Akilimali").
Proof.
  split_and!; [reflexivity | reflexivity |]. intros Ht.
  unfold document_title, resolve_title, resolveTitleTemplate, layout_template. simpl.
  by rewrite get_substitution_plain.
Qed.

Section WithLibraries.
Context `{ImageUrlBuilderLaws} `{DateFormatter}.

(** C34. Every image of the listing page is one [next.config.js]
    allows: the thumbnails are built by [@sanity/image-url] and match the
    remote pattern [https://cdn.sanity.io/images/**]. *)
Theorem BlogPage_images_load (posts : list (loc * json)) (page : vnode) :
  BlogPage posts = Ok page -> Forall (fun src => image_loads nextConfig src = true) (image_srcs page).
Proof.
  unfold BlogPage. destruct (Nat.eqb (List.length posts) 0).
  { simpl. intros [= <-]. simpl. constructor. }
  destruct (mapR _ posts) as [cards|] eqn:Em; [|done]. simpl. intros [= <-].
  apply List.Forall_forall. intros src Hin. simpl in Hin.
  rewrite !app_nil_r, in_concat in Hin. destruct Hin as (l & Hl & Hsrc).
  apply in_map_iff in Hl as (c & <- & Hc). apply list_elem_of_In in Hc.
  destruct (mapR_elem _ _ _ _ Em Hc) as ([r post] & _ & Hcard).
  rewrite (card_image_srcs _ _ _ _ Hcard) in Hsrc.
  destruct (truthy (card_imageUrl post)) eqn:T; [|done].
  destruct Hsrc as [<-|[]]. revert T. unfold card_imageUrl.
  destruct (truthy (get_prop post "mainImage")); [|done].
  destruct (get_prop post "mainImage") as [|img]; [done|].
  destruct (image_url img 800 450) as [u|] eqn:E; [|done]. intros _.
  by apply image_loads_sanity, (image_url_sanity img 800 450).
Qed.

(** C35. A card's link opens its post: for a listed post whose slug [s]
    is a non-empty well-formed string, the card links to the detail
    route whose segment decodes to [s], and the detail page's query
    finds a post with that slug. *)
Theorem card_link_opens_post (now : string) (ds : list json) (posts : list (loc * json))
    (r : loc) (d : json) (s : string) (v : vnode) :
  d ∈ Groq.POSTS_QUERY now ds -> Groq.slug_current d = jstr s -> s <> "" ->
  utf8_valid s = true -> card posts r d = Ok v ->
  exists seg d', link_href v = Some ("/blog/" +ₛ seg) /\ route_of ("/blog/" +ₛ seg) = Some (RPost seg) /\
    decodeURIComponent seg = Ok s /\ Groq.POST_QUERY s ds = Some d' /\ Groq.slug_current d' = jstr s.
Proof.
  intros Hd Hs Hne Hv Hc. apply POSTS_QUERY_post in Hd as [Hd Hp].
  destruct (POST_QUERY_finds ds d s Hd Hp Hs) as (d' & Hq & Hs').
  exists (encodeURIComponent s), d'. split_and!; [| | | done | done].
  - unfold card, card_slug in Hc. unfold Groq.slug_current in Hs.
    rewrite member_of_truthy_opt_member, Hs in Hc by (rewrite Hs; by apply truthy_str).
    simpl in Hc. injection Hc as <-. reflexivity.
  - apply route_of_post; [apply encode_chars | by apply encode_nonempty].
  - apply (decode_encode_fuel (S (String.length s))); [done | lia].
Qed.

End WithLibraries.

(** ** Facts at concrete inputs *)

(** A post title with [$&] gets the matched [%s] in its place. *)
Example title_dollar_substitution :
  document_title (Some (TitleString "Save $& today")) = "Save %s today | Heritier Akilimali".
Proof. reflexivity. Qed.

(** A post whose slug is the empty string links to [/blog/], which Next.js
    redirects to the listing itself. *)
Example empty_slug_link_routes_to_listing :
  route_of ("/blog/" +ₛ encodeURIComponent "") = Some RBlog.
Proof. reflexivity. Qed.

Lemma document_titles_witness :
  document_title (Some (TitleString "Hello")) = "Hello" +ₛ " | Heritier Akilimali".
Proof. apply (proj2 (proj2 (document_titles "Hello"))). reflexivity. Defined.

#[local] Instance cdn_images : ImageUrlBuilder := {|
  image_url img _ _ :=
    match get_prop img "asset" with
    | JVal (JObj _) => Ok "https://cdn.sanity.io/images/p1/production/abc-800x450.jpg?auto=format"
    | _ => Throw TypeError
    end
|}.

#[local] Instance cdn_images_laws : ImageUrlBuilderLaws.
Proof.
  constructor. intros img w h u. simpl. destruct (get_prop img "asset") as [|[]]; try discriminate.
  intros [= <-]. exists ["p1"; "production"; "abc-800x450.jpg"], "auto=format". by vm_compute.
Qed.

#[local] Instance plain_dates : DateFormatter := {|
  toLocaleDateString_long v := match v with JVal (JStr s) => s | _ => "Invalid Date" end
|}.

Definition pictured_post (slug : string) : json :=
  JObj [("_type", JStr "post"); ("_id", JStr slug); ("title", JStr slug);
        ("slug", JObj [("current", JStr slug)]); ("publishedAt", JStr "2025-01-01T00:00:00Z");
        ("mainImage", JObj [("asset", JObj [("_ref", JStr "image-abc")])])].

Definition listing_posts : list (loc * json) :=
  BlogList.alloc_posts [pictured_post "hello"; pictured_post "café"].

Definition listing_page : vnode :=
  Eval vm_compute in match BlogPage listing_posts with Ok p => p | Throw _ => VVal JUndefined end.

Lemma BlogPage_images_load_witness :
  Forall (fun src => image_loads nextConfig src = true) (image_srcs listing_page).
Proof. apply (BlogPage_images_load listing_posts). vm_compute. reflexivity. Defined.

Definition listing_card : vnode :=
  Eval vm_compute in
    match card listing_posts 1%N (pictured_post "café") with Ok c => c | Throw _ => VVal JUndefined end.

Lemma card_link_opens_post_witness :
  exists seg d', link_href listing_card = Some ("/blog/" +ₛ seg) /\
    route_of ("/blog/" +ₛ seg) = Some (RPost seg) /\ decodeURIComponent seg = Ok "café" /\
    Groq.POST_QUERY "café" [pictured_post "hello"; pictured_post "café"] = Some d' /\
    Groq.slug_current d' = jstr "café".
Proof.
  apply (card_link_opens_post "2025-06-01T00:00:00Z" [pictured_post "hello"; pictured_post "café"]
           listing_posts 1%N (pictured_post "café")); try (vm_compute; reflexivity).
  - vm_compute. right. left.
  - discriminate.
Defined.
