(* ===== verification/SiteRun.v ===== *)
(** * The site at run time: requests, the webhook and the two caches

    A deployed site answers a sequence of events over a clock that never
    goes back: page requests ([GET] of a path) and webhook calls ([POST]
    of [/api/revalidate]). Its state is Next.js' route cache (the
    rendered page of each path, which [revalidatePath] drops) and the
    data cache behind [client.fetch(..., { next: { revalidate: 60 } })].
    A request for a path whose page is cached is answered from the route
    cache; otherwise the App Router renders the route's page on the data
    cache (the home page, [BlogPage] with [getPosts], or the detail
    page: [generateMetadata] and then [PostPage] in one request sharing
    React's [cache]) and keeps the page. A render that throws is
    answered with its exception and not kept.

    The route cache is keyed by the route's path with the dynamic
    segment as requested (the trailing-slash form is redirected to it by
    Next.js); the serving discipline is the one of [RouteCache.serve]
    (specification, section 4.3), here threading the data cache. *)

From S2P Require Import Prelude JsValue RouteCache Revalidate PortableText Groq FetchCache.
From S2P Require Import UriCodec SiteConfig BlogList PostPage Site.

Module SiteRun.
Import FetchCache UriCodec BlogList PostPage Renderer Routes Home Webhook.

Section Run.
Context `{ImageUrlBuilder} `{DateFormatter} `{PortableTextFallbacks}.
Variable store : Z -> key -> result fetch_error json.
Variable cfg : client_config.
(** [process.env.SANITY_WEBHOOK_SECRET]. *)
Variable env : option string.
(** [new Date().getFullYear()] at a time. *)
Variable year_of : Z -> Z.

Record site := mk_site {
  route_cache : gmap string vnode;
  data_cache : cache
}.

Definition init_site : site := mk_site ∅ empty_cache.

Inductive event :=
| EGet (path : string)
| EWebhook (req : Webhook.request).

(** What the site answers: a page (or the exception its render threw),
    the webhook's response, or nothing for a [GET] of the webhook's
    route, which has no page. *)
Inductive answer :=
| APage (r : result page_exn vnode)
| AWebhook (r : result js_error response)
| ANoPage.

(** The path a route's page is kept under. *)
Definition route_path (r : app_route) : string :=
  match r with
  | RHome => "/"
  | RBlog => "/blog"
  | RPost seg => "/blog/" +ₛ seg
  | RApiRevalidate => "/api/revalidate"
  end.

(** One request of the detail route: a fresh React [cache] over the data
    cache. *)
Definition in_request {E A} (m : M PostPage.request E A) : M cache E A := fun c =>
  let '(r, rq) := m (mk_request ∅ c) in (r, data rq).

Definition post_route (now : Z) (seg : string) : M cache page_exn vnode :=
  in_request (_ <- generateMetadata store cfg now seg ;; PostPage store cfg now seg).

(** The page of a route, when the route has one. *)
Definition render (now : Z) (r : app_route) : option (M cache page_exn vnode) :=
  match r with
  | RHome => Some (m_ret (Home (year_of now)))
  | RBlog => Some (BlogPage_request store now)
  | RPost seg => Some (post_route now seg)
  | RApiRevalidate => None
  end.

(** Serving a page route: the kept page, or a render that is kept when
    it succeeds. *)
Definition serve_page (now : Z) (k : string) (m : M cache page_exn vnode) (s : site)
  : answer * site :=
  match route_cache s !! k with
  | Some pg => (APage (Ok pg), s)
  | None =>
      let '(res, c) := m (data_cache s) in
      (APage res, mk_site (match res with
                           | Ok pg => <[k := pg]> (route_cache s)
                           | Throw _ => route_cache s
                           end) c)
  end.

Definition step (now : Z) (ev : event) (s : site) : answer * site :=
  match ev with
  | EWebhook req =>
      let '(r, m) := POST env req (route_cache s) in (AWebhook r, mk_site m (data_cache s))
  | EGet p =>
      match route_of p with
      | None => (APage (Throw NEXT_NOT_FOUND), s)
      | Some r =>
          match render now r with
          | Some m => serve_page now (route_path r) m s
          | None => (ANoPage, s)
          end
      end
  end.

(** The runs of the site: events in the order of a clock that never goes
    back. *)
Inductive run : Z -> site -> Prop :=
| run_init t : run t init_site
| run_step t t' ev s a s' : run t s -> (t <= t')%Z -> step t' ev s = (a, s') -> run t' s'.

(** A detail page [pg] for the segment [seg] shows the store's post for
    the decoded segment as the store answered at [t0]. *)
Definition shows_post (seg : string) (pg : vnode) (t0 : Z) : Prop :=
  exists d v, decodeURIComponent seg = Ok d /\ store t0 (post_key d) = Ok v /\
              page_heading pg = Some (get_prop v "title").

(** A listing page [pg] is [BlogPage] over the store's answer to the
    listing query at [t0]. *)
Definition shows_listing (pg : vnode) (t0 : Z) : Prop :=
  exists v, store t0 posts_key = Ok v /\
    match posts_of v with Ok ps => BlogPage ps | Throw e => Throw e end = Ok pg.

(** What the page kept under the path [k] shows, as of [t]: a detail
    page its segment's post, the listing page the store's listing. *)
Definition kept_ok (t : Z) (k : string) (pg : vnode) : Prop :=
  (forall seg, k = "/blog/" +ₛ seg -> exists t0, (t0 <= t)%Z /\ shows_post seg pg t0) /\
  (k = "/blog" -> exists t0, (t0 <= t)%Z /\ shows_listing pg t0).

(** The site invariant: the data cache holds the store's answers, and
    every kept page shows what the store answered at some time up to
    [t]. *)
Definition site_inv (t : Z) (s : site) : Prop :=
  cache_inv store t (data_cache s) /\ map_Forall (kept_ok t) (route_cache s).

End Run.

(** ** Lemmas *)

Section Lemmas.
Context `{ImageUrlBuilder} `{DateFormatter} `{PortableTextFallbacks}.
Variable store : Z -> key -> result fetch_error json.
Variable cfg : client_config.
Variable env : option string.
Variable year_of : Z -> Z.

Lemma post_route_spec (now : Z) (seg : string) (c c' : cache) (r : result page_exn vnode) :
  cache_inv store now c -> post_route store cfg now seg c = (r, c') ->
  cache_inv store now c' /\
  (forall pg, r = Ok pg ->
     exists t0, (now - revalidate < t0 <= now)%Z /\ shows_post store seg pg t0).
Proof.
  intros Hc. unfold post_route, in_request, m_bind.
  pose proof (req_inv_empty store now c Hc) as Hi.
  destruct (generateMetadata store cfg now seg (mk_request ∅ c)) as [[md|e] rq1] eqn:G;
    destruct (generateMetadata_state _ _ _ _ _ _ _ G) as [r1 L1];
    destruct (load_post_inv _ _ _ _ _ _ Hi L1) as [Hi1 _];
    [|intros [= <- <-]; split; [apply Hi1 | discriminate]].
  destruct (PostPage store cfg now seg rq1) as [r2 rq2] eqn:P. intros [= <- <-].
  destruct (PostPage_state _ _ _ _ _ _ _ P) as [r3 L2].
  destruct (load_post_inv _ _ _ _ _ _ Hi1 L2) as [Hi2 _]. split; [apply Hi2|].
  intros pg ->. destruct (PostPage_cases _ _ _ _ _ _ _ P) as (post & Lp & _ & Hh).
  destruct (load_post_inv _ _ _ _ _ _ Hi1 Lp) as [_ Hv].
  destruct (Hv post eq_refl) as (d & t0 & Hd & Ht & Hs). exists t0. split; [done|].
  exists d, post. auto.
Qed.

Lemma BlogPage_request_spec (now : Z) (c c' : cache) (r : result page_exn vnode) :
  cache_inv store now c -> BlogPage_request store now c = (r, c') ->
  cache_inv store now c' /\
  (forall pg, r = Ok pg ->
     exists t0, (now - revalidate < t0 <= now)%Z /\ shows_listing store pg t0).
Proof.
  unfold BlogPage_request, getPosts, m_bind, m_map_err, m_lift. intros Hc.
  destruct (fetch store now posts_key c) as [[v|e] c1] eqn:F;
    pose proof (fetch_inv _ _ _ _ _ _ Hc F) as Hc1; [|intros [= <- <-]; by split].
  destruct (posts_of v) as [ps|e] eqn:Pv; [|intros [= <- <-]; by split].
  destruct (BlogPage ps) as [pg|e] eqn:B; intros [= <- <-]; split; try done.
  intros pg' [= <-]. destruct (fetch_answer_recent _ _ _ _ _ _ Hc F) as (t0 & Hw & Hs).
  exists t0. split; [done|]. exists v. by rewrite Pv.
Qed.

Lemma render_inv (now : Z) (rt : app_route) m (c c' : cache) (r : result page_exn vnode) :
  render store cfg year_of now rt = Some m -> cache_inv store now c -> m c = (r, c') ->
  cache_inv store now c'.
Proof.
  destruct rt; simpl; intros [= <-] Hc.
  - by intros [= _ <-].
  - intros Hb. by apply (BlogPage_request_spec _ _ _ _ Hc Hb).
  - intros Hp. by apply (post_route_spec _ _ _ _ _ Hc Hp).
Qed.

(** The webhook only drops kept pages. *)
Lemma POST_lookup_Some (req : Webhook.request) (m m' : gmap string vnode) r k pg :
  POST env req m = (r, m') -> m' !! k = Some pg -> m !! k = Some pg.
Proof.
  rewrite POST_spec. destruct (req_json req) as [j|]; [|by intros [= _ <-]].
  destruct (strict_eq _ _); [|by intros [= _ <-]].
  destruct (PathSelector.pathsToRevalidate (JVal j)); intros [= _ <-]; [apply revalidate_all_lookup_Some | done].
Qed.

Lemma kept_ok_mono (t t' : Z) (k : string) (pg : vnode) :
  kept_ok store t k pg -> (t <= t')%Z -> kept_ok store t' k pg.
Proof.
  intros [Hp Hl] Ht. split.
  - intros seg (t0 & ? & ?)%Hp. exists t0. split; [lia | done].
  - intros (t0 & ? & ?)%Hl. exists t0. split; [lia | done].
Qed.

Lemma site_inv_mono (t t' : Z) (s : site) :
  site_inv store t s -> (t <= t')%Z -> site_inv store t' s.
Proof.
  intros [Hc Hr] Ht. split; [by eapply cache_inv_mono|].
  eapply map_Forall_impl; [done|]. intros k pg Hk. by eapply kept_ok_mono.
Qed.

(** A page a route renders shows what its path promises. *)
Lemma render_kept (now : Z) (rt : app_route) m (c c' : cache) (pg : vnode) :
  render store cfg year_of now rt = Some m -> cache_inv store now c -> m c = (Ok pg, c') ->
  kept_ok store now (route_path rt) pg.
Proof.
  destruct rt as [| |seg'|]; simpl; intros [= <-] Hc Hm;
    split; intros seg; cbv [route_path String.append]; intros; simplify_eq.
  - destruct (BlogPage_request_spec _ _ _ _ Hc Hm) as [_ Hl].
    destruct (Hl pg eq_refl) as (t0 & ? & ?). exists t0. split; [lia | done].
  - destruct (post_route_spec _ _ _ _ _ Hc Hm) as [_ Hp].
    destruct (Hp pg eq_refl) as (t0 & ? & ?). exists t0. split; [lia | done].
Qed.

Lemma step_inv (t now : Z) (ev : event) (s s' : site) (a : answer) :
  site_inv store t s -> (t <= now)%Z -> step store cfg env year_of now ev s = (a, s') ->
  site_inv store now s'.
Proof.
  intros Hs Ht. apply (site_inv_mono _ now) in Hs as [Hc Hr]; [|done].
  destruct ev as [p|req]; simpl.
  - destruct (route_of p) as [rt|]; [|intros [= _ <-]; by split].
    destruct (render store cfg year_of now rt) as [m|] eqn:R; [|intros [= _ <-]; by split].
    unfold serve_page. destruct (route_cache s !! route_path rt) as [pg|] eqn:E;
      [intros [= _ <-]; by split|].
    destruct (m (data_cache s)) as [res c] eqn:Mc. intros [= _ <-].
    split; [by eapply render_inv|]. simpl.
    destruct res as [pg|e]; [|done]. apply map_Forall_insert_2; [|done].
    by eapply render_kept.
  - destruct (POST env req (route_cache s)) as [r m] eqn:P. intros Hst. injection Hst as _ <-.
    split; [done|]. intros k pg Hk. apply Hr. simpl in Hk. eauto using POST_lookup_Some.
Qed.

Lemma run_inv (t : Z) (s : site) : run store cfg env year_of t s -> site_inv store t s.
Proof.
  induction 1 as [t | t t' ev s a s' _ IH Ht Hst].
  - split; [apply map_Forall_empty | apply map_Forall_empty].
  - by eapply step_inv.
Qed.

(** A page the site answers for a route is the page it keeps for it. *)
Lemma served_kept (now : Z) (p : string) (rt : app_route) (s s' : site) (pg : vnode) :
  route_of p = Some rt ->
  step store cfg env year_of now (EGet p) s = (APage (Ok pg), s') ->
  route_cache s' !! route_path rt = Some pg.
Proof.
  simpl. intros ->. destruct (render store cfg year_of now rt) as [m|]; [|done].
  unfold serve_page. destruct (route_cache s !! route_path rt) eqn:E; [by intros [= -> <-]|].
  destruct (m (data_cache s)) as [[pg'|e] c]; intros [= -> <-]. simpl. apply lookup_insert_eq.
Qed.

(** An authenticated webhook for a post with slug [sl] drops the kept
    page of [/blog/<sl>] and leaves the data cache as it is. *)
Lemma webhook_drops_post_page (now : Z) (s s1 : site) secret fs gs sl a :
  env = Some secret ->
  obj_lookup "_type" fs = Some (JStr "post") -> obj_lookup "slug" fs = Some (JObj gs) ->
  obj_lookup "current" gs = Some (JStr sl) -> sl <> "" ->
  step store cfg env year_of now
    (EWebhook {| req_json := Some (JObj fs); req_secret := Some secret |}) s = (a, s1) ->
  route_cache s1 !! ("/blog/" +ₛ sl) = None /\ data_cache s1 = data_cache s.
Proof.
  intros He Ht Hs Hc Hne. simpl.
  rewrite (POST_authorized env _ (route_cache s) secret (JObj fs) ["/"; "/blog"; "/blog/" +ₛ sl])
    by (done || by apply (PathSelector.pathsToRevalidate_post_slug fs gs)).
  intros [= _ <-]. split; [|done]. simpl.
  pose proof (revalidate_all_fresh ["/"; "/blog"; "/blog/" +ₛ sl] (route_cache s) ("/blog/" +ₛ sl))
    as Hf.
  rewrite decide_True in Hf by set_solver. simpl in Hf.
  apply bool_decide_eq_false in Hf. by apply eq_None_not_Some.
Qed.

(** ** Properties *)

(** C8. Invariant of the running site: in every run, interleaving page
    requests and webhook calls, a page the site answers, whether kept in
    the route cache or rendered now, shows what the store answered at
    some time up to now: a page of the route [/blog/[slug]] has as its
    heading the title of the store's post for the decoded segment, and
    the listing page is [BlogPage] over the store's listing. The route
    cache never serves one path's page for another. *)
Theorem served_page_shows_store (t now : Z) (s s' : site) (p : string) (pg : vnode) :
  run store cfg env year_of t s -> (t <= now)%Z ->
  step store cfg env year_of now (EGet p) s = (APage (Ok pg), s') ->
  (forall seg, route_of p = Some (RPost seg) -> exists t0, (t0 <= now)%Z /\ shows_post store seg pg t0) /\
  (route_of p = Some RBlog -> exists t0, (t0 <= now)%Z /\ shows_listing store pg t0).
Proof.
  intros Hr Ht Hst.
  destruct (step_inv _ _ _ _ _ _ (run_inv _ _ Hr) Ht Hst) as [_ Hi]. split.
  - intros seg Hp. apply (proj1 (Hi _ _ (served_kept _ _ _ _ _ _ Hp Hst))). reflexivity.
  - intros Hp. apply (proj2 (Hi _ _ (served_kept _ _ _ _ _ _ Hp Hst))). reflexivity.
Qed.

(** C9. The webhook makes the next request render the post again, from
    data at most 60 seconds old: after an authenticated webhook for a
    post whose slug [sl] is a path segment that decodes to itself, the
    next request for [/blog/<sl>] is not served the kept page; its
    heading is the title of the post the store answered for [sl] within
    the 60 seconds before the request, which may predate the webhook. *)
Theorem webhook_then_recent_post (t now now' : Z) (s s1 s2 : site) secret fs gs sl a
    (pg : vnode) :
  run store cfg env year_of t s -> (t <= now <= now')%Z -> env = Some secret ->
  obj_lookup "_type" fs = Some (JStr "post") -> obj_lookup "slug" fs = Some (JObj gs) ->
  obj_lookup "current" gs = Some (JStr sl) ->
  route_of ("/blog/" +ₛ sl) = Some (RPost sl) -> decodeURIComponent sl = Ok sl ->
  step store cfg env year_of now
    (EWebhook {| req_json := Some (JObj fs); req_secret := Some secret |}) s = (a, s1) ->
  step store cfg env year_of now' (EGet ("/blog/" +ₛ sl)) s1 = (APage (Ok pg), s2) ->
  exists t0 v, (now' - revalidate < t0 <= now')%Z /\ store t0 (post_key sl) = Ok v /\
               page_heading pg = Some (get_prop v "title").
Proof.
  intros Hr Ht He Hty Hs Hc Hrt Hd Hw Hg.
  assert (sl <> "") as Hne by (intros ->; discriminate Hrt).
  destruct (webhook_drops_post_page _ _ _ _ _ _ _ _ He Hty Hs Hc Hne Hw) as [Hk Hdc].
  destruct (run_inv _ _ Hr) as [Hc0 _].
  assert (Hc1 : cache_inv store now' (data_cache s1)) by (rewrite Hdc; eapply cache_inv_mono; [done | lia]).
  simpl in Hg. rewrite Hrt in Hg. simpl in Hg. unfold serve_page in Hg. simpl in Hg. rewrite Hk in Hg.
  destruct (post_route store cfg now' sl (data_cache s1)) as [res c] eqn:P.
  injection Hg as -> _.
  destruct (post_route_spec _ _ _ _ _ Hc1 P) as [_ Hp].
  destruct (Hp pg eq_refl) as (t0 & Hw0 & d & v & Hd' & Hv & Hh).
  rewrite Hd in Hd'. injection Hd' as <-. eauto.
Qed.

End Lemmas.
End SiteRun.

(** ** A run at a concrete site *)

Import SiteRun FetchCache BlogList PostPage Renderer Routes.

#[local] Instance run_images : ImageUrlBuilder := {|
  image_url _ w _ := Ok ("https://cdn.sanity.io/images/p/production/a.jpg?w=" +ₛ string_of_Z w)
|}.

#[local] Instance run_dates : DateFormatter := {|
  toLocaleDateString_long v := match v with JVal (JStr s) => s | _ => "Invalid Date" end
|}.

#[local] Instance run_fallbacks : PortableTextFallbacks := {|
  unknownType _ _ := VElem "div" [] [];
  unknownBlockStyle _ ch := VElem "p" [] ch;
  unknownList _ ch := VElem "ul" [] ch;
  unknownListItem _ ch := VElem "li" [] ch;
  unknownMark _ ch := VElem "span" [] ch
|}.

(** The post [hello] is retitled at time 100. *)
Definition run_dataset (t : Z) : list json :=
  [site_post "hello" (if (t <? 100)%Z then "Old title" else "New title")
     [("publishedAt", JStr "2025-01-01T00:00:00Z")]].

Definition run_store : Z -> key -> result fetch_error json :=
  groq_store run_dataset (fun _ => "2025-06-01T00:00:00Z") (fun _ => true).

Definition run_step' (now : Z) (ev : event) (s : site) : answer * site :=
  step run_store site_config (Some "s3cret") (fun _ => 2025%Z) now ev s.

Definition hook : Webhook.request := signed (Some hello_post) (Some "s3cret").

(** A request for the post at 90, the webhook at 110, a request at 120. *)
Definition site_90 := Eval vm_compute in snd (run_step' 90 (EGet "/blog/hello") init_site).
Definition site_110 := Eval vm_compute in snd (run_step' 110 (EWebhook hook) site_90).
Definition answer_120 := Eval vm_compute in run_step' 120 (EGet "/blog/hello") site_110.
Definition answer_160 := Eval vm_compute in run_step' 160 (EGet "/blog/hello") site_110.

Definition answered_page (a : answer) : vnode :=
  match a with APage (Ok pg) => pg | _ => VVal JUndefined end.

Lemma run_90 : run run_store site_config (Some "s3cret") (fun _ => 2025%Z) 90 site_90.
Proof.
  apply (run_step _ _ _ _ 0 90 (EGet "/blog/hello") init_site
           (fst (run_step' 90 (EGet "/blog/hello") init_site)));
    [apply run_init | lia | vm_compute; reflexivity].
Defined.

Lemma served_page_shows_store_witness :
  (forall seg, route_of "/blog/hello" = Some (RPost seg) ->
     exists t0, (t0 <= 120)%Z /\ shows_post run_store seg (answered_page (fst answer_120)) t0) /\
  (route_of "/blog/hello" = Some RBlog ->
     exists t0, (t0 <= 120)%Z /\ shows_listing run_store (answered_page (fst answer_120)) t0).
Proof.
  apply (served_page_shows_store run_store site_config (Some "s3cret") (fun _ => 2025%Z) 110 120
           site_110 (snd answer_120) "/blog/hello").
  - apply (run_step _ _ _ _ 90 110 (EWebhook hook) site_90
             (fst (run_step' 110 (EWebhook hook) site_90)));
      [exact run_90 | lia | vm_compute; reflexivity].
  - lia.
  - vm_compute. reflexivity.
Defined.

Lemma webhook_then_recent_post_witness :
  exists t0 v, (120 - revalidate < t0 <= 120)%Z /\ run_store t0 (post_key "hello") = Ok v /\
               page_heading (answered_page (fst answer_120)) = Some (get_prop v "title").
Proof.
  apply (webhook_then_recent_post run_store site_config (Some "s3cret") (fun _ => 2025%Z)
           90 110 120 site_90 site_110 (snd answer_120) "s3cret"
           [("_type", JStr "post"); ("slug", JObj [("current", JStr "hello")])]
           [("current", JStr "hello")] "hello" (fst (run_step' 110 (EWebhook hook) site_90)));
    [exact run_90 | lia | reflexivity ..].
Defined.

(** The webhook does not refresh the data: the page rendered at 120,
    after the webhook of 110, still shows the title the data cache
    fetched at 90, although the store has answered the new title since
    100; the request at 160, once the entry has expired, shows it. *)
Example stale_after_webhook :
  page_heading (answered_page (fst answer_120)) = Some (jstr "Old title") /\
  page_heading (answered_page (fst answer_160)) = Some (jstr "New title").
Proof. vm_compute. split; reflexivity. Qed.
